(** * geminichatbotv6: route handlers, provider polling, progress store,
      image persistence and search-intent detection

    A shallow embedding of the orchestration code of the chat application
    (the TypeScript sources under [app/], [lib/] and the progress store)
    together with the properties its specification states about it, and
    with further properties of the same code: its edge cases, what its
    operations keep, and how they compose.

    Conventions.
    - A JavaScript string is a [string]: a sequence of code units, here the
      code units U+0000..U+00FF.  [includes], [startsWith], [substring],
      [toLowerCase] and [trim] are the String.prototype methods on them.
    - An awaited call that can reject is a computation in the monad [M]:
      it either returns a value or throws a [JsError], and it records the
      outside-world calls it makes in a log of [Event]s.
    - The outside world (fetch, the providers, the persistence service,
      [process.env], [localStorage], the clock, [Math.random]) is an explicit
      parameter of every handler. *)

From stdpp Require Import base gmap strings list pretty.
From Stdlib Require Import Ascii QArith Qround Qminmax Qabs.
From Equations Require Import Equations.

Close Scope Q_scope.
Open Scope string_scope.

Set Warnings "-register-all".

(* ===================================================================== *)
(** ** JavaScript strings *)
(* ===================================================================== *)

Module Js.

(** [s.startsWith(p)] *)
Definition startsWith (p s : string) : bool := String.prefix p s.

(** [s.includes(needle)] *)
Fixpoint includes (needle s : string) : bool :=
  String.prefix needle s ||
  match s with
  | EmptyString => false
  | String _ t => includes needle t
  end.

(** [s.substring(0, n)] *)
Definition substring0 (n : nat) (s : string) : string := String.substring 0 n s.

(** Truthiness of a string: only the empty string is falsy. *)
Definition truthy (s : string) : bool :=
  match s with EmptyString => false | _ => true end.

(** Truthiness of an optional string ([undefined] is falsy). *)
Definition truthy_opt (o : option string) : bool :=
  match o with Some s => truthy s | None => false end.

(** [a || b] on possibly-undefined strings. *)
Definition or_else (o : option string) (d : string) : string :=
  match o with
  | Some s => if truthy s then s else d
  | None => d
  end.

Definition code (c : ascii) : nat := nat_of_ascii c.

(** The one-character string holding a double quote. *)
Definition dquote : string := String (ascii_of_nat 34) EmptyString.

Definition is_upper (c : ascii) : bool :=
  let n := code c in (65 <=? n)%nat && (n <=? 90)%nat.

(** Upper-case letters of U+0000..U+00FF that [toLowerCase] changes:
    A-Z and U+00C0..U+00DE except the multiplication sign U+00D7. *)
Definition lower_char (c : ascii) : ascii :=
  let n := code c in
  if ((65 <=? n)%nat && (n <=? 90)%nat)
     || ((192 <=? n)%nat && (n <=? 222)%nat && negb (n =? 215)%nat)
  then ascii_of_nat (n + 32) else c.

Fixpoint toLowerCase (s : string) : string :=
  match s with
  | EmptyString => EmptyString
  | String c t => String (lower_char c) (toLowerCase t)
  end.

(** WhiteSpace and LineTerminator code units below U+0100:
    TAB, LF, VT, FF, CR, SP and NBSP. *)
Definition is_space (c : ascii) : bool :=
  let n := code c in
  ((9 <=? n)%nat && (n <=? 13)%nat) || (n =? 32)%nat || (n =? 160)%nat.

Definition is_digit (c : ascii) : bool :=
  let n := code c in (48 <=? n)%nat && (n <=? 57)%nat.

(** [\w]: A-Z, a-z, 0-9 and underscore. *)
Definition is_word (c : ascii) : bool :=
  let n := code c in
  ((65 <=? n)%nat && (n <=? 90)%nat) || ((97 <=? n)%nat && (n <=? 122)%nat)
  || is_digit c || (n =? 95)%nat.

(** [.] without the s flag: anything but LF and CR. *)
Definition is_dot (c : ascii) : bool :=
  let n := code c in negb ((n =? 10)%nat || (n =? 13)%nat).

Fixpoint trimStart (s : string) : string :=
  match s with
  | String c t => if is_space c then trimStart t else s
  | EmptyString => EmptyString
  end.

(** Drops the trailing white space: a character is kept when something
    that is kept follows it or when it is not white space. *)
Fixpoint trimEnd (s : string) : string :=
  match s with
  | EmptyString => EmptyString
  | String c t =>
      match trimEnd t with
      | EmptyString => if is_space c then EmptyString else String c EmptyString
      | t' => String c t'
      end
  end.

(** [s.trim()] *)
Definition trim (s : string) : string := trimEnd (trimStart s).

(** [s.split(/\s+/)]: the pieces between the maximal runs of white space.
    The empty string gives one empty piece; leading or trailing white space
    gives an empty first or last piece. [in_ws] tells that the previous
    character was white space (the run has been counted already). *)
Fixpoint split_ws_aux (s : string) (cur : string) (in_ws : bool) : list string :=
  match s with
  | EmptyString => [cur]
  | String c t =>
      if is_space c
      then (if in_ws then split_ws_aux t cur true
            else cur :: split_ws_aux t EmptyString true)
      else split_ws_aux t (cur ++ String c EmptyString) false
  end.

Definition split_ws (s : string) : list string := split_ws_aux s EmptyString false.

(** Number of occurrences of a character: [(s.match(/c/g) || []).length]. *)
Fixpoint count_char (c : ascii) (s : string) : nat :=
  match s with
  | EmptyString => 0
  | String d t => (if Ascii.eqb c d then 1 else 0) + count_char c t
  end.

End Js.

(* ===================================================================== *)
(** ** Regular expressions of the sources

    The fragment of ECMAScript regular expressions the sources use, with
    the backtracking priorities of the language (alternatives left to
    right, quantifiers greedy).  Literals are compared as under the [i]
    flag: an ASCII letter of the pattern matches both of its cases and no
    other code unit. *)
(* ===================================================================== *)

Module Regex.

Inductive cclass := CSpace | CDigit | CDot.

Definition in_class (k : cclass) (c : ascii) : bool :=
  match k with
  | CSpace => Js.is_space c
  | CDigit => Js.is_digit c
  | CDot => Js.is_dot c
  end.

Inductive regex :=
| Lit (s : string)              (* a literal, ignoring case *)
| Seq (r1 r2 : regex)           (* r1 r2 *)
| Alt (r1 r2 : regex)           (* r1 | r2 *)
| Opt (r : regex)               (* r? *)
| Star (k : cclass)             (* k* *)
| Plus (k : cclass)             (* k+ *)
| UpTo (n : nat) (k : cclass)   (* k{0,n} *)
| WordB                         (* \b *)
| Eos.                          (* $ without the m flag *)

Definition fold_case (c : ascii) : ascii :=
  if Js.is_upper c then ascii_of_nat (Js.code c + 32) else c.

Section Matcher.
Context {R : Type}.

(** A continuation receives the character before the current position
    (for [\b]) and the rest of the input. *)
Definition cont := option ascii -> string -> option R.

Definition first_of (a b : option R) : option R :=
  match a with Some _ => a | None => b end.

Fixpoint lit (p : string) (prev : option ascii) (s : string) (k : cont) : option R :=
  match p with
  | EmptyString => k prev s
  | String pc pt =>
      match s with
      | String c t =>
          if Ascii.eqb (fold_case pc) (fold_case c) then lit pt (Some c) t k else None
      | EmptyString => None
      end
  end.

(** [k*], greedy: take one more character first, give back on failure. *)
Fixpoint star (cl : cclass) (prev : option ascii) (s : string) (k : cont) : option R :=
  match s with
  | String c t =>
      if in_class cl c then first_of (star cl (Some c) t k) (k prev s) else k prev s
  | EmptyString => k prev s
  end.

Definition plus (cl : cclass) (prev : option ascii) (s : string) (k : cont) : option R :=
  match s with
  | String c t => if in_class cl c then star cl (Some c) t k else None
  | EmptyString => None
  end.

(** [k{0,n}], greedy. *)
Fixpoint upto (n : nat) (cl : cclass) (prev : option ascii) (s : string) (k : cont)
  : option R :=
  match n with
  | O => k prev s
  | S n' =>
      match s with
      | String c t =>
          if in_class cl c then first_of (upto n' cl (Some c) t k) (k prev s)
          else k prev s
      | EmptyString => k prev s
      end
  end.

Definition word_before (prev : option ascii) : bool :=
  match prev with Some c => Js.is_word c | None => false end.

Definition word_after (s : string) : bool :=
  match s with String c _ => Js.is_word c | EmptyString => false end.

Fixpoint run (r : regex) (prev : option ascii) (s : string) (k : cont) : option R :=
  match r with
  | Lit p => lit p prev s k
  | Seq r1 r2 => run r1 prev s (fun prev' s' => run r2 prev' s' k)
  | Alt r1 r2 => first_of (run r1 prev s k) (run r2 prev s k)
  | Opt r1 => first_of (run r1 prev s k) (k prev s)
  | Star cl => star cl prev s k
  | Plus cl => plus cl prev s k
  | UpTo n cl => upto n cl prev s k
  | WordB => if xorb (word_before prev) (word_after s) then k prev s else None
  | Eos => match s with EmptyString => k prev s | _ => None end
  end.
End Matcher.

(** A match attempt at every start position, left to right. *)
Fixpoint search (r : regex) (prev : option ascii) (s : string) : bool :=
  match run r prev s (fun _ _ => Some tt) with
  | Some _ => true
  | None =>
      match s with
      | String c t => search r (Some c) t
      | EmptyString => false
      end
  end.

(** [pattern.test(s)] for a pattern without the g and y flags. *)
Definition test (r : regex) (s : string) : bool := search r None s.

(** [s.replace(/^r/, '')] for a pattern anchored at the start: what follows
    the first match, or [s] itself. *)
Definition strip_prefix (r : regex) (s : string) : string :=
  match run r None s (fun _ rest => Some rest) with
  | Some rest => rest
  | None => s
  end.

(** [s.replace(/c$/, '')] for a character [c]. *)
Fixpoint strip_last (c : ascii) (s : string) : string :=
  match s with
  | EmptyString => EmptyString
  | String d EmptyString => if Ascii.eqb c d then EmptyString else s
  | String d t => String d (strip_last c t)
  end.

Fixpoint alts (l : list string) : regex :=
  match l with
  | [] => Lit EmptyString (* not used with an empty list *)
  | [a] => Lit a
  | a :: l' => Alt (Lit a) (alts l')
  end.

Fixpoint seqs (l : list regex) : regex :=
  match l with
  | [] => Lit EmptyString
  | [r] => r
  | r :: l' => Seq r (seqs l')
  end.

End Regex.

(* ===================================================================== *)
(** ** lib/search-intent-detector.ts *)
(* ===================================================================== *)

Module SearchIntentDetector.
Import Regex.

Inductive SearchType := current_events | factual | research | comparison.
Inductive Complexity := simple | moderate | complex.

Record SearchIntent := mkIntent {
  needsSearch : bool;
  searchQuery : option string;
  searchType : option SearchType;
  timeFilter : option string;
  domainFilter : option (list string);
  queryType : option SearchType;
  complexity : option Complexity;
  estimatedDuration : option nat;
  requiresAsync : option bool
}.

(** The object literal [{ needsSearch: false }]. *)
Definition no_search : SearchIntent :=
  mkIntent false None None None None None None None None.

Definition currentInfoKeywords : list string :=
  [ "latest"; "current"; "today"; "now"; "recent"; "news";
    "update"; "2025"; "2024"; "this year"; "this month";
    "right now"; "at the moment"; "currently"; "breaking";
    "live"; "ongoing"; "happening" ].

Definition factualKeywords : list string :=
  [ "what is"; "who is"; "when did"; "where is"; "how does";
    "price of"; "cost of"; "statistics"; "data"; "facts about" ].

Definition researchKeywords : list string :=
  [ "compare"; "versus"; "vs"; "difference between"; "best";
    "top"; "review"; "analysis"; "research"; "study" ].

Definition actionExclusions : list string :=
  [ "generate"; "create"; "make"; "produce"; "build"; "design";
    "draw"; "paint"; "compose"; "write"; "edit"; "modify";
    "dialogue"; "conversation"; "multi-speaker"; "voice"; "audio";
    "tts"; "text to speech"; "narrate"; "speak"; "say";
    "image"; "picture"; "photo"; "video"; "animation";
    "download"; "save"; "extract" ].

Definition article : regex := Opt (alts ["a"; "an"; "some"]).

Definition generativePatterns : list regex :=
  [ (* /\b(create|generate|make|produce)\s+(a|an|some)?\s*(dialogue|conversation|audio|voice|image|video)/i *)
    seqs [ WordB; alts ["create"; "generate"; "make"; "produce"]; Plus CSpace;
           article; Star CSpace;
           alts ["dialogue"; "conversation"; "audio"; "voice"; "image"; "video"] ];
    (* /\b(dia\s*tts|wavespeed|multi.?speaker|voice\s*acting)\b/i *)
    seqs [ WordB;
           Alt (seqs [Lit "dia"; Star CSpace; Lit "tts"])
             (Alt (Lit "wavespeed")
                (Alt (seqs [Lit "multi"; UpTo 1 CDot; Lit "speaker"])
                   (seqs [Lit "voice"; Star CSpace; Lit "acting"])));
           WordB ];
    (* /\b(alice|bob|charlie|speaker\s*\d+).{0,20}(say|speak|voice)/i *)
    seqs [ WordB;
           Alt (Lit "alice")
             (Alt (Lit "bob")
                (Alt (Lit "charlie") (seqs [Lit "speaker"; Star CSpace; Plus CDigit])));
           UpTo 20 CDot; alts ["say"; "speak"; "voice"] ];
    (* /\bcharacters?\s+(talking|speaking|conversing)\b/i *)
    seqs [ WordB; Lit "character"; Opt (Lit "s"); Plus CSpace;
           alts ["talking"; "speaking"; "conversing"]; WordB ];
    (* /\b(draw|paint|design|illustrate)\s+(a|an|some)?\s*(picture|image|scene)/i *)
    seqs [ WordB; alts ["draw"; "paint"; "design"; "illustrate"]; Plus CSpace;
           article; Star CSpace; alts ["picture"; "image"; "scene"] ] ].

(** [keywords.some(keyword => lowerMessage.includes(keyword))] *)
Definition some_included (keywords : list string) (lowerMessage : string) : bool :=
  existsb (fun keyword => Js.includes keyword lowerMessage) keywords.

Definition hasActionKeyword (userMessage : string) : bool :=
  some_included actionExclusions (Js.toLowerCase userMessage).

Definition hasGenerativePattern (userMessage : string) : bool :=
  existsb (fun pattern => test pattern userMessage) generativePatterns.

Definition extractSearchQuery (message : string) : string :=
  let r := seqs [ alts [ "what"; "who"; "when"; "where"; "how"; "why"; "is"; "are";
                         "can"; "could"; "would"; "should" ]; Plus CSpace ] in
  Js.trim (strip_last "?"%char (strip_prefix r message)).

Definition extractDomainFilter (message : string) : option (list string) :=
  let domains :=
    ((if Js.includes "reddit" message then ["reddit.com"] else []) ++
     (if Js.includes "wikipedia" message then ["wikipedia.org"] else []) ++
     (if Js.includes "github" message then ["github.com"] else []) ++
     (if Js.includes "stackoverflow" message then ["stackoverflow.com"] else []))%list in
  match domains with [] => None | _ => Some domains end.

Definition stopWords : list string :=
  [ "the"; "a"; "an"; "is"; "are"; "was"; "were"; "what"; "when"; "where";
    "who"; "how"; "why" ].

Definition mem_str (w : string) (l : list string) : bool :=
  existsb (String.eqb w) l.

(** The loop that fills the [Set] of concepts. *)
Fixpoint add_concepts (words : list string) (concepts : list string) : list string :=
  match words with
  | [] => concepts
  | word :: rest =>
      if (3 <? String.length word)%nat && negb (mem_str word stopWords)
      then add_concepts rest (if mem_str word concepts then concepts else word :: concepts)
      else add_concepts rest concepts
  end.

Definition countConcepts (message : string) : nat :=
  length (add_concepts (Js.split_ws (Js.toLowerCase message)) []).

Definition complexTerms : regex :=
  seqs [ WordB;
         alts ["analyze"; "compare"; "evaluate"; "investigate"; "comprehensive"; "detailed"];
         WordB ].

Definition assessComplexity (message : string) (searchType : option SearchType)
  : Complexity :=
  let wordCount := length (Js.split_ws message) in
  let hasMultipleQuestions := (1 <? Js.count_char "?"%char message)%nat in
  let hasComplexTerms := test complexTerms message in
  let hasMultipleConcepts := (2 <? countConcepts message)%nat in
  match searchType with
  | Some research | Some comparison => complex
  | _ =>
      let complexityScore :=
        ((if (50 <? wordCount)%nat then 2 else if (20 <? wordCount)%nat then 1 else 0)
         + (if hasMultipleQuestions then 2 else 0)
         + (if hasComplexTerms then 1 else 0)
         + (if hasMultipleConcepts then 1 else 0))%nat in
      if (4 <=? complexityScore)%nat then complex
      else if (2 <=? complexityScore)%nat then moderate
      else simple
  end.

Definition baseDurations (c : Complexity) (t : SearchType) : nat :=
  match c, t with
  | simple, current_events => 2 | simple, factual => 3
  | simple, research => 10 | simple, comparison => 8
  | moderate, current_events => 5 | moderate, factual => 8
  | moderate, research => 30 | moderate, comparison => 20
  | complex, current_events => 10 | complex, factual => 15
  | complex, research => 60 | complex, comparison => 40
  end.

Definition estimateDuration (complexity : option Complexity)
    (searchType : option SearchType) : nat :=
  let d := baseDurations (default simple complexity) (default factual searchType) in
  (* [... || 5]: every entry of the table is non-zero *)
  if (d =? 0)%nat then 5%nat else d.

(** The search type chosen by the detector from the three keyword tests. *)
Definition chooseSearchType (needsCurrentInfo needsResearch : bool) : SearchType :=
  if needsCurrentInfo then current_events
  else if needsResearch then research
  else factual.

Definition detectSearchIntent (userMessage : string) : SearchIntent :=
  let lowerMessage := Js.toLowerCase userMessage in
  if some_included actionExclusions lowerMessage || hasGenerativePattern userMessage
  then no_search
  else
    let needsCurrentInfo := some_included currentInfoKeywords lowerMessage in
    let needsFactualInfo := some_included factualKeywords lowerMessage in
    let needsResearch := some_included researchKeywords lowerMessage in
    if negb (needsCurrentInfo || needsFactualInfo || needsResearch)
    then no_search
    else
      let timeFilter :=
        if Js.includes "today" lowerMessage then Some "day"
        else if Js.includes "this week" lowerMessage then Some "week"
        else if Js.includes "this month" lowerMessage then Some "month"
        else if Js.includes "this year" lowerMessage then Some "year"
        else None in
      let searchType := chooseSearchType needsCurrentInfo needsResearch in
      let domainFilter := extractDomainFilter lowerMessage in
      let complexity := assessComplexity userMessage (Some searchType) in
      let requiresAsync :=
        match complexity, searchType with
        | complex, _ | _, research => true
        | _, _ => false
        end in
      let estimatedDuration := estimateDuration (Some complexity) (Some searchType) in
      mkIntent true (Some (extractSearchQuery userMessage)) (Some searchType)
               timeFilter domainFilter (Some searchType) (Some complexity)
               (Some estimatedDuration) (Some requiresAsync).

End SearchIntentDetector.

(* ===================================================================== *)
(** ** Awaited calls: results, exceptions and the log of outside calls *)
(* ===================================================================== *)

Module Eff.

(** What a [catch] clause reads of a thrown value: [error.message],
    [error.code] and [error.type], each possibly undefined. *)
Record JsError := mkError {
  err_message : option string;
  err_code : option string;
  err_type : option string
}.

(** [new Error(msg)] *)
Definition Error (msg : string) : JsError := mkError (Some msg) None None.

Inductive Outcome (A : Type) :=
| Returned (a : A)
| Thrown (e : JsError).
Arguments Returned {A} a.
Arguments Thrown {A} e.

(** A computation over events [E]: the outside calls it made, in order,
    and how it ended. *)
Definition M (E A : Type) : Type := list E * Outcome A.

Definition ret {E A} (a : A) : M E A := ([], Returned a).
Definition throw {E A} (e : JsError) : M E A := ([], Thrown e).

(** Awaiting a result that is already there: nothing is logged. *)
Definition settle {E A} (o : Outcome A) : M E A := ([], o).

(** An outside call: it is logged and ends as the world says. *)
Definition call {E A} (ev : E) (o : Outcome A) : M E A := ([ev], o).

Definition bind {E A B} (m : M E A) (f : A -> M E B) : M E B :=
  match m with
  | (l, Returned a) => let '(l', r) := f a in ((l ++ l')%list, r)
  | (l, Thrown e) => (l, Thrown e)
  end.

(** [try { m } catch (e) { h e }] *)
Definition try_catch {E A} (m : M E A) (h : JsError -> M E A) : M E A :=
  match m with
  | (l, Returned a) => (l, Returned a)
  | (l, Thrown e) => let '(l', r) := h e in ((l ++ l')%list, r)
  end.

#[global] Instance M_ret {E} : MRet (M E) := fun A => @ret E A.
#[global] Instance M_bind {E} : MBind (M E) := fun A B f m => bind m f.

(** The same computation with its events seen as events of a caller. *)
Definition lift_log {E F A} (f : E -> F) (m : M E A) : M F A :=
  (List.map f (fst m), snd m).

Definition log_of {E A} (m : M E A) : list E := fst m.
Definition outcome_of {E A} (m : M E A) : Outcome A := snd m.

(** The [Response] of an HTTP [fetch], as far as the sources read it. *)
Record HttpResponse (P : Type) := mkResponse {
  ok : bool;
  status : nat;
  statusText : string;
  payload : P
}.
Arguments mkResponse {P} ok status statusText payload.
Arguments ok {P} h.
Arguments status {P} h.
Arguments statusText {P} h.
Arguments payload {P} h.

(** A [fetch] rejects ([NetworkError]) or resolves to a response. *)
Inductive FetchOutcome (P : Type) :=
| NetworkError (e : JsError)
| Resolved (r : HttpResponse P).
Arguments NetworkError {P} e.
Arguments Resolved {P} r.

End Eff.

(** Unfolds the operations of [M] down to pairs of a log and an outcome. *)
Ltac munfold :=
  unfold mbind, mret, Eff.M_bind, Eff.M_ret, Eff.bind, Eff.ret, Eff.throw, Eff.call,
    Eff.settle, Eff.try_catch, Eff.lift_log in *.

(* ===================================================================== *)
(** ** lib/image-url-validator.ts and app/edit-image/route.ts *)
(* ===================================================================== *)

Module EditImage.
Import Eff.

(** The record [getImageByLocalId] resolves to, as far as the route reads it. *)
Record StoredImage := { stored_url : option string }.

Record EditInput := {
  ei_prompt : string;
  input_image : string;
  aspect_ratio : string;
  output_format : string;
  safety_tolerance : nat
}.

Inductive GptQuality := low | medium | high.

Record GptEditOptions := {
  opt_size : string;
  opt_quality : GptQuality;
  opt_style : string;
  opt_mask : option string
}.

Record GptEditResult := {
  res_imageUrl : string;
  res_originalImageUrl : option string;
  res_revisedPrompt : option string;
  res_model : option string;
  res_method : option string
}.

Inductive Event :=
| EvHead (url : string) (timeout : option nat)  (* fetch(url, { method: 'HEAD' }) *)
| EvGet (url : string)                          (* fetch(url) *)
| EvProxy (url : string)                        (* POST /api/image-proxy/convert-to-data-url *)
| EvLookup (imageId : string)                   (* getImageByLocalId(imageId) *)
| EvReplicateEdit (model : string) (input : EditInput)
| EvOpenAIEdit (imageUrl prompt : string) (options : GptEditOptions).

(** The world a request runs in; it does not change while the request is
    handled, so that asking twice gives the same answer.  [fetch_head]
    takes the abort timeout (the route passes 5000 ms, the validator none).
    The payload of a GET is what reading the blob as a data URL gives; the
    payload of the proxy is the [dataUrl] of its JSON.  [getImageByLocalId]
    is the persistence service (lib/services/chat-persistence, outside
    these sources): it resolves to the stored record or to null.  The two
    provider clients, outside these sources as well, return or throw. *)
Record Env := {
  OPENAI_API_KEY : option string;
  REPLICATE_API_KEY : option string;
  fetch_head : string -> option nat -> FetchOutcome unit;
  fetch_get : string -> FetchOutcome (Outcome string);
  fetch_proxy : string -> FetchOutcome (Outcome string);
  getImageByLocalId : string -> option StoredImage;
  replicate_editImage : string -> EditInput -> Outcome string;
  smartEditWithGPTImage1 : string -> string -> GptEditOptions -> Outcome GptEditResult
}.

(** [await fetch(...)]: a rejected fetch throws. *)
Definition await_fetch {P} (ev : Event) (o : FetchOutcome P) : M Event (HttpResponse P) :=
  match o with
  | NetworkError e => call ev (Thrown e)
  | Resolved r => call ev (Returned r)
  end.

Definition show_nat (n : nat) : string := pretty n.

Section Validator.
Variable env : Env.

Definition validateImageUrl (url : string) : M Event bool :=
  try_catch
    (response ← await_fetch (EvHead url None) (fetch_head env url None);
     mret (ok response))
    (fun _ => mret false).

Definition downloadImageAsDataUrl (url : string) : M Event string :=
  try_catch
    (response ← await_fetch (EvGet url) (fetch_get env url);
     if negb (ok response)
     then throw (Error ("Failed to fetch image: " ++ show_nat (status response)
                        ++ " " ++ statusText response))
     else settle (payload response))
    (fun error => throw error).

(** The server-side conversion tried after a failed download: [Some] is the
    [return dataUrl] of the function, [None] falls through to the final
    [throw]. *)
Definition proxy_conversion (url : string) : M Event (option string) :=
  try_catch
    (response ← await_fetch (EvProxy url) (fetch_proxy env url);
     if ok response
     then dataUrl ← settle (payload response); mret (Some dataUrl)
     else mret None)
    (fun _ => mret None).

Definition ensureImageUrlAccessible (url : string) : M Event string :=
  isAccessible ← validateImageUrl url;
  if (isAccessible : bool) then mret url
  else
    try_catch
      (downloadImageAsDataUrl url)
      (fun _ =>
         r ← proxy_conversion url;
         match r with
         | Some dataUrl => mret dataUrl
         | None =>
             throw (Error ("Image URL has expired and could not be recovered. " ++
                           "Please try editing a more recent image."))
         end).

End Validator.

(** [isReplicateDeliveryUrl] *)
Definition isReplicateDeliveryUrl (url : string) : bool :=
  Js.includes "replicate.delivery" url.

(** *** The route's request and responses *)

(** The parsed request body, with the types of the route's destructuring
    pattern; [None] is a missing field. *)
Record Body := {
  imageUrl : option string;
  imageId : option string;
  prompt : option string;
  model : option string;
  quality : option string;
  style : option string;
  size : option string;
  mask : option string
}.

Record TechnicalInfo := {
  ti_originalUrl : string;
  ti_errorType : string;
  ti_provider : string
}.

Record ImageEntry := {
  img_url : string;
  img_originalUrl : string;
  img_revisedPrompt : string;
  img_index : nat
}.

Record Metadata := {
  md_model : string;
  md_provider : string;
  md_quality : string;
  md_style : string;
  md_size : string;
  md_originalPrompt : string;
  md_editMode : bool;
  md_method : string;
  md_imageCount : nat;
  md_note : option string
}.

Inductive Json :=
| ErrorJson (error : string) (details : option string) (suggestion : option string)
            (technicalInfo : option TechnicalInfo)
| SuccessJson (images : list ImageEntry) (metadata : Metadata).

(** [NextResponse.json(json, { status })] *)
Record Response := { resp_status : nat; resp_json : Json }.

Definition error_response (st : nat) (error : string) (details : option string)
  : Response :=
  {| resp_status := st; resp_json := ErrorJson error details None None |}.

Definition error_of (r : Response) : option string :=
  match resp_json r with
  | ErrorJson error _ _ _ => Some error
  | SuccessJson _ _ => None
  end.


Definition metadata_of (r : Response) : option Metadata :=
  match resp_json r with
  | ErrorJson _ _ _ _ => None
  | SuccessJson _ md => Some md
  end.

(** The quality conversion of the route (lines 71-77). *)
Definition gptQuality_of (quality : string) : GptQuality :=
  if String.eqb quality "standard" then medium
  else if String.eqb quality "hd" then high
  else medium.

Definition validSizes : list string := ["1024x1024"; "1536x1024"; "1024x1536"].

(** The size mapping of the route (lines 102-116). *)
Definition actualSize_of (size : string) : string :=
  if String.eqb size "1792x1024" then "1536x1024"
  else if String.eqb size "1024x1536" then "1024x1536"
  else if negb (existsb (String.eqb size) validSizes) then "1024x1024"
  else size.

(** The response of both [catch (recoveryError)] clauses. *)
Definition expired_response (imageUrl : string) : Response :=
  let isReplicateUrl := Js.includes "replicate.delivery" imageUrl in
  {| resp_status := 400;
     resp_json :=
       ErrorJson "Image URL expired or inaccessible"
         (Some (if isReplicateUrl
                then "The Replicate image URL has expired. Replicate URLs are only available for 24 hours."
                else "The image URL is no longer accessible."))
         (Some "To edit this image, please save it to your device first, then upload it again.")
         (Some {| ti_originalUrl := imageUrl;
                  ti_errorType := "url_expired";
                  ti_provider := if isReplicateUrl then "replicate" else "unknown" |}) |}.

(** [storedImage && storedImage.url]: the permanent URL, when there is one. *)
Definition permanent_url (storedImage : option StoredImage) : option string :=
  match storedImage with
  | Some img =>
      match stored_url img with
      | Some u => if Js.truthy u then Some u else None
      | None => None
      end
  | None => None
  end.

(** [imageId && isReplicateDeliveryUrl(imageUrl)]: the id to look up. *)
Definition lookup_id (imageId : option string) (imageUrl : string) : option string :=
  match imageId with
  | Some id => if Js.truthy id && isReplicateDeliveryUrl imageUrl then Some id else None
  | None => None
  end.

Section Route.
Variable env : Env.

Definition await_lookup (id : string) : M Event (option StoredImage) :=
  call (EvLookup id) (Returned (getImageByLocalId env id)).

(** The block guarded by [try] at lines 198-223: the HEAD request and,
    when the answer is not ok, the recovery.  It yields [validImageUrl]. *)
Definition head_check (imageUrl : string) (imageId : option string) : M Event string :=
  testResponse ← await_fetch (EvHead imageUrl (Some 5000))
                             (fetch_head env imageUrl (Some 5000));
  if negb (ok testResponse) then
    match lookup_id imageId imageUrl with
    | Some id =>
        storedImage ← await_lookup id;
        match permanent_url storedImage with
        | Some u => mret u
        | None => ensureImageUrlAccessible env imageUrl
        end
    | None => ensureImageUrlAccessible env imageUrl
    end
  else mret imageUrl.

(** The [catch (error)] clause at lines 224-289.  [inl] is a response the
    handler returns at once, [inr] the new [validImageUrl]. *)
Definition head_check_failed (imageUrl : string) (imageId : option string)
  : M Event (Response + string) :=
  let recover : M Event (Response + string) :=
    try_catch
      (v ← ensureImageUrlAccessible env imageUrl; mret (inr v))
      (fun _ => mret (inl (expired_response imageUrl))) in
  match lookup_id imageId imageUrl with
  | Some id =>
      storedImage ← await_lookup id;
      match permanent_url storedImage with
      | Some u => mret (inr u)
      | None => recover
      end
  | None => recover
  end.

(** Lines 191-290: the validation of the image URL for Replicate. *)
Definition validate_for_replicate (imageUrl : string) (imageId : option string)
  : M Event (Response + string) :=
  if negb (Js.startsWith "data:" imageUrl)
     && negb (Js.includes "blob.vercel-storage.com" imageUrl)
  then
    try_catch
      (v ← head_check imageUrl imageId; mret (inr v))
      (fun _ => head_check_failed imageUrl imageId)
  else mret (inr imageUrl).

Definition replicate_branch (model imageUrl : string) (imageId : option string)
    (prompt quality style size : string) : M Event Response :=
  if negb (Js.truthy_opt (REPLICATE_API_KEY env))
  then mret (error_response 500 "Replicate API key not configured"
               (Some "Please add REPLICATE_API_KEY to your .env.local file."))
  else
    r ← validate_for_replicate imageUrl imageId;
    match r with
    | inl response => mret response
    | inr validImageUrl =>
        let editInput :=
          {| ei_prompt := prompt;
             input_image := validImageUrl;
             aspect_ratio := "match_input_image";
             output_format := "png";
             safety_tolerance := 2 |} in
        editedImageUrl ← call (EvReplicateEdit model editInput)
                              (replicate_editImage env model editInput);
        mret {| resp_status := 200;
                resp_json :=
                  SuccessJson
                    [ {| img_url := editedImageUrl;
                         img_originalUrl := imageUrl;
                         img_revisedPrompt := prompt;
                         img_index := 0 |} ]
                    {| md_model := model;
                       md_provider := "replicate";
                       md_quality := quality;
                       md_style := style;
                       md_size := size;
                       md_originalPrompt := prompt;
                       md_editMode := true;
                       md_method := "image-to-image";
                       md_imageCount := 1;
                       md_note := None |} |}
    end.

Definition gpt_branch (imageUrl prompt quality style size : string)
    (mask : option string) : M Event Response :=
  if negb (Js.startsWith "data:" imageUrl)
     && (Js.includes "generativelanguage.googleapis.com" imageUrl
         || Js.includes "files/" imageUrl)
  then
    mret {| resp_status := 400;
            resp_json :=
              ErrorJson "Image editing not available for Gemini file URIs"
                (Some "Gemini file URIs cannot be accessed by external services. Please upload the image again or use a generated image.")
                (Some "Try uploading the image file directly instead of using a Gemini URI")
                None |}
  else
    let options :=
      {| opt_size := actualSize_of size;
         opt_quality := gptQuality_of quality;
         opt_style := style;
         opt_mask := mask |} in
    result ← call (EvOpenAIEdit imageUrl prompt options)
                  (smartEditWithGPTImage1 env imageUrl prompt options);
    mret {| resp_status := 200;
            resp_json :=
              SuccessJson
                [ {| img_url := res_imageUrl result;
                     img_originalUrl := Js.or_else (res_originalImageUrl result) imageUrl;
                     img_revisedPrompt := Js.or_else (res_revisedPrompt result) prompt;
                     img_index := 0 |} ]
                {| md_model := Js.or_else (res_model result) "gpt-image-1";
                   md_provider := "openai";
                   md_quality := quality;
                   md_style := style;
                   md_size := size;
                   md_originalPrompt := prompt;
                   md_editMode := true;
                   md_method := Js.or_else (res_method result) "image-to-image";
                   md_imageCount := 1;
                   md_note :=
                     match res_model result with
                     | Some m =>
                         if Js.includes "fallback" m
                         then Some "Using fallback model due to GPT-Image-1 availability"
                         else None
                     | None => None
                     end |} |}.

(** [error.message?.includes(needle)] *)
Definition message_includes (needle : string) (error : JsError) : bool :=
  match err_message error with
  | Some m => Js.includes needle m
  | None => false
  end.

Definition opt_is (o : option string) (s : string) : bool :=
  match o with Some x => String.eqb x s | None => false end.

(** The [catch (error)] clause at lines 338-403. *)
Definition catch_edit_error (error : JsError) : Response :=
  if message_includes "invalid_request_error" error then
    error_response 400 "Invalid request"
      (Some ("The request format or parameters are invalid. "
             ++ default EmptyString (err_message error)))
  else if message_includes "rate_limit_exceeded" error then
    error_response 429 "Rate limit exceeded"
      (Some "Too many requests to OpenAI. Please wait a moment and try again.")
  else if message_includes "404 Client Error" error
          && message_includes "replicate.delivery" error then
    {| resp_status := 400;
       resp_json :=
         ErrorJson "Image URL expired"
           (Some "The image URL has expired. Replicate-generated images are only accessible for 24 hours. Please try editing a more recent image or upload the image file directly.")
           (Some "Upload the image file directly to edit it, or generate a new image to edit.")
           None |}
  else if message_includes "safety system" error
          || opt_is (err_code error) "moderation_blocked"
          || opt_is (err_type error) "image_generation_user_error" then
    error_response 400 "Content not allowed"
      (Some "The image or edit request was rejected by OpenAI's safety system. This may happen with copyrighted characters, inappropriate content, or certain types of modifications. Try using different wording or editing a different image.")
  else if message_includes "model_not_found" error then
    error_response 400 "Model not available"
      (Some "GPT-Image-1 model not found. Please ensure your OpenAI organization is verified and you have access to GPT-4o's image generation capabilities.")
  else
    error_response 500 "Failed to edit image"
      (Some (Js.or_else (err_message error) "An unexpected error occurred")).

Definition is_flux (model : string) : bool :=
  String.eqb model "flux-kontext-max" || String.eqb model "flux-kontext-pro".

(** The [try] block at lines 129-337: the dispatch on the model. *)
Definition dispatch (model imageUrl : string) (imageId : option string)
    (prompt quality style size : string) (mask : option string) : M Event Response :=
  if String.eqb model "gpt-image-1" then gpt_branch imageUrl prompt quality style size mask
  else if is_flux model then replicate_branch model imageUrl imageId prompt quality style size
  else
    mret (error_response 400 "Invalid model specified"
            (Some ("The model " ++ Js.dquote ++ model ++ Js.dquote
                  ++ " is not supported for image editing."))).

(** [POST]; [req] is what [await req.json()] gives. *)
Definition POST (req : Outcome Body) : M Event Response :=
  try_catch
    (body ← settle req;
     let model := default "flux-kontext-pro" (model body) in
     let quality := default "standard" (quality body) in
     let style := default "vivid" (style body) in
     let size := default "1024x1024" (size body) in
     if String.eqb model "gpt-image-1" && negb (Js.truthy_opt (OPENAI_API_KEY env)) then
       mret (error_response 500 "OpenAI API key not configured"
               (Some "Please add OPENAI_API_KEY to your .env.local file. Get your API key from https://platform.openai.com/api-keys"))
     else if is_flux model && negb (Js.truthy_opt (REPLICATE_API_KEY env)) then
       mret (error_response 500 "Replicate API key not configured"
               (Some "Please add REPLICATE_API_KEY to your .env.local file."))
     else
       match imageUrl body with
       | None => mret (error_response 400 "Image URL is required" None)
       | Some imageUrl =>
           if negb (Js.truthy imageUrl)
           then mret (error_response 400 "Image URL is required" None)
           else
             match prompt body with
             | None => mret (error_response 400 "Edit prompt is required" None)
             | Some prompt =>
                 if negb (Js.truthy prompt)
                 then mret (error_response 400 "Edit prompt is required" None)
                 else
                   try_catch
                     (dispatch model imageUrl (imageId body) prompt quality style size
                        (mask body))
                     (fun error => mret (catch_edit_error error))
             end
       end)
    (fun error =>
       mret (error_response 500 "Failed to process request"
               (Some (Js.or_else (err_message error) "Unknown error")))).

End Route.

End EditImage.

(* ===================================================================== *)
(** ** app/generate-image/route.ts *)
(* ===================================================================== *)

Module GenerateImage.
Import Eff.

Inductive GptQuality := low | medium | high.

Record Body := {
  prompt : option string;
  originalPrompt : option string;
  model : option string;
  quality : option string;
  style : option string;
  size : option string;
  imageContext : option string;
  originalImageId : option string
}.

Record GptOptions := {
  go_quality : GptQuality;
  go_style : option string;   (* absent in the call with image context *)
  go_size : string;
  go_n : option nat;
  go_model : option string
}.

Record ReplicateOptions := {
  ro_aspect_ratio : string;
  ro_output_format : string;
  ro_guidance_scale : Q
}.

Record GptResult := {
  res_imageUrl : string;
  res_revisedPrompt : option string
}.

Inductive Event :=
| EvGenerateWithContext (prompt imageContext : string) (options : GptOptions)
| EvGenerateWithGPTImage1 (prompt : string) (options : GptOptions)
| EvReplicateGenerate (model prompt : string) (options : ReplicateOptions).

Record Env := {
  OPENAI_API_KEY : option string;
  REPLICATE_API_KEY : option string;
  generateImageWithContext : string -> string -> GptOptions -> Outcome GptResult;
  generateImageWithGPTImage1 : string -> GptOptions -> Outcome GptResult;
  replicate_generateImage : string -> string -> ReplicateOptions -> Outcome string
}.

Record ImageEntry := {
  img_url : string;
  img_revisedPrompt : string;
  img_index : nat
}.

Record Metadata := {
  md_model : string;
  md_provider : string;
  md_quality : option string;          (* not set for Replicate models *)
  md_mappedQuality : option GptQuality;
  md_style : string;
  md_size : string;
  md_originalPrompt : string;
  md_imageCount : nat
}.

Inductive Json :=
| ErrorJson (error : string) (details : option string)
| SuccessJson (images : list ImageEntry) (metadata : Metadata).

Record Response := { resp_status : nat; resp_json : Json }.

Definition error_response (st : nat) (error : string) (details : option string)
  : Response :=
  {| resp_status := st; resp_json := ErrorJson error details |}.

Definition error_of (r : Response) : option string :=
  match resp_json r with
  | ErrorJson error _ => Some error
  | SuccessJson _ _ => None
  end.

Definition metadata_of (r : Response) : option Metadata :=
  match resp_json r with
  | ErrorJson _ _ => None
  | SuccessJson _ md => Some md
  end.

(** The quality mapping of the route (lines 50-58). *)
Definition mappedQuality_of (quality : string) : GptQuality :=
  if String.eqb quality "hd" then high
  else if String.eqb quality "standard" then medium
  else medium.

(** [aspectRatioMap[size] || "1:1"] *)
Definition aspect_ratio_of (size : string) : string :=
  if String.eqb size "1024x1024" then "1:1"
  else if String.eqb size "1792x1024" then "16:9"
  else if String.eqb size "1024x1536" then "9:16"
  else "1:1".

Definition is_replicate_model (model : string) : bool :=
  String.eqb model "flux-kontext-pro" || String.eqb model "flux-kontext-max"
  || String.eqb model "flux-dev-ultra-fast".

Section Route.
Variable env : Env.

Definition gpt_branch (prompt : string) (body : Body) (quality style size : string)
  : M Event Response :=
  if negb (Js.truthy_opt (OPENAI_API_KEY env))
  then mret (error_response 500 "OpenAI API key not configured"
               (Some "Please add OPENAI_API_KEY to your .env.local file."))
  else
    try_catch
      (let mappedQuality := mappedQuality_of quality in
       result ←
         match imageContext body with
         | Some ctx =>
             if Js.truthy ctx
             then
               let options := {| go_quality := mappedQuality; go_style := None;
                                 go_size := size; go_n := None;
                                 go_model := Some "gpt-image-1" |} in
               call (EvGenerateWithContext prompt ctx options)
                    (generateImageWithContext env prompt ctx options)
             else
               let options := {| go_quality := mappedQuality; go_style := Some style;
                                 go_size := size; go_n := Some 1; go_model := None |} in
               call (EvGenerateWithGPTImage1 prompt options)
                    (generateImageWithGPTImage1 env prompt options)
         | None =>
             let options := {| go_quality := mappedQuality; go_style := Some style;
                               go_size := size; go_n := Some 1; go_model := None |} in
             call (EvGenerateWithGPTImage1 prompt options)
                  (generateImageWithGPTImage1 env prompt options)
         end;
       mret {| resp_status := 200;
               resp_json :=
                 SuccessJson
                   [ {| img_url := res_imageUrl result;
                        img_revisedPrompt := Js.or_else (res_revisedPrompt result) prompt;
                        img_index := 0 |} ]
                   {| md_model := "gpt-image-1";
                      md_provider := "openai";
                      md_quality := Some quality;
                      md_mappedQuality := Some mappedQuality;
                      md_style := style;
                      md_size := size;
                      md_originalPrompt := Js.or_else (originalPrompt body) prompt;
                      md_imageCount := 1 |} |})
      (fun error =>
         mret (error_response 500 "Failed to generate image with GPT-Image-1"
                 (Some (Js.or_else (err_message error) "Image generation failed")))).

Definition replicate_branch (model prompt : string) (body : Body) (style size : string)
  : M Event Response :=
  if negb (Js.truthy_opt (REPLICATE_API_KEY env))
  then mret (error_response 500 "Replicate API key not configured"
               (Some "Please add REPLICATE_API_KEY to your .env.local file."))
  else
    try_catch
      (let options :=
         {| ro_aspect_ratio := aspect_ratio_of size;
            ro_output_format := "jpg";
            ro_guidance_scale := if String.eqb style "vivid" then (9 # 2)%Q else (7 # 2)%Q |} in
       imageUrl ← call (EvReplicateGenerate model prompt options)
                       (replicate_generateImage env model prompt options);
       mret {| resp_status := 200;
               resp_json :=
                 SuccessJson
                   [ {| img_url := imageUrl; img_revisedPrompt := prompt; img_index := 0 |} ]
                   {| md_model := model;
                      md_provider := "replicate";
                      md_quality := None;
                      md_mappedQuality := None;
                      md_style := style;
                      md_size := size;
                      md_originalPrompt := Js.or_else (originalPrompt body) prompt;
                      md_imageCount := 1 |} |})
      (fun error =>
         mret (error_response 500 ("Failed to generate image with " ++ model)
                 (Some (Js.or_else (err_message error) "Image generation failed")))).

(** [POST]; [req] is what [await req.json()] gives. *)
Definition POST (req : Outcome Body) : M Event Response :=
  try_catch
    (body ← settle req;
     let model := default "flux-kontext-pro" (model body) in
     let quality := default "standard" (quality body) in
     let style := default "vivid" (style body) in
     let size := default "1024x1024" (size body) in
     match prompt body with
     | None => mret (error_response 400 "Prompt is required" None)
     | Some prompt =>
         if negb (Js.truthy prompt)
         then mret (error_response 400 "Prompt is required" None)
         else if String.eqb model "gpt-image-1"
         then gpt_branch prompt body quality style size
         else if is_replicate_model model
         then replicate_branch model prompt body style size
         else
           mret (error_response 400 ("Unsupported model: " ++ model)
                   (Some "Supported models: gpt-image-1, flux-kontext-pro, flux-kontext-max, flux-dev-ultra-fast"))
     end)
    (fun _ => mret (error_response 500 "Internal server error" None)).

End Route.

End GenerateImage.

(* ===================================================================== *)
(** ** lib/wavespeed-multi-client.ts *)
(* ===================================================================== *)

Module WaveSpeed.
Import Eff.

Record WaveSpeedMultiImageRequest := {
  images : list string;
  prompt : string;
  guidanceScale : option Q;
  safetyTolerance : option string
}.

Record ProcessedInput := {
  pi_index : nat;
  pi_type : string;
  pi_length : nat   (* [img.length], which the source prints in KB *)
}.

Record ResponseMetadata := {
  md_model : string;
  md_provider : string;
  md_processedInputs : option (list ProcessedInput * string);
  md_executionTime : option nat
}.

Record WaveSpeedMultiImageResponse := {
  success : bool;
  imageUrl : option string;
  taskId : option string;
  error : option string;
  metadata : option ResponseMetadata
}.

Record Payload := {
  guidance_scale : Q;
  pl_images : list string;
  pl_prompt : string;
  safety_tolerance : string
}.

(** The JSON of the submit answer: [data?.id] and [id]. *)
Record SubmitResult := {
  sr_data_id : option string;
  sr_id : option string
}.

(** The JSON of a poll answer: [data?.status], [data?.outputs], [status],
    [outputs] and [error]. *)
Record PollResult := {
  pr_data_status : option string;
  pr_data_outputs : option (list string);
  pr_status : option string;
  pr_outputs : option (list string);
  pr_error : option string
}.

(** The body of the submit response: [text()] and [json()]. *)
Record SubmitBody := {
  sb_text : Outcome string;
  sb_json : Outcome SubmitResult
}.

Inductive Event :=
| EvSubmit (url : string) (payload : Payload)
| EvSleep (ms : nat)
| EvPoll (url : string) (attempt : nat).

(** The WaveSpeed service: the answer to the submission and the answer to
    each poll, by attempt number. *)
Record Service := {
  submit : string -> Payload -> FetchOutcome SubmitBody;
  poll : string -> nat -> FetchOutcome (Outcome PollResult)
}.

Record Client := { apiKey : string; baseUrl : string }.

(** [new WaveSpeedMultiImageClient(apiKey)] with [process.env.WAVESPEED_API_KEY]. *)
Definition new_client (apiKey envKey : option string) : Outcome Client :=
  let key := Js.or_else apiKey (Js.or_else envKey EmptyString) in
  if negb (Js.truthy key) then Thrown (Error "WaveSpeed API key is required")
  else Returned {| apiKey := key; baseUrl := "https://api.wavespeed.ai/api/v3" |}.

Definition maxAttempts : nat := 120.

Definition await_fetch {P} (ev : Event) (o : FetchOutcome P) : M Event (HttpResponse P) :=
  match o with
  | NetworkError e => call ev (Thrown e)
  | Resolved r => call ev (Returned r)
  end.

(** [a || b] on possibly-undefined arrays: an array, even empty, is truthy. *)
Definition first_defined {A} (a b : option A) : option A :=
  match a with Some _ => a | None => b end.

(** [a || b] on possibly-undefined strings, undefined when both are falsy
    ([b] is returned as it is when [a] is falsy). *)
Definition first_truthy (a b : option string) : option string :=
  if Js.truthy_opt a then a else b.

Definition opt_is (o : option string) (s : string) : bool :=
  match o with Some x => String.eqb x s | None => false end.

Definition model_name : string := "wavespeed-ai/flux-kontext-max/multi".

Definition processed_inputs (imgs : list string) : list ProcessedInput :=
  imap (fun i img =>
          {| pi_index := i + 1;
             pi_type := if Js.startsWith "data:" img then "data URL" else "HTTP URL";
             pi_length := String.length img |}) imgs.

Definition completed_response (request : WaveSpeedMultiImageRequest)
    (imageUrl taskId : string) (attempts : nat) : WaveSpeedMultiImageResponse :=
  {| success := true;
     imageUrl := Some imageUrl;
     taskId := Some taskId;
     error := None;
     metadata :=
       Some {| md_model := model_name;
               md_provider := "wavespeed";
               md_processedInputs :=
                 Some (processed_inputs (images request), prompt request);
               md_executionTime := Some (attempts * 1000) |} |}.

Definition failure_response (e : JsError) : WaveSpeedMultiImageResponse :=
  {| success := false;
     imageUrl := None;
     taskId := None;
     error := Some (default "Unknown error occurred" (err_message e));
     metadata :=
       Some {| md_model := model_name;
               md_provider := "wavespeed";
               md_processedInputs := None;
               md_executionTime := None |} |}.

Section Client.
Variable service : Service.
Variable this : Client.

(** One pass through the inner [try] of the loop, lines 107-158.  [Some]
    is the [return] of the function, [None] goes on to the next turn. *)
Definition poll_once (request : WaveSpeedMultiImageRequest) (resultUrl taskId : string)
    (attempts : nat) : M Event (option WaveSpeedMultiImageResponse) :=
  pollResponse ← await_fetch (EvPoll resultUrl attempts) (poll service resultUrl attempts);
  if negb (ok pollResponse) then mret None (* continue *)
  else
    pollResult ← settle (payload pollResponse);
    let status := first_truthy (pr_data_status pollResult) (pr_status pollResult) in
    let outputs := first_defined (pr_data_outputs pollResult) (pr_outputs pollResult) in
    match (if opt_is status "completed" then outputs else None) with
    | Some (imageUrl :: _) =>
        mret (Some (completed_response request imageUrl taskId attempts))
    | _ =>
        if opt_is status "failed"
        then throw (Error ("Task failed: " ++ Js.or_else (pr_error pollResult) "Unknown error"))
        else mret None
    end.

(** The [while (attempts < maxAttempts)] loop, lines 103-167.  [remaining]
    is [maxAttempts - attempts], the number of turns the condition still
    allows; when it is 0 the loop is left and the timeout is thrown. *)
Fixpoint poll_loop (request : WaveSpeedMultiImageRequest) (resultUrl taskId : string)
    (remaining attempts : nat) : M Event WaveSpeedMultiImageResponse :=
  match remaining with
  | O => throw (Error "Task timed out after 2 minutes")
  | S remaining' =>
      _ ← call (EvSleep 1000) (Returned tt);
      let attempts := S attempts in
      r ← try_catch
            (poll_once request resultUrl taskId attempts)
            (fun pollError =>
               if (maxAttempts <=? attempts)%nat then throw pollError else mret None);
      match r with
      | Some response => mret response
      | None => poll_loop request resultUrl taskId remaining' attempts
      end
  end.

Definition generateMultiImageEdit (request : WaveSpeedMultiImageRequest)
  : M Event WaveSpeedMultiImageResponse :=
  try_catch
    (let payload :=
       {| guidance_scale :=
            match guidanceScale request with
            | Some g => if Qeq_bool g 0 then (7 # 2)%Q else g
            | None => (7 # 2)%Q
            end;
          pl_images := images request;
          pl_prompt := prompt request;
          safety_tolerance := Js.or_else (safetyTolerance request) "2" |} in
     let submitUrl := baseUrl this ++ "/wavespeed-ai/flux-kontext-max/multi" in
     submitResponse ← await_fetch (EvSubmit submitUrl payload) (submit service submitUrl payload);
     if negb (ok submitResponse) then
       errorText ← settle (sb_text (Eff.payload submitResponse));
       throw (Error ("Failed to submit task: " ++ pretty (status submitResponse)
                     ++ " " ++ errorText))
     else
       submitResult ← settle (sb_json (Eff.payload submitResponse));
       match first_truthy (sr_data_id submitResult) (sr_id submitResult) with
       | Some taskId =>
           if negb (Js.truthy taskId)
           then throw (Error "No task ID received from WaveSpeed API")
           else
             let resultUrl := baseUrl this ++ "/predictions/" ++ taskId ++ "/result" in
             poll_loop request resultUrl taskId maxAttempts 0
       | None => throw (Error "No task ID received from WaveSpeed API")
       end)
    (fun error => mret (failure_response error)).

(** The error, if any, that [validateImages] reports for one image. *)
Definition image_errors (index : nat) (image : string) : list string :=
  if negb (Js.truthy image)
  then ["Image " ++ pretty (index + 1)%nat ++ " is invalid"]
  else if negb (Js.startsWith "data:" image) && negb (Js.startsWith "http" image)
  then ["Image " ++ pretty (index + 1)%nat ++ " must be a data URL or HTTP URL"]
  else [].

(** [validateImages] on an array of strings. *)
Definition validateImages (imgs : list string) : bool * list string :=
  let errors :=
    ((if (length imgs =? 0)%nat then ["At least one image is required"] else []) ++
     (if (10 <? length imgs)%nat then ["Maximum 10 images allowed"] else []) ++
     concat (imap image_errors imgs))%list in
  ((length errors =? 0)%nat, errors).

End Client.

End WaveSpeed.

(* ===================================================================== *)
(** ** app/edit-multi-image/route.ts *)
(* ===================================================================== *)

Module EditMultiImage.
Import Eff.

(** A JSON value, for the fields whose type the handler tests at run time. *)
Inductive json :=
| JNull
| JBool (b : bool)
| JNum (q : Q)
| JStr (s : string)
| JArr (items : list json)
| JObj (fields : list (string * json)).

(** [!!v] *)
Definition truthy (v : json) : bool :=
  match v with
  | JNull => false
  | JBool b => b
  | JNum q => negb (Qeq_bool q 0)
  | JStr s => Js.truthy s
  | JArr _ | JObj _ => true
  end.

(** The parsed request body; [None] is a missing field.  [images] and
    [prompt] are arbitrary JSON values, the other two fields have the types
    of the destructuring pattern. *)
Record Body := {
  images : option json;
  prompt : option json;
  guidanceScale : option Q;
  safetyTolerance : option string
}.

Inductive Event :=
| EvNewClient (apiKey : option string)    (* new WaveSpeedMultiImageClient(...) *)
| EvClient (e : WaveSpeed.Event).          (* a call the client makes *)

Record Env := {
  WAVESPEED_API_KEY : option string;
  service : WaveSpeed.Service
}.

Record ImageEntry := {
  img_url : option string;
  img_index : nat;
  img_revisedPrompt : string
}.

Record Metadata := {
  md_model : string;
  md_provider : string;
  md_originalPrompt : string;
  md_editMode : bool;
  md_method : string;
  md_imageCount : nat;
  md_inputImages : nat;
  md_guidanceScale : Q;
  md_safetyTolerance : string;
  md_taskId : option string;
  md_processedInputs : option (list WaveSpeed.ProcessedInput * string);
  md_executionTime : option nat
}.

Inductive Json :=
| ErrorJson (error : string) (details : option string)
| SuccessJson (imgs : list ImageEntry) (metadata : Metadata).

Record Response := { resp_status : nat; resp_json : Json }.

Definition error_response (st : nat) (error : string) (details : option string)
  : Response :=
  {| resp_status := st; resp_json := ErrorJson error details |}.

Definition error_of (r : Response) : option string :=
  match resp_json r with
  | ErrorJson error _ => Some error
  | SuccessJson _ _ => None
  end.

(** [errors.join(', ')] *)
Fixpoint join (l : list string) : string :=
  match l with
  | [] => EmptyString
  | [x] => x
  | x :: l' => x ++ ", " ++ join l'
  end.

(** The strings of an array, or the first element that is not a string:
    the debug log at lines 72-77 calls [url.startsWith] on every element. *)
Fixpoint all_strings (l : list json) : json + list string :=
  match l with
  | [] => inr []
  | JStr s :: l' =>
      match all_strings l' with
      | inr urls => inr (s :: urls)
      | inl v => inl v
      end
  | v :: _ => inl v
  end.

(** The TypeError of [url.startsWith(...)] on a value that is not a string. *)
Definition startsWith_TypeError (v : json) : JsError :=
  match v with
  | JNull => Error "Cannot read properties of null (reading 'startsWith')"
  | _ => Error "url.startsWith is not a function"
  end.

Section Route.
Variable env : Env.

Definition generate (client : WaveSpeed.Client) (imgs : list string) (prompt : string)
    (guidanceScale : Q) (safetyTolerance : string) : M Event Response :=
  let validation := WaveSpeed.validateImages imgs in
  if negb (fst validation)
  then mret (error_response 400 "Invalid images provided" (Some (join (snd validation))))
  else
    result ← lift_log EvClient
               (WaveSpeed.generateMultiImageEdit (service env) client
                  {| WaveSpeed.images := imgs;
                     WaveSpeed.prompt := prompt;
                     WaveSpeed.guidanceScale := Some guidanceScale;
                     WaveSpeed.safetyTolerance := Some safetyTolerance |});
    if negb (WaveSpeed.success result)
    then mret (error_response 500 "Multi-image generation failed"
                 (Some (Js.or_else (WaveSpeed.error result) "Unknown error occurred")))
    else
      let md := WaveSpeed.metadata result in
      mret {| resp_status := 200;
              resp_json :=
                SuccessJson
                  [ {| img_url := WaveSpeed.imageUrl result;
                       img_index := 0;
                       img_revisedPrompt := prompt |} ]
                  {| (* [...result.metadata] comes last and wins *)
                     md_model := from_option WaveSpeed.md_model "flux-kontext-max-multi" md;
                     md_provider := from_option WaveSpeed.md_provider "wavespeed" md;
                     md_originalPrompt := prompt;
                     md_editMode := true;
                     md_method := "multi-image-composition";
                     md_imageCount := length imgs;
                     md_inputImages := length imgs;
                     md_guidanceScale := guidanceScale;
                     md_safetyTolerance := safetyTolerance;
                     md_taskId := WaveSpeed.taskId result;
                     md_processedInputs := md ≫= WaveSpeed.md_processedInputs;
                     md_executionTime := md ≫= WaveSpeed.md_executionTime |} |}.

(** [POST]; [req] is what [await req.json()] gives. *)
Definition POST (req : Outcome Body) : M Event Response :=
  try_catch
    (body ← settle req;
     let guidanceScale := default (7 # 2)%Q (guidanceScale body) in
     let safetyTolerance := default "2" (safetyTolerance body) in
     match images body with
     | Some (JArr ((_ :: _) as imgs)) =>
         match prompt body with
         | Some (JStr prompt) =>
             if negb (Js.truthy prompt) || negb (Js.truthy (Js.trim prompt))
             then mret (error_response 400 "Prompt is required" None)
             else if (length imgs <? 2)%nat
             then mret (error_response 400
                          "At least 2 images are required for multi-image editing" None)
             else if (10 <? length imgs)%nat
             then mret (error_response 400
                          "Maximum 10 images allowed for multi-image editing" None)
             else if negb (Js.truthy_opt (WAVESPEED_API_KEY env))
             then mret (error_response 500 "WaveSpeed API key not configured"
                          (Some "Please add WAVESPEED_API_KEY to your .env.local file"))
             else
               match all_strings imgs with
               | inl v => throw (startsWith_TypeError v)
               | inr urls =>
                   client ← call (EvNewClient (WAVESPEED_API_KEY env))
                                 (WaveSpeed.new_client (WAVESPEED_API_KEY env)
                                    (WAVESPEED_API_KEY env));
                   generate client urls prompt guidanceScale safetyTolerance
               end
         | _ =>
             (* undefined, or falsy, or not a string *)
             mret (error_response 400 "Prompt is required" None)
         end
     | _ =>
         (* undefined, or falsy, or not an array, or an empty array *)
         mret (error_response 400 "Images array is required and must not be empty" None)
     end)
    (fun error =>
       mret (error_response 500 "Internal server error"
               (Some (default "Unknown error occurred" (err_message error))))).

End Route.

End EditMultiImage.

(* ===================================================================== *)
(** ** The image progress store ([useImageProgressStore])

    Numbers are rationals.  The operations of the store are carried out
    exactly; [calculateProgressFromElapsed], whose result depends on the
    rounding of doubles, is given a second time, with the rounding of each
    operation, in [ImageProgressFloat].  [Math.max], [Math.min] and
    [Math.floor], which decide the bounds below, do not round. *)
(* ===================================================================== *)

Module ImageProgress.

Inductive ImageGenerationStage :=
| initializing | processing | finalizing | completed | failed.

Inductive Status := generating | status_completed | status_failed.

(** A progress record.  [generatedImage], which none of the functions
    below reads, is left out; dates are milliseconds since the epoch. *)
Record ImageGenerationProgress := {
  imageId : string;
  prompt : string;
  originalImageId : option string;
  originalImageUrl : option string;
  progress : Q;
  stage : ImageGenerationStage;
  stageMessage : string;
  status : Status;
  elapsedTime : Q;
  estimatedRemainingTime : Q;
  estimatedTotalTime : Q;
  error : option string;
  createdAt : Z;
  completedAt : option Z;
  lastUpdated : Z;
  quality : option string;
  style : option string;
  size : option string;
  model : option string
}.

(** [ImageGenerationState]: the records by image id. *)
Abbreviation ImageGenerationState := (gmap string ImageGenerationProgress).

Definition getEstimatedTotalTime (quality : option string) (isEdit : bool) : Q :=
  let baseTime := if String.eqb (default "standard" quality) "hd" then 22%Q else 12%Q in
  if isEdit then (baseTime * (3 # 2))%Q else baseTime.

Definition Qltb (a b : Q) : bool :=
  match Qcompare a b with Lt => true | _ => false end.

(** [progress && progress < bound] for a possibly missing number. *)
Definition below (progress : option Q) (bound : Q) : bool :=
  match progress with
  | Some p => negb (Qeq_bool p 0) && Qltb p bound
  | None => false
  end.

Definition getStageMessage (stage : ImageGenerationStage) (model : option string)
    (progress : option Q) (isEdit : bool) : string :=
  let modelName :=
    match model with
    | Some m =>
        if Js.includes "gpt-image-1" m then "GPT-Image-1"
        else if String.eqb m "flux-kontext-pro" then "Flux Kontext Pro"
        else if String.eqb m "flux-kontext-max" then "Flux Kontext Max"
        else if String.eqb m "flux-dev-ultra-fast" then "WaveSpeed AI"
        else "AI model"
    | None => "AI model"
    end in
  match stage with
  | initializing =>
      if isEdit then "Initializing " ++ modelName ++ " for image editing..."
      else "Initializing " ++ modelName ++ "..."
  | processing =>
      if below progress 30 then
        (if isEdit then "Analyzing original image..." else "Analyzing prompt...")
      else if below progress 50 then
        (if isEdit then "Applying edits to image..." else "Generating initial concepts...")
      else if below progress 70 then
        (if isEdit then "Refining edited regions..." else "Rendering image details...")
      else if below progress 85 then "Enhancing image quality..."
      else "Finalizing generation..."
  | finalizing => "Processing final image..."
  | completed => if isEdit then "Image edit complete!" else "Image generation complete!"
  | failed => "Generation failed"
  end.

(** [stageRanges]: the [min] and [max] of a stage. *)
Definition stageRanges (stage : ImageGenerationStage) : Z * Z :=
  match stage with
  | initializing => (0, 20)
  | processing => (20, 85)
  | finalizing => (85, 100)
  | completed => (100, 100)
  | failed => (0, 0)
  end%Z.

(** The smoothstep curve [t * t * (3 - 2 * t)]. *)
Definition smoothstep (t : Q) : Q := (t * t * (3 - 2 * t))%Q.

(** [Math.max(lo, Math.min(x, hi))] *)
Definition clamp (lo hi x : Q) : Q := Qmax lo (Qmin x hi).

(** [calculateProgressFromElapsed] in exact arithmetic; [random] is the
    value of [Math.random()]. *)
Definition calculateProgressFromElapsed (elapsedTime estimatedTotal : Q)
    (stage : ImageGenerationStage) (random : Q) : Z :=
  let '(rmin, rmax) := stageRanges stage in
  match stage with
  | completed => 100%Z
  | failed => 0%Z
  | _ =>
      let timeProgress := Qmin (elapsedTime / estimatedTotal) 1 in
      let smoothProgress := smoothstep timeProgress in
      let calculatedProgress :=
        (inject_Z rmin + smoothProgress * (inject_Z rmax - inject_Z rmin))%Q in
      let variance := ((random - (1 # 2)) * 1)%Q in
      let finalProgress := (calculatedProgress + variance)%Q in
      Qfloor (clamp (inject_Z rmin) (inject_Z rmax) finalProgress)
  end.

(** [!!current.originalImageId] *)
Definition isEdit_of (current : ImageGenerationProgress) : bool :=
  Js.truthy_opt (originalImageId current).

(** [Math.abs(a - b) >= 1] *)
Definition differs_by_one (a b : Q) : bool :=
  negb (Qltb (Qabs (a - b)) 1).

(** [addImageGeneration] at time [now]. *)
Definition addImageGeneration (imageId prompt : string)
    (o_originalImageId o_originalImageUrl o_quality o_style o_size o_model : option string)
    (now : Z) (state : ImageGenerationState) : ImageGenerationState :=
  let isEdit := Js.truthy_opt o_originalImageId in
  let estimatedTotal := getEstimatedTotalTime o_quality isEdit in
  <[ imageId :=
       {| imageId := imageId;
          prompt := prompt;
          originalImageId := o_originalImageId;
          originalImageUrl := o_originalImageUrl;
          progress := 0;
          stage := initializing;
          stageMessage := getStageMessage initializing o_model (Some 0%Q) isEdit;
          status := generating;
          elapsedTime := 0;
          estimatedRemainingTime := estimatedTotal;
          estimatedTotalTime := estimatedTotal;
          error := None;
          createdAt := now;
          completedAt := None;
          lastUpdated := now;
          quality := o_quality;
          style := o_style;
          size := o_size;
          model := o_model |} ]> state.

(** [updateStage] at time [now]. *)
Definition updateStage (id : string) (newStage : ImageGenerationStage)
    (message : option string) (now : Z) (state : ImageGenerationState)
  : ImageGenerationState :=
  match state !! id with
  | None => state
  | Some currentProgress =>
      let isEdit := isEdit_of currentProgress in
      let stageMessage :=
        if Js.truthy_opt message then default EmptyString message
        else getStageMessage newStage (model currentProgress)
               (Some (progress currentProgress)) isEdit in
      <[ id :=
           {| imageId := imageId currentProgress;
              prompt := prompt currentProgress;
              originalImageId := originalImageId currentProgress;
              originalImageUrl := originalImageUrl currentProgress;
              progress := progress currentProgress;
              stage := newStage;
              stageMessage := stageMessage;
              status := status currentProgress;
              elapsedTime := elapsedTime currentProgress;
              estimatedRemainingTime := estimatedRemainingTime currentProgress;
              estimatedTotalTime := estimatedTotalTime currentProgress;
              error := error currentProgress;
              createdAt := createdAt currentProgress;
              completedAt := completedAt currentProgress;
              lastUpdated := now;
              quality := quality currentProgress;
              style := style currentProgress;
              size := size currentProgress;
              model := model currentProgress |} ]> state
  end.

(** The record [calculateProgress] writes for [current]. *)
Definition updated_record (current : ImageGenerationProgress) (newElapsed : Z)
    (newProgress : Z) (now : Z) : ImageGenerationProgress :=
  let remainingTime := Qmax 0 (estimatedTotalTime current - inject_Z newElapsed) in
  let cap := match stage current with completed => 100%Z | _ => 99%Z end in
  {| imageId := imageId current;
     prompt := prompt current;
     originalImageId := originalImageId current;
     originalImageUrl := originalImageUrl current;
     progress := inject_Z (Z.min newProgress cap);
     stage := stage current;
     stageMessage :=
       getStageMessage (stage current) (model current) (Some (inject_Z newProgress))
         (isEdit_of current);
     status := status current;
     elapsedTime := inject_Z newElapsed;
     estimatedRemainingTime := remainingTime;
     estimatedTotalTime := estimatedTotalTime current;
     error := error current;
     createdAt := createdAt current;
     completedAt := completedAt current;
     lastUpdated := now;
     quality := quality current;
     style := style current;
     size := size current;
     model := model current |}.

(** [calculateProgress(imageId)] at time [now], with [random] the value
    [Math.random()] gives. *)
Definition calculateProgress (id : string) (now : Z) (random : Q)
    (state : ImageGenerationState) : ImageGenerationState :=
  match state !! id with
  | None => state
  | Some current =>
      match status current with
      | generating =>
          let newElapsed := ((now - createdAt current) / 1000)%Z in
          let newProgress :=
            calculateProgressFromElapsed (inject_Z newElapsed)
              (estimatedTotalTime current) (stage current) random in
          let progressChanged :=
            differs_by_one (progress current) (inject_Z newProgress) in
          let timeChanged :=
            differs_by_one (elapsedTime current) (inject_Z newElapsed) in
          if progressChanged || timeChanged
          then <[ id := updated_record current newElapsed newProgress now ]> state
          else state
      | _ => state
      end
  end.

End ImageProgress.

(* ===================================================================== *)
(** ** The image progress store: [calculateProgressFromElapsed] in doubles *)
(* ===================================================================== *)

Module ImageProgressFloat.
Import ImageProgress.

(** *** Doubles

    A double is the rational it stands for.  An arithmetic operation of
    the source gives the rounding of its exact result: [rnd] is that
    rounding.  [to_double] is the rounding of IEEE 754 binary64, to the
    nearest double with ties to even; it is that of the normal range, far
    from the ends of which the seconds and percentages of the store lie. *)

(** [2 ^ e] *)
Definition pow2 (e : Z) : Q :=
  match e with
  | Z0 => 1
  | Zpos p => inject_Z (2 ^ Zpos p)
  | Zneg p => 1 # (2 ^ p)
  end%Q.

(** The nearest integer, ties to even. *)
Definition nearest_even (x : Q) : Z :=
  let f := Qfloor x in
  match (x - inject_Z f ?= 1 # 2)%Q with
  | Lt => f
  | Gt => (f + 1)%Z
  | Eq => if Z.even f then f else (f + 1)%Z
  end.

(** The binary exponent of a positive rational: [2 ^ e <= x < 2 ^ (e + 1)]. *)
Definition exponent (x : Q) : Z :=
  let e := (Z.log2 (Qnum x) - Z.log2 (Zpos (Qden x)))%Z in
  if Qle_bool (pow2 e) x then e else (e - 1)%Z.

(** A positive rational rounded to 53 significant bits. *)
Definition round_positive (x : Q) : Q :=
  let e := (exponent x - 52)%Z in
  (inject_Z (nearest_even (x / pow2 e)) * pow2 e)%Q.

Definition to_double (x : Q) : Q :=
  match Qnum x with
  | Z0 => 0
  | Zpos _ => round_positive x
  | Zneg _ => - round_positive (- x)
  end%Q.

Section Arithmetic.
Variable rnd : Q -> Q.

(** [calculateProgressFromElapsed] with the rounding of every operation;
    [Math.min], [Math.max] and [Math.floor] do not round. *)
Definition calculateProgressFromElapsed (elapsedTime estimatedTotal : Q)
    (stage : ImageGenerationStage) (random : Q) : Z :=
  let '(rmin, rmax) := stageRanges stage in
  match stage with
  | completed => 100%Z
  | failed => 0%Z
  | _ =>
      let timeProgress := Qmin (rnd (elapsedTime / estimatedTotal)) 1 in
      let smoothProgress :=
        rnd (rnd (timeProgress * timeProgress) * rnd (3 - rnd (2 * timeProgress))) in
      let calculatedProgress :=
        rnd (inject_Z rmin
             + rnd (smoothProgress * rnd (inject_Z rmax - inject_Z rmin))) in
      let variance := rnd (rnd (random - (1 # 2)) * 1) in
      let finalProgress := rnd (calculatedProgress + variance) in
      Qfloor (Qmax (inject_Z rmin) (Qmin finalProgress (inject_Z rmax)))
  end%Q.

End Arithmetic.

End ImageProgressFloat.

(* ===================================================================== *)
(** ** lib/image-utils.ts: saving the gallery to localStorage *)
(* ===================================================================== *)

Module ImageUtils.
Import Eff.

(** A [Date] field: missing, an invalid date, or a time in milliseconds. *)
Inductive JsDate := NoDate | InvalidDate | ValidDate (ms : Z).

(** The metadata [saveGeneratedImages] adds; [None] for [ageInHours] is NaN. *)
Record ExpirationInfo := {
  isReplicateUrl : bool;
  ageInHours : option Z;
  isLikelyExpired : bool;
  lastSaved : string
}.

(** The fields of a [GeneratedImage] that [saveGeneratedImages] reads. *)
Record GeneratedImage := {
  id : string;
  url : string;
  prompt : string;
  timestamp : JsDate;
  quality : string;
  model : string;
  originalImageId : option string;
  isGenerating : option bool;
  isUploaded : option bool;
  geminiUri : option string;
  isMultiImageEdit : option bool;
  sourceImages : option (list string);
  inputImages : option (list string);
  metadata : option ExpirationInfo
}.

(** An element of the array that is written to localStorage. *)
Record StoredImage := {
  s_id : string;
  s_url : string;
  s_prompt : string;
  s_timestamp : string;
  s_quality : string;
  s_model : string;
  s_originalImageId : option string;
  s_isUploaded : option bool;
  s_geminiUri : option string;
  s_isMultiImageEdit : option bool;
  s_sourceImages : option (list string);
  s_inputImages : option (list string)
}.

(** [localStorage]: the stored strings by key. *)
Abbreviation Storage := (gmap string string).

(** [arr.slice(-n)]: the last [n] elements; [slice(-0)] is [slice(0)],
    the whole array. *)
Definition slice_last {A} (n : nat) (l : list A) : list A :=
  if (n =? 0)%nat then l else drop (length l - n) l.

(** The filter of [completedImages]. *)
Definition is_completed (img : GeneratedImage) : bool :=
  negb (default false (isGenerating img))
  && Js.truthy (url img)
  && negb (Js.startsWith "data:" (url img)).

Definition maxSize : nat := 4 * 1024 * 1024.

(** [Math.floor(n * 0.7)].  For every [n] below 90, and the array has at
    most 30 elements, the product in doubles has the floor of [7 n / 10]. *)
Definition seventy_percent (n : nat) : nat := (n * 7) / 10.

Definition QuotaExceededError : JsError :=
  mkError (Some "The quota has been exceeded.") None None.

(** Computations on the storage that may throw. *)
Definition S (A : Type) : Type := Storage -> Outcome A * Storage.

Definition sret {A} (a : A) : S A := fun st => (Returned a, st).

Definition sbind {A B} (m : S A) (f : A -> S B) : S B :=
  fun st =>
    match m st with
    | (Returned a, st') => f a st'
    | (Thrown e, st') => (Thrown e, st')
    end.

(** [try { m } catch (e) { h e }]: what [m] wrote before throwing stays. *)
Definition stry {A} (m : S A) (h : JsError -> S A) : S A :=
  fun st =>
    match m st with
    | (Returned a, st') => (Returned a, st')
    | (Thrown e, st') => h e st'
    end.

Definition spure {A} (o : Outcome A) : S A := fun st => (o, st).

Section Browser.
(** The browser: the clock, [Date.prototype.toISOString], [JSON.stringify]
    (which can throw), the size of a [Blob] holding a string, and whether
    [localStorage.setItem(key, value)] fits the quota in a given state. *)
Variable now : Z.
Variable toISOString : Z -> string.
Variable JSON_stringify : list StoredImage -> Outcome string.
Variable blob_size : string -> nat.
Variable quota : Storage -> string -> string -> bool.

Definition setItem (key value : string) : S unit :=
  fun st =>
    if quota st key value then (Returned tt, <[key := value]> st)
    else (Thrown QuotaExceededError, st).

Definition removeItem (key : string) : S unit :=
  fun st => (Returned tt, delete key st).

(** [clearOldImages] *)
Definition clearOldImages : S unit :=
  stry
    (sbind (stry (removeItem "generatedImages") (fun _ => sret tt)) (fun _ =>
     stry (removeItem "imageCache") (fun _ => sret tt)))
    (fun _ => sret tt).

(** [calculateDataSize] *)
Definition calculateDataSize (data : list StoredImage) : Outcome nat :=
  match JSON_stringify data with
  | Returned s => Returned (blob_size s)
  | Thrown e => Thrown e
  end.

(** The map of [imagesWithExpirationInfo]. *)
Definition with_expiration_info (img : GeneratedImage) : GeneratedImage :=
  let isReplicateUrl := Js.includes "replicate.delivery" (url img) in
  let ageInHours : option Q :=
    match timestamp img with
    | NoDate => Some 0%Q
    | InvalidDate => None
    | ValidDate ms => Some (inject_Z (now - ms) / inject_Z (1000 * 60 * 60))%Q
    end in
  let isLikelyExpired :=
    isReplicateUrl &&
    match ageInHours with
    | Some a => match Qcompare a 24 with Gt => true | _ => false end
    | None => false
    end in
  {| id := id img; url := url img; prompt := prompt img; timestamp := timestamp img;
     quality := quality img; model := model img;
     originalImageId := originalImageId img; isGenerating := isGenerating img;
     isUploaded := isUploaded img; geminiUri := geminiUri img;
     isMultiImageEdit := isMultiImageEdit img; sourceImages := sourceImages img;
     inputImages := inputImages img;
     metadata :=
       Some {| isReplicateUrl := isReplicateUrl;
               ageInHours := option_map (fun a => Qfloor (a + (1 # 2))%Q) ageInHours;
               isLikelyExpired := isLikelyExpired;
               lastSaved := toISOString now |} |}.

Definition prepare_one (img : GeneratedImage) : StoredImage :=
  let timestampStr :=
    match timestamp img with
    | ValidDate ms => toISOString ms
    | _ => toISOString now
    end in
  {| s_id := id img;
     s_url := Js.substring0 500 (url img);
     s_prompt := Js.substring0 200 (prompt img);
     s_timestamp := timestampStr;
     s_quality := quality img;
     s_model := model img;
     s_originalImageId := originalImageId img;
     s_isUploaded := isUploaded img;
     s_geminiUri := geminiUri img;
     s_isMultiImageEdit := isMultiImageEdit img;
     s_sourceImages := sourceImages img;
     s_inputImages :=
       option_map
         (List.map (fun u => if Js.startsWith "data:" u then "[DATA_URL_REMOVED]"
                             else Js.substring0 200 u))
         (inputImages img) |}.

Definition prepareForStorage (imgs : list GeneratedImage) : list StoredImage :=
  List.map prepare_one imgs.

(** The [while (dataSize > maxSize && imagesToSave.length > 5)] loop,
    lines 213-222: it yields the final [imagesToSave]. *)
Equations? shrink (imagesToSave : list GeneratedImage) : Outcome (list GeneratedImage)
  by wf (length imagesToSave) lt :=
shrink imagesToSave with calculateDataSize (prepareForStorage imagesToSave) := {
  | Thrown e => Thrown e
  | Returned dataSize with lt_dec 5 (length imagesToSave) := {
      | left _ =>
          if (maxSize <? dataSize)%nat
          then shrink (slice_last (seventy_percent (length imagesToSave)) imagesToSave)
          else Returned imagesToSave
      | right _ => Returned imagesToSave } }.
Proof.
  unfold slice_last, seventy_percent.
  assert (Hk : (length imagesToSave * 7 / 10 < length imagesToSave)%nat)
    by (apply Nat.Div0.div_lt_upper_bound; lia).
  destruct (Nat.eqb_spec (length imagesToSave * 7 / 10) 0) as [Hz | Hz].
  - pose proof (Nat.div_str_pos (length imagesToSave * 7) 10). lia.
  - rewrite length_drop. lia.
Qed.

(** [localStorage.setItem('generatedImages', JSON.stringify(serialized))] *)
Definition store (serialized : list StoredImage) : S unit :=
  sbind (spure (JSON_stringify serialized)) (fun s => setItem "generatedImages" s).

(** [saveGeneratedImages] *)
Definition saveGeneratedImages (images : list GeneratedImage) : S unit :=
  stry
    (let completedImages := List.filter is_completed images in
     let imagesWithExpirationInfo := List.map with_expiration_info completedImages in
     if (length imagesWithExpirationInfo =? 0)%nat then sret tt
     else
       sbind (spure (shrink (slice_last 30 imagesWithExpirationInfo))) (fun imagesToSave =>
       stry
         (store (prepareForStorage imagesToSave))
         (fun quotaError =>
            sbind clearOldImages (fun _ =>
            let minimalImages := slice_last 10 imagesWithExpirationInfo in
            stry
              (store (prepareForStorage minimalImages))
              (fun finalError => sret tt)))))
    (fun error => sret tt).

End Browser.

End ImageUtils.


(* ===================================================================== *)
(** ** app/perplexity-search/route.ts *)
(* ===================================================================== *)

Module PerplexitySearch.
Import Eff SearchIntentDetector.

(** A chat message, as far as the handler reads it. *)
Record ChatMessage := { role : string; content : string }.

(** The parsed request body; [None] is a missing field. *)
Record Body := {
  messages : option (list ChatMessage);
  forceSearch : option bool
}.

Record SearchOptions := {
  search_mode : string;
  return_images : bool;
  return_related_questions : bool;
  search_recency_filter : option string;
  search_domain_filter : option (list string)
}.

(** The answer of the Perplexity client: the three fields the handler
    copies, and the rest of the object. *)
Record SearchResponse := {
  citations : option (list string);
  search_results : option (list string);
  images : option (list string);
  rest : string
}.

Inductive Event :=
| EvNewClient                                             (* new PerplexityClient() *)
| EvSearch (msgs : list ChatMessage) (options : SearchOptions).  (* client.search *)

(** What the handler finds outside: the Perplexity client of
    [lib/perplexity-client], the date [toLocaleDateString] prints, and the
    [response?.data] a thrown value carries. *)
Record Env := {
  new_client : Outcome unit;
  search : list ChatMessage -> SearchOptions -> Outcome SearchResponse;
  today : string;
  response_data : JsError -> option string
}.

Inductive Json :=
| ErrorJson (error : string) (details : option string)
| NoSearchJson (message : string)                 (* needsSearch: false *)
| SearchJson (response : SearchResponse) (searchIntent : SearchIntent)
    (citations searchResults images : option (list string)).  (* needsSearch: true *)

Record Response := { resp_status : nat; resp_json : Json }.

Definition nl : string := String (ascii_of_nat 10) EmptyString.

Definition systemMessage (today : string) : ChatMessage :=
  {| role := "system";
     content :=
       "You are a helpful AI assistant with access to real-time web search. " ++ nl
       ++ "        Today's date is " ++ today ++ "." ++ nl
       ++ "        Always provide the most current and up-to-date information based on search results." ++ nl
       ++ "        Always cite your sources when using searched information. " ++ nl
       ++ "        Provide accurate, up-to-date information based on search results." ++ nl
       ++ "        Format citations as [Source Name](URL) when referencing search results." |}.

(** The options built at lines 41-53. *)
Definition searchOptions_of (searchIntent : SearchIntent) : SearchOptions :=
  {| search_mode := "web";
     return_images := true;
     return_related_questions := true;
     search_recency_filter :=
       if Js.truthy_opt (timeFilter searchIntent) then timeFilter searchIntent else None;
     search_domain_filter := domainFilter searchIntent |}.

Section Route.
Variable env : Env.

(** [POST]; [req] is what [await req.json()] gives. *)
Definition POST (req : Outcome Body) : M Event Response :=
  try_catch
    (body ← settle req;
     let forceSearch := default false (forceSearch body) in
     match messages body with
     | None | Some [] =>
         mret {| resp_status := 400; resp_json := ErrorJson "Messages are required" None |}
     | Some msgs =>
         match last (List.filter (fun m => String.eqb (role m) "user") msgs) with
         | None =>
             mret {| resp_status := 400;
                     resp_json := ErrorJson "No user message found" None |}
         | Some lastUserMessage =>
             let searchIntent := detectSearchIntent (content lastUserMessage) in
             if negb (needsSearch searchIntent) && negb forceSearch
             then mret {| resp_status := 200;
                          resp_json := NoSearchJson "No web search required for this query" |}
             else
               let searchOptions := searchOptions_of searchIntent in
               let perplexityMessages :=
                 [ systemMessage (today env);
                   {| role := role lastUserMessage; content := content lastUserMessage |} ] in
               _ ← call EvNewClient (new_client env);
               response ← call (EvSearch perplexityMessages searchOptions)
                               (search env perplexityMessages searchOptions);
               mret {| resp_status := 200;
                       resp_json :=
                         SearchJson response searchIntent (citations response)
                           (search_results response) (images response) |}
         end
     end)
    (fun error =>
       mret {| resp_status := 500;
               resp_json :=
                 ErrorJson "Failed to perform search"
                   (WaveSpeed.first_truthy (response_data env error) (err_message error)) |}).

End Route.

End PerplexitySearch.

(* ===================================================================== *)
(** ** The image progress store: the remaining operations *)
(* ===================================================================== *)

Module ImageProgressStore.
Import ImageProgress.

(** [removeProgress(imageId)] *)
Definition removeProgress (id : string) (state : ImageGenerationState)
  : ImageGenerationState :=
  delete id state.

(** [getProgress(imageId)] *)
Definition getProgress (id : string) (state : ImageGenerationState)
  : option ImageGenerationProgress :=
  state !! id.

(** [completeImageGeneration(imageId, generatedImage)] at time [now].  The
    record type leaves [generatedImage] out, so the image is not stored. *)
Definition completeImageGeneration (id : string) (now : Z)
    (state : ImageGenerationState) : ImageGenerationState :=
  match state !! id with
  | None => state
  | Some current =>
      <[ id :=
           {| imageId := imageId current;
              prompt := prompt current;
              originalImageId := originalImageId current;
              originalImageUrl := originalImageUrl current;
              progress := 100;
              stage := completed;
              stageMessage :=
                getStageMessage completed (model current) (Some 100%Q) (isEdit_of current);
              status := status_completed;
              elapsedTime := elapsedTime current;
              estimatedRemainingTime := 0;
              estimatedTotalTime := estimatedTotalTime current;
              error := error current;
              createdAt := createdAt current;
              completedAt := Some now;
              lastUpdated := now;
              quality := quality current;
              style := style current;
              size := size current;
              model := model current |} ]> state
  end.

Definition is_generating (img : ImageGenerationProgress) : bool :=
  match status img with generating => true | _ => false end.

(** [getAllGeneratingImages()].  The records come in the order of the map;
    [Object.values] gives them in the order the keys were added. *)
Definition getAllGeneratingImages (state : ImageGenerationState)
  : list ImageGenerationProgress :=
  List.filter is_generating (map_to_list state).*2.

End ImageProgressStore.
(* ===================================================================== *)
(** ** lib/image-utils.ts: prompts and time stamps *)
(* ===================================================================== *)

Module ImageUtilsText.
Import Regex ImageUtils.

(** [/^(generate|create|make|draw|design|show\s+me)\s+(a|an|the)?\s*/i] *)
Definition verbPattern : regex :=
  seqs [ Alt (Lit "generate")
           (Alt (Lit "create")
              (Alt (Lit "make")
                 (Alt (Lit "draw")
                    (Alt (Lit "design") (seqs [Lit "show"; Plus CSpace; Lit "me"])))));
         Plus CSpace; Opt (alts ["a"; "an"; "the"]); Star CSpace ].

Definition nouns : list string :=
  ["image"; "picture"; "illustration"; "artwork"; "photo"; "drawing"].

(** [/^(image|picture|illustration|artwork|photo|drawing)\s+of\s*/i] *)
Definition nounOfPattern : regex :=
  seqs [ alts nouns; Plus CSpace; Lit "of"; Star CSpace ].

(** [/^visualize\s*/i] *)
Definition visualizePattern : regex := seqs [ Lit "visualize"; Star CSpace ].

Definition patterns : list regex := [ verbPattern; nounOfPattern; visualizePattern ].

(** [/^(image|picture|illustration|artwork|photo|drawing)\s*/i] *)
Definition nounPattern : regex := seqs [ alts nouns; Star CSpace ].

(** [/^(generate|create|make|draw)\s+(a|an|the)?\s*/i] *)
Definition fallbackPattern : regex :=
  seqs [ alts ["generate"; "create"; "make"; "draw"]; Plus CSpace;
         Opt (alts ["a"; "an"; "the"]); Star CSpace ].

(** [s.replace(/\s+/g, ' ')]: every maximal run of white space becomes one
    space.  [in_ws] tells that the previous character was white space. *)
Fixpoint collapse_ws (s : string) (in_ws : bool) : string :=
  match s with
  | EmptyString => EmptyString
  | String c t =>
      if Js.is_space c
      then (if in_ws then collapse_ws t true else String " "%char (collapse_ws t true))
      else String c (collapse_ws t false)
  end.

Definition extractImagePrompt (message : string) : string :=
  let prompt := fold_left (fun prompt pattern => strip_prefix pattern prompt) patterns message in
  let prompt := strip_prefix nounPattern prompt in
  let prompt := Js.trim (collapse_ws prompt false) in
  if (String.length prompt <? 3)%nat
  then Js.trim (strip_prefix fallbackPattern message)
  else prompt.

(** [`${n} unit${n > 1 ? 's' : ''} ago`] *)
Definition ago (n : Z) (unit : string) : string :=
  pretty n ++ " " ++ unit ++ (if (1 <? n)%Z then "s" else EmptyString) ++ " ago".

(** [formatImageTimestamp(date)] at time [now].  The four divisions are
    on whole numbers of milliseconds; below 2^53 the floor of the quotient
    in doubles is the quotient of the integers. *)
Definition formatImageTimestamp (date : JsDate) (now : Z) : string :=
  match date with
  | NoDate => "Unknown time"
  | InvalidDate => "Invalid time"
  | ValidDate ms =>
      let diff := (now - ms)%Z in
      let seconds := (diff / 1000)%Z in
      let minutes := (seconds / 60)%Z in
      let hours := (minutes / 60)%Z in
      let days := (hours / 24)%Z in
      if (0 <? days)%Z then ago days "day"
      else if (0 <? hours)%Z then ago hours "hour"
      else if (0 <? minutes)%Z then ago minutes "minute"
      else "Just now"
  end.

End ImageUtilsText.
(* ===================================================================== *)
(** ** lib/image-utils.ts: loading and clearing the stored images *)
(* ===================================================================== *)

Module ImageUtilsLoad.
Import Eff ImageUtils.

(** An element of the parsed array: what [img.<field>] gives, [None] for
    undefined.  The fields have the types [saveGeneratedImages] writes. *)
Record ParsedImage := {
  p_id : option string;
  p_url : option string;
  p_prompt : option string;
  p_revisedPrompt : option string;
  p_timestamp : option string;
  p_quality : option string;
  p_style : option string;
  p_size : option string;
  p_model : option string;
  p_originalImageId : option string;
  p_editStrength : option Q;
  p_generationStartTime : option string;
  p_isMultiImageEdit : option bool;
  p_sourceImages : option (list string);
  p_inputImages : option (list string);
  p_isUploaded : option bool;
  p_geminiUri : option string
}.

(** A loaded image: the fields of [GeneratedImage] that
    [saveGeneratedImages] reads, and the five others that are restored.
    For [generationStartTime], [NoDate] is undefined. *)
Record LoadedImage := {
  image : GeneratedImage;
  revisedPrompt : option string;
  style : option string;
  size : option string;
  editStrength : option Q;
  generationStartTime : JsDate
}.

Section Browser.
(** The browser: the clock, [new Date(s).getTime()] ([None] is NaN),
    [JSON.parse] followed by the check that the value is an array of
    objects (anything else makes the [map] throw), and the id that
    [generateImageId()] gives at each element. *)
Variable now : Z.
Variable Date_parse : string -> option Z.
Variable JSON_parse : string -> Outcome (list ParsedImage).
Variable generateImageId : nat -> string.

(** The function mapped over the parsed array. *)
Definition load_one (index : nat) (img : ParsedImage) : LoadedImage :=
  let timestamp :=
    match p_timestamp img with
    | Some t =>
        if Js.truthy t
        then match Date_parse t with Some ms => ValidDate ms | None => ValidDate now end
        else ValidDate now
    | None => ValidDate now
    end in
  let generationStartTime :=
    match p_generationStartTime img with
    | Some t =>
        if Js.truthy t
        then match Date_parse t with Some ms => ValidDate ms | None => NoDate end
        else NoDate
    | None => NoDate
    end in
  {| image :=
       {| id := Js.or_else (p_id img) (generateImageId index);
          url := Js.or_else (p_url img) EmptyString;
          prompt := Js.or_else (p_prompt img) EmptyString;
          timestamp := timestamp;
          quality := Js.or_else (p_quality img) "standard";
          model := Js.or_else (p_model img) "unknown";
          originalImageId := p_originalImageId img;
          isGenerating := Some false;
          isUploaded := p_isUploaded img;
          geminiUri := p_geminiUri img;
          isMultiImageEdit := p_isMultiImageEdit img;
          sourceImages := p_sourceImages img;
          inputImages := p_inputImages img;
          metadata := None |};
     revisedPrompt := p_revisedPrompt img;
     style := p_style img;
     size := p_size img;
     editStrength := p_editStrength img;
     generationStartTime := generationStartTime |}.

(** [loadGeneratedImages] *)
Definition loadGeneratedImages : S (list LoadedImage) :=
  stry
    (fun st =>
       match st !! "generatedImages" with
       | Some stored =>
           if negb (Js.truthy stored) then (Returned [], st)
           else
             match JSON_parse stored with
             | Returned parsed => (Returned (imap load_one parsed), st)
             | Thrown e => (Thrown e, st)
             end
       | None => (Returned [], st)
       end)
    (fun error =>
       sbind (stry (removeItem "generatedImages") (fun _ => sret tt)) (fun _ =>
       sret [])).

(** [clearImageStorage] *)
Definition clearImageStorage : S unit :=
  stry (removeItem "generatedImages") (fun _ => sret tt).

End Browser.

End ImageUtilsLoad.

(* ===================================================================== *)
(** ** lib/image-url-validator.ts: the age of a Replicate URL *)
(* ===================================================================== *)

Module ImageUrlValidator.
Import ImageUtils.

(** [isLikelyExpiredReplicateUrl(url, imageTimestamp)] at time [now];
    [NoDate] is a missing time stamp, and the age of an invalid date is
    NaN, which is not above 24. *)
Definition isLikelyExpiredReplicateUrl (url : string) (imageTimestamp : JsDate)
    (now : Z) : bool :=
  if negb (EditImage.isReplicateDeliveryUrl url) then false
  else
    match imageTimestamp with
    | NoDate => false
    | InvalidDate => false
    | ValidDate ms =>
        let ageInHours := (inject_Z (now - ms) / inject_Z (1000 * 60 * 60))%Q in
        match Qcompare ageInHours 24 with Gt => true | _ => false end
    end.

End ImageUrlValidator.


(* ===================================================================== *)
(** * Vocabulary of the specification and sample worlds

    The definitions of this part do not come from the sources: they put
    the words of the specification into terms, to be compared with the
    code, and they fix small concrete worlds on which the code is run. *)
(* ===================================================================== *)

Module EditImageTerms.
Import Eff EditImage.

(** The request passes the guards that precede the dispatch on the model:
    the API key of the model is configured and [imageUrl] and [prompt] are
    present and not empty. *)
Record passes_guards (env : Env) (body : Body) (m imageUrl prompt : string) : Prop := {
  pg_model : m = default "flux-kontext-pro" (model body);
  pg_openai : m = "gpt-image-1" -> Js.truthy_opt (OPENAI_API_KEY env) = true;
  pg_replicate : is_flux m = true -> Js.truthy_opt (REPLICATE_API_KEY env) = true;
  pg_imageUrl : EditImage.imageUrl body = Some imageUrl;
  pg_imageUrl_truthy : Js.truthy imageUrl = true;
  pg_prompt : EditImage.prompt body = Some prompt;
  pg_prompt_truthy : Js.truthy prompt = true
}.




(** The input the route builds for Replicate from a valid image URL. *)
Definition edit_input (prompt validImageUrl : string) : EditInput :=
  {| ei_prompt := prompt;
     input_image := validImageUrl;
     aspect_ratio := "match_input_image";
     output_format := "png";
     safety_tolerance := 2 |}.

(** The options the route hands to [smartEditWithGPTImage1] for a body. *)
Definition gpt_options (body : Body) : GptEditOptions :=
  {| opt_size := actualSize_of (default "1024x1024" (size body));
     opt_quality := gptQuality_of (default "standard" (quality body));
     opt_style := default "vivid" (style body);
     opt_mask := mask body |}.

(** The image URL is not taken for a Gemini file URI. *)
Definition not_gemini_uri (imageUrl : string) : Prop :=
  Js.startsWith "data:" imageUrl = true
  \/ (Js.includes "generativelanguage.googleapis.com" imageUrl = false
      /\ Js.includes "files/" imageUrl = false).

(** A world without network: every fetch rejects, nothing is persisted,
    the providers answer with fixed URLs. *)
Definition offline : Env :=
  {| OPENAI_API_KEY := Some "sk-test";
     REPLICATE_API_KEY := Some "r8-test";
     fetch_head := fun _ _ => NetworkError (Error "fetch failed");
     fetch_get := fun _ => NetworkError (Error "fetch failed");
     fetch_proxy := fun _ => NetworkError (Error "fetch failed");
     getImageByLocalId := fun _ => None;
     replicate_editImage := fun _ _ => Returned "https://replicate.delivery/out.png";
     smartEditWithGPTImage1 := fun _ _ _ =>
       Returned {| res_imageUrl := "https://openai.example/out.png";
                   res_originalImageUrl := None; res_revisedPrompt := None;
                   res_model := None; res_method := None |} |}.

(** The same world where the expired image has a permanent copy. *)
Definition persisted : Env :=
  {| OPENAI_API_KEY := OPENAI_API_KEY offline;
     REPLICATE_API_KEY := REPLICATE_API_KEY offline;
     fetch_head := fetch_head offline;
     fetch_get := fetch_get offline;
     fetch_proxy := fetch_proxy offline;
     getImageByLocalId := fun _ =>
       Some {| stored_url := Some "https://blob.vercel-storage.com/img_1.png" |};
     replicate_editImage := replicate_editImage offline;
     smartEditWithGPTImage1 := smartEditWithGPTImage1 offline |}.

Definition request (m : option string) (u : string) (id p q s : option string) : Body :=
  {| imageUrl := Some u; imageId := id; prompt := p; model := m;
     quality := q; style := None; size := s; mask := None |}.

(** An edit of an expired Replicate image with Flux Kontext Pro. *)
Definition flux_request : Body :=
  request (Some "flux-kontext-pro") "https://replicate.delivery/pbxt/a.png"
    (Some "img_1") (Some "make it blue") None None.

(** The same request without its prompt. *)
Definition flux_request_without_prompt : Body :=
  request (Some "flux-kontext-pro") "https://replicate.delivery/pbxt/a.png"
    (Some "img_1") None None None.

(** An HD edit, in landscape, with GPT-Image-1. *)
Definition gpt_request : Body :=
  request (Some "gpt-image-1") "https://example.com/a.png" None
    (Some "make it blue") (Some "hd") (Some "1792x1024").

End EditImageTerms.

Module ImageUrlValidatorTerms.
Import Eff EditImage.

(** The HEAD request of the validator is answered ok. *)
Definition reachable (env : Env) (url : string) : bool :=
  match fetch_head env url None with
  | Resolved r => ok r
  | NetworkError _ => false
  end.

(** The data URL of the image, when the download is answered ok and the
    body can be read. *)
Definition downloaded (env : Env) (url : string) : option string :=
  match fetch_get env url with
  | Resolved r =>
      if ok r then match payload r with Returned d => Some d | Thrown _ => None end
      else None
  | NetworkError _ => None
  end.

(** The data URL the conversion proxy gives, when it is answered ok and
    the body can be read. *)
Definition converted (env : Env) (url : string) : option string :=
  match fetch_proxy env url with
  | Resolved r =>
      if ok r then match payload r with Returned d => Some d | Thrown _ => None end
      else None
  | NetworkError _ => None
  end.

Definition unrecoverable : JsError :=
  Error ("Image URL has expired and could not be recovered. "
         ++ "Please try editing a more recent image.").

End ImageUrlValidatorTerms.

Module EditImageRecoveryTerms.
Import Eff EditImage EditImageTerms ImageUrlValidatorTerms.

(** How the first HEAD request of the route, the one with the timeout of
    5 s, ends. *)
Inductive FirstCheck := answered_ok | answered_not_ok | check_rejected.

Definition first_check (env : Env) (imageUrl : string) : FirstCheck :=
  match fetch_head env imageUrl (Some 5000) with
  | Resolved r => if ok r then answered_ok else answered_not_ok
  | NetworkError _ => check_rejected
  end.

(** The image id to look up: an id is provided and the URL is a
    replicate.delivery URL. *)
Definition looked_up (imageUrl : string) (imageId : option string) : option string :=
  match imageId with
  | Some id =>
      if negb (String.eqb id "") && Js.includes "replicate.delivery" imageUrl
      then Some id else None
  | None => None
  end.

(** The permanent URL the persistence service holds for an id. *)
Definition permanent_copy (env : Env) (id : string) : option string :=
  match getImageByLocalId env id with
  | Some record =>
      match stored_url record with
      | Some u => if String.eqb u "" then None else Some u
      | None => None
      end
  | None => None
  end.

(** The recovery of [ensureImageUrlAccessible], as the calls it makes and
    the URL it gives: the URL unchanged when a second HEAD request, without
    timeout, is answered ok; else the downloaded image as a data URL; else
    the data URL of the conversion proxy; else nothing. *)
Definition recovery (env : Env) (url : string) : list Event * option string :=
  if reachable env url then ([EvHead url None], Some url)
  else
    match downloaded env url with
    | Some dataUrl => ([EvHead url None; EvGet url], Some dataUrl)
    | None => ([EvHead url None; EvGet url; EvProxy url], converted env url)
    end.

(** The calls of one pass after a failed first check: the lookup, when
    there is an id to look up, then the recovery. *)
Definition recovery_pass (env : Env) (imageUrl : string) (imageId : option string)
  : list Event :=
  match looked_up imageUrl imageId with
  | Some id => [EvLookup id]
  | None => []
  end ++ fst (recovery env imageUrl).

(** The validation of the image URL before the Replicate edit: the outside
    calls it makes, in order, and the URL it hands to Replicate ([None]
    when the request is refused).  When the first check is answered not ok
    and the recovery fails, the pass is made a second time. *)
Definition validation (env : Env) (imageUrl : string) (imageId : option string)
  : list Event * option string :=
  match first_check env imageUrl with
  | answered_ok => ([EvHead imageUrl (Some 5000)], Some imageUrl)
  | outcome =>
      match looked_up imageUrl imageId ≫= permanent_copy env with
      | Some permanent =>
          (EvHead imageUrl (Some 5000)
             :: match looked_up imageUrl imageId with
                | Some id => [EvLookup id]
                | None => []
                end,
           Some permanent)
      | None =>
          match snd (recovery env imageUrl), outcome with
          | Some recovered, _ =>
              (EvHead imageUrl (Some 5000) :: recovery_pass env imageUrl imageId,
               Some recovered)
          | None, answered_not_ok =>
              (EvHead imageUrl (Some 5000)
                 :: recovery_pass env imageUrl imageId
                 ++ recovery_pass env imageUrl imageId,
               None)
          | None, _ =>
              (EvHead imageUrl (Some 5000) :: recovery_pass env imageUrl imageId, None)
          end
      end
  end.





End EditImageRecoveryTerms.

Module EditImageErrorTerms.
Import Eff EditImage EditImageTerms.

(** The text of the thrown error contains [needle]. *)
Definition message_contains (needle : string) (e : JsError) : Prop :=
  exists message before after,
    err_message e = Some message /\ message = before ++ needle ++ after.

(** The categories of the error handler, in the order the specification
    lists them. *)
Inductive Category :=
| InvalidRequest | RateLimit | UrlExpired | ContentNotAllowed | ModelNotAvailable
| FailedToEdit.

(** What the specification asks of an error of each category. *)
Definition belongs_to (c : Category) (e : JsError) : Prop :=
  match c with
  | InvalidRequest => message_contains "invalid_request_error" e
  | RateLimit => message_contains "rate_limit_exceeded" e
  | UrlExpired =>
      message_contains "404 Client Error" e /\ message_contains "replicate.delivery" e
  | ContentNotAllowed =>
      message_contains "safety system" e
      \/ err_code e = Some "moderation_blocked"
      \/ err_type e = Some "image_generation_user_error"
  | ModelNotAvailable => message_contains "model_not_found" e
  | FailedToEdit => True
  end.

Definition listed_before (c : Category) : list Category :=
  match c with
  | InvalidRequest => []
  | RateLimit => [InvalidRequest]
  | UrlExpired => [InvalidRequest; RateLimit]
  | ContentNotAllowed => [InvalidRequest; RateLimit; UrlExpired]
  | ModelNotAvailable => [InvalidRequest; RateLimit; UrlExpired; ContentNotAllowed]
  | FailedToEdit =>
      [InvalidRequest; RateLimit; UrlExpired; ContentNotAllowed; ModelNotAvailable]
  end.

(** The error falls into [c]: it belongs to [c] and to no category listed
    before. *)
Definition falls_into (e : JsError) (c : Category) : Prop :=
  belongs_to c e /\ Forall (fun earlier => ~ belongs_to earlier e) (listed_before c).

(** The HTTP status and the error text of each category. *)
Definition answer (c : Category) : nat * string :=
  match c with
  | InvalidRequest => (400, "Invalid request")
  | RateLimit => (429, "Rate limit exceeded")
  | UrlExpired => (400, "Image URL expired")
  | ContentNotAllowed => (400, "Content not allowed")
  | ModelNotAvailable => (400, "Model not available")
  | FailedToEdit => (500, "Failed to edit image")
  end%nat.

(** A world where the moderation of OpenAI refuses the edit and tells so
    in [error.code] only. *)
Definition moderated : Env :=
  {| OPENAI_API_KEY := OPENAI_API_KEY offline;
     REPLICATE_API_KEY := REPLICATE_API_KEY offline;
     fetch_head := fetch_head offline;
     fetch_get := fetch_get offline;
     fetch_proxy := fetch_proxy offline;
     getImageByLocalId := getImageByLocalId offline;
     replicate_editImage := replicate_editImage offline;
     smartEditWithGPTImage1 := fun _ _ _ =>
       Thrown (mkError (Some "Your request was rejected.") (Some "moderation_blocked")
                 None) |}.

(** A world where the image URL answers the check of the route, and
    Replicate then finds the image gone. *)
Definition stale : Env :=
  {| OPENAI_API_KEY := OPENAI_API_KEY offline;
     REPLICATE_API_KEY := REPLICATE_API_KEY offline;
     fetch_head := fun _ _ => Resolved (mkResponse true 200 "OK" tt);
     fetch_get := fetch_get offline;
     fetch_proxy := fetch_proxy offline;
     getImageByLocalId := getImageByLocalId offline;
     replicate_editImage := fun _ _ =>
       Thrown (Error "404 Client Error: Not Found for url: https://replicate.delivery/pbxt/a.png");
     smartEditWithGPTImage1 := smartEditWithGPTImage1 offline |}.

(** Errors of the providers. *)
Definition moderation_error : JsError :=
  mkError (Some "Your request was rejected.") (Some "moderation_blocked") None.

Definition user_error : JsError :=
  mkError None None (Some "image_generation_user_error").

Definition rate_limit_error : JsError :=
  mkError (Some "429 rate_limit_exceeded") (Some "rate_limit_exceeded") None.

Definition expired_url_error : JsError :=
  Error "404 Client Error: Not Found for url: https://replicate.delivery/pbxt/a.png".

End EditImageErrorTerms.

Module GenerateImageTerms.
Import Eff GenerateImage.

Definition supported_hint : string :=
  "Supported models: gpt-image-1, flux-kontext-pro, flux-kontext-max, flux-dev-ultra-fast".

(** The options the route hands to [generateImageWithGPTImage1]. *)
Definition gpt_options (body : Body) : GptOptions :=
  {| go_quality := mappedQuality_of (default "standard" (quality body));
     go_style := Some (default "vivid" (style body));
     go_size := default "1024x1024" (size body);
     go_n := Some 1%nat;
     go_model := None |}.



(** A world whose providers answer with fixed URLs; [keys] tells whether
    the API keys are configured. *)
Definition world (keys : bool) : Env :=
  {| OPENAI_API_KEY := if keys then Some "sk-test" else None;
     REPLICATE_API_KEY := if keys then Some "r8-test" else None;
     generateImageWithContext := fun _ _ _ =>
       Returned {| res_imageUrl := "https://openai.example/ctx.png";
                   res_revisedPrompt := None |};
     generateImageWithGPTImage1 := fun _ _ =>
       Returned {| res_imageUrl := "https://openai.example/out.png";
                   res_revisedPrompt := None |};
     replicate_generateImage := fun _ _ _ => Returned "https://replicate.delivery/out.jpg" |}.

Definition request (p m q : option string) : Body :=
  {| prompt := p; originalPrompt := None; model := m; quality := q;
     style := None; size := None; imageContext := None; originalImageId := None |}.

End GenerateImageTerms.

Module WaveSpeedTerms.
Import Eff WaveSpeed.

(** The service accepts the task and names it "task-1". *)
Definition accepted : FetchOutcome SubmitBody :=
  Resolved (mkResponse true 200 "OK"
              {| sb_text := Returned EmptyString;
                 sb_json := Returned {| sr_data_id := Some "task-1"; sr_id := None |} |}).

(** A poll answer with the given status, outputs and error. *)
Definition answer (st : string) (outs : option (list string)) (err : option string)
  : FetchOutcome (Outcome PollResult) :=
  Resolved (mkResponse true 200 "OK"
              (Returned {| pr_data_status := Some st; pr_data_outputs := outs;
                           pr_status := None; pr_outputs := None; pr_error := err |})).

(** The first poll reports the task failed, the second reports it
    completed with one output. *)
Definition failed_then_completed : Service :=
  {| submit := fun _ _ => accepted;
     poll := fun _ attempt =>
       if (attempt =? 1)%nat then answer "failed" None (Some "out of memory")
       else answer "completed" (Some ["https://cdn.wavespeed.ai/out.png"]) None |}.

(** The first poll reports the task failed, every later one "processing". *)
Definition failed_then_processing : Service :=
  {| submit := fun _ _ => accepted;
     poll := fun _ attempt =>
       if (attempt =? 1)%nat then answer "failed" None (Some "out of memory")
       else answer "processing" None None |}.

Definition client : Client :=
  {| apiKey := "ws-test"; baseUrl := "https://api.wavespeed.ai/api/v3" |}.

Definition two_images : WaveSpeedMultiImageRequest :=
  {| images := ["https://example.com/a.png"; "https://example.com/b.png"];
     prompt := "put the cat on the sofa";
     guidanceScale := None;
     safetyTolerance := None |}.

Definition result_url : string :=
  "https://api.wavespeed.ai/api/v3/predictions/task-1/result".

(** The calls of [k] turns of the loop that starts after [attempts]
    attempts: a sleep of one second, then the poll. *)
Fixpoint schedule (resultUrl : string) (attempts k : nat) : list Event :=
  match k with
  | O => []
  | S k' => EvSleep 1000 :: EvPoll resultUrl (S attempts) :: schedule resultUrl (S attempts) k'
  end.

Definition is_poll (ev : Event) : bool :=
  match ev with EvPoll _ _ => true | _ => false end.

End WaveSpeedTerms.

Module EditMultiImageTerms.
Import Eff EditMultiImage.

(** A string of white space only (the empty string included). *)
Fixpoint only_whitespace (s : string) : bool :=
  match s with
  | EmptyString => true
  | String c t => Js.is_space c && only_whitespace t
  end.

Definition is_array (v : json) : bool :=
  match v with JArr _ => true | _ => false end.

Definition is_string (v : json) : bool :=
  match v with JStr _ => true | _ => false end.

(** [images] is missing, not an array, or empty. *)
Definition images_missing (body : Body) : Prop :=
  images body = None
  \/ (exists v, images body = Some v /\ is_array v = false)
  \/ images body = Some (JArr []).

(** [prompt] is missing, not a string, or only white space. *)
Definition prompt_missing (body : Body) : Prop :=
  prompt body = None
  \/ (exists v, prompt body = Some v /\ is_string v = false)
  \/ (exists p, prompt body = Some (JStr p) /\ only_whitespace p = true).

(** Fewer than 2 images are supplied. *)
Definition too_few_images (body : Body) : Prop :=
  exists imgs, images body = Some (JArr imgs) /\ (length imgs < 2)%nat.

(** More than 10 images are supplied. *)
Definition too_many_images (body : Body) : Prop :=
  exists imgs, images body = Some (JArr imgs) /\ (10 < length imgs)%nat.

Definition key_error : string := "WaveSpeed API key not configured".

(** A world without the WaveSpeed key. *)
Definition no_key : Env :=
  {| WAVESPEED_API_KEY := None; service := WaveSpeedTerms.failed_then_completed |}.

(** A request with a single image. *)
Definition one_image : Body :=
  {| images := Some (JArr [JStr "https://example.com/a.png"]);
     prompt := Some (JStr "merge the two pictures");
     guidanceScale := None;
     safetyTolerance := None |}.

End EditMultiImageTerms.

Module ImageUtilsTerms.
Import Eff ImageUtils.

(** An image that is dropped first: it is still generating, it has no
    URL, or its URL is a data URL. *)
Definition dropped (img : GeneratedImage) : Prop :=
  isGenerating img = Some true
  \/ url img = EmptyString
  \/ Js.startsWith "data:" (url img) = true.

(** The [n] most recent elements of a list that is in order of age
    ([n] is positive wherever this is used). *)
Definition most_recent {A} (n : nat) (l : list A) : list A := drop (length l - n) l.

(** An input image as it is stored. *)
Definition shortened (u : string) : string :=
  if String.prefix "data:" u then "[DATA_URL_REMOVED]" else String.substring 0 200 u.

Section Browser.
Variable now : Z.
Variable toISOString : Z -> string.
Variable JSON_stringify : list StoredImage -> Outcome string.
Variable blob_size : string -> nat.
Variable quota : Storage -> string -> string -> bool.

(** The stored form of an image: the URL cut to 500 characters, the
    prompt to 200, the time stamp as an ISO string (that of the clock when
    the image has no valid one). *)
Definition stored_form (img : GeneratedImage) : StoredImage :=
  {| s_id := id img;
     s_url := String.substring 0 500 (url img);
     s_prompt := String.substring 0 200 (prompt img);
     s_timestamp :=
       toISOString match timestamp img with ValidDate ms => ms | _ => now end;
     s_quality := quality img;
     s_model := model img;
     s_originalImageId := originalImageId img;
     s_isUploaded := isUploaded img;
     s_geminiUri := geminiUri img;
     s_isMultiImageEdit := isMultiImageEdit img;
     s_sourceImages := sourceImages img;
     s_inputImages := option_map (List.map shortened) (inputImages img) |}.

(** The eviction in the words of the specification: while the serialized
    size exceeds 4 MB and more than 5 images remain, the list is sliced to
    its most recent 70%.  [Sliced l kept]: starting from [l], the slicing
    stops at [kept]. *)
Inductive Sliced : list GeneratedImage -> list GeneratedImage -> Prop :=
| sliced_stop (l : list GeneratedImage) (s : string) :
    JSON_stringify (List.map stored_form l) = Returned s ->
    (blob_size s <= 4 * 1024 * 1024 \/ length l <= 5)%nat ->
    Sliced l l
| sliced_step (l kept : list GeneratedImage) (s : string) :
    JSON_stringify (List.map stored_form l) = Returned s ->
    (4 * 1024 * 1024 < blob_size s)%nat -> (5 < length l)%nat ->
    Sliced (most_recent (length l * 7 / 10) l) kept ->
    Sliced l kept.

(** [SlicingThrows l e]: starting from [l], the slicing comes to a list
    whose serialization throws [e]. *)
Inductive SlicingThrows : list GeneratedImage -> JsError -> Prop :=
| throws_here (l : list GeneratedImage) (e : JsError) :
    JSON_stringify (List.map stored_form l) = Thrown e ->
    SlicingThrows l e
| throws_later (l : list GeneratedImage) (s : string) (e : JsError) :
    JSON_stringify (List.map stored_form l) = Returned s ->
    (4 * 1024 * 1024 < blob_size s)%nat -> (5 < length l)%nat ->
    SlicingThrows (most_recent (length l * 7 / 10) l) e ->
    SlicingThrows l e.

(** The store after a quota error: the two keys are cleared and the 10
    most recent images are written, when they fit. *)
Definition after_quota_error (completed : list GeneratedImage) (st : Storage) : Storage :=
  let cleared := delete "imageCache" (delete "generatedImages" st) in
  match JSON_stringify (List.map stored_form (most_recent 10 completed)) with
  | Returned s =>
      if quota cleared "generatedImages" s then <["generatedImages" := s]> cleared
      else cleared
  | Thrown _ => cleared
  end.

End Browser.

(** A small browser: the serialization lists the ids, and the quota lets
    at most 12 characters through. *)
Definition tiny_stringify (l : list StoredImage) : Outcome string :=
  Returned (String.concat "," (List.map s_id l)).

Definition tiny_quota (st : Storage) (key value : string) : bool :=
  (String.length value <=? 12)%nat.

Definition image (i u : string) (generating : option bool) : GeneratedImage :=
  {| id := i; url := u; prompt := "a cat"; timestamp := ValidDate 0;
     quality := "standard"; model := "flux-kontext-pro";
     originalImageId := None; isGenerating := generating; isUploaded := None;
     geminiUri := None; isMultiImageEdit := None; sourceImages := None;
     inputImages := None; metadata := None |}.

Definition gallery : list GeneratedImage :=
  [ image "img_1" "https://replicate.delivery/1.png" None;
    image "img_2" "data:image/png;base64,AAAA" None;
    image "img_3" "https://replicate.delivery/3.png" (Some true);
    image "img_4" EmptyString None;
    image "img_5" "https://blob.vercel-storage.com/5.png" (Some false) ].

(** A browser where space is short: a blob takes a megabyte for each
    character, and the quota of 50 characters is shared with the cache of
    images. *)
Definition megabyte_per_character (s : string) : nat := String.length s * (1024 * 1024).

Definition shared_quota (st : Storage) (key value : string) : bool :=
  (String.length value + String.length (default "" (st !! "imageCache")) <=? 50)%nat.

Definition cached : Storage := {["imageCache" := "******************************"]}.

(** Eight images to keep, and one that is still generating. *)
Definition crowded_gallery : list GeneratedImage :=
  [ image "img_1" "https://replicate.delivery/1.png" None;
    image "img_2" "https://replicate.delivery/2.png" None;
    image "img_3" "https://replicate.delivery/3.png" None;
    image "img_4" "https://replicate.delivery/4.png" None;
    image "img_5" "https://replicate.delivery/5.png" None;
    image "img_6" "https://replicate.delivery/6.png" None;
    image "img_7" "https://replicate.delivery/7.png" None;
    image "img_8" "https://replicate.delivery/8.png" None;
    image "img_9" "https://replicate.delivery/9.png" (Some true) ].

End ImageUtilsTerms.

(* ===================================================================== *)
(** ** Vocabulary of the further properties *)
(* ===================================================================== *)

Module JsObjectTerms.

(** The property names that an object literal inherits from
    [Object.prototype]: for these, and only for these, [obj[name]] is not
    undefined when [obj] has no property of its own under the name. *)
Definition inherited_keys : list string :=
  [ "constructor"; "hasOwnProperty"; "isPrototypeOf"; "propertyIsEnumerable";
    "toLocaleString"; "toString"; "valueOf"; "__proto__";
    "__defineGetter__"; "__defineSetter__"; "__lookupGetter__"; "__lookupSetter__" ].

End JsObjectTerms.

Module StringTerms.

Definition first_char (s : string) : option ascii :=
  match s with String c _ => Some c | EmptyString => None end.

Fixpoint last_char (s : string) : option ascii :=
  match s with
  | EmptyString => None
  | String c EmptyString => Some c
  | String _ t => last_char t
  end.

(** The string neither starts nor ends with white space. *)
Definition trimmed (s : string) : Prop :=
  (forall c, first_char s = Some c -> Js.is_space c = false)
  /\ (forall c, last_char s = Some c -> Js.is_space c = false).

(** [part] is cut out of [whole]: nothing is added or changed. *)
Definition part_of (part whole : string) : Prop :=
  exists before after, whole = before ++ part ++ after.

End StringTerms.

Module SearchIntentTerms.

(** The short names that [extractDomainFilter] looks for, each with the
    site it stands for. *)
Definition site_names : list (string * string) :=
  [ ("reddit", "reddit.com"); ("wikipedia", "wikipedia.org");
    ("github", "github.com"); ("stackoverflow", "stackoverflow.com") ].

End SearchIntentTerms.

Module ImageUtilsTextTerms.
Import ImageUtilsText.

(** The label of an age in milliseconds, by the largest unit that fits. *)
Definition label_by_age (age : Z) : string :=
  if (age <? 60000)%Z then "Just now"
  else if (age <? 3600000)%Z then ago (age / 60000) "minute"
  else if (age <? 86400000)%Z then ago (age / 3600000) "hour"
  else ago (age / 86400000) "day".

(** White space occurs in the string only as single spaces. *)
Fixpoint single_spaced (s : string) : Prop :=
  match s with
  | EmptyString => True
  | String c t =>
      (Js.is_space c = true ->
       c = " "%char /\ match t with
                      | String d _ => Js.is_space d = false
                      | EmptyString => True
                      end)
      /\ single_spaced t
  end.

End ImageUtilsTextTerms.

Module ImageUtilsLoadTerms.
Import Eff ImageUtils ImageUtilsLoad.

(** What [JSON.parse] reads back from the serialization of a stored
    image: the fields that were written, the others undefined. *)
Definition parsed_of (s : StoredImage) : ParsedImage :=
  {| p_id := Some (s_id s);
     p_url := Some (s_url s);
     p_prompt := Some (s_prompt s);
     p_revisedPrompt := None;
     p_timestamp := Some (s_timestamp s);
     p_quality := Some (s_quality s);
     p_style := None;
     p_size := None;
     p_model := Some (s_model s);
     p_originalImageId := s_originalImageId s;
     p_editStrength := None;
     p_generationStartTime := None;
     p_isMultiImageEdit := s_isMultiImageEdit s;
     p_sourceImages := s_sourceImages s;
     p_inputImages := s_inputImages s;
     p_isUploaded := s_isUploaded s;
     p_geminiUri := s_geminiUri s |}.

(** The time stamp that is written for an image: its own when it is
    valid, else the time of saving. *)
Definition stamp (now : Z) (img : GeneratedImage) : Z :=
  match timestamp img with ValidDate ms => ms | _ => now end.

(** [s] when it is not empty, else [d]. *)
Definition or_default (s d : string) : string :=
  match s with EmptyString => d | _ => s end.

(** An image as it comes back from the storage: URL and prompt cut, the
    time stamp valid, not generating, and the fields that are not stored
    undefined; in place of an empty id the id [fresh] that is generated
    for it, in place of an empty quality "standard", in place of an empty
    model "unknown". *)
Definition restored (now : Z) (fresh : string) (img : GeneratedImage) : LoadedImage :=
  {| image :=
       {| id := or_default (id img) fresh;
          url := Js.substring0 500 (url img);
          prompt := Js.substring0 200 (prompt img);
          timestamp := ValidDate (stamp now img);
          quality := or_default (quality img) "standard";
          model := or_default (model img) "unknown";
          originalImageId := originalImageId img;
          isGenerating := Some false;
          isUploaded := isUploaded img;
          geminiUri := geminiUri img;
          isMultiImageEdit := isMultiImageEdit img;
          sourceImages := sourceImages img;
          inputImages :=
            option_map
              (List.map (fun u => if Js.startsWith "data:" u then "[DATA_URL_REMOVED]"
                                  else Js.substring0 200 u))
              (inputImages img);
          metadata := None |};
     revisedPrompt := None;
     style := None;
     size := None;
     editStrength := None;
     generationStartTime := NoDate |}.

(** A small browser that reads back the one serialization
    [ImageUtilsTerms.tiny_stringify] gives for the gallery. *)
Definition tiny_parse (s : string) : Outcome (list ParsedImage) :=
  if String.eqb s "img_1,img_5"
  then Returned
         (List.map parsed_of
            (prepareForStorage 0 pretty
               (slice_last 30
                  (List.map (with_expiration_info 0 pretty)
                     (List.filter is_completed ImageUtilsTerms.gallery)))))
  else Thrown (Error "Unexpected token").

Definition tiny_date (s : string) : option Z :=
  if String.eqb s "0" then Some 0%Z else None.

End ImageUtilsLoadTerms.

Module EditImageRouteTerms.
Import Eff EditImage.

(** A call of one of the two providers. *)
Definition is_provider (ev : Event) : bool :=
  match ev with
  | EvReplicateEdit _ _ | EvOpenAIEdit _ _ _ => true
  | _ => false
  end.

(** A log without any provider call. *)
Definition calm (l : list Event) : Prop :=
  Forall (fun ev => is_provider ev = false) l.

Definition gemini_text : string := "Image editing not available for Gemini file URIs".

(** A world with network where the image is reachable. *)
Definition online : Env :=
  {| OPENAI_API_KEY := Some "sk-test";
     REPLICATE_API_KEY := Some "r8-test";
     fetch_head := fun _ _ => Resolved (mkResponse true 200 "OK" tt);
     fetch_get := fun _ => NetworkError (Error "fetch failed");
     fetch_proxy := fun _ => NetworkError (Error "fetch failed");
     getImageByLocalId := fun _ => None;
     replicate_editImage := fun _ _ => Returned "https://replicate.delivery/out.png";
     smartEditWithGPTImage1 := fun _ _ _ =>
       Returned {| res_imageUrl := "https://openai.example/out.png";
                   res_originalImageUrl := None; res_revisedPrompt := None;
                   res_model := None; res_method := None |} |}.

(** An edit with GPT-Image-1 of a file served from a path that holds
    [files/]. *)
Definition files_request : Body :=
  EditImageTerms.request (Some "gpt-image-1") "https://example.com/files/cat.png" None
    (Some "make it blue") None None.

(** An edit with Flux Kontext Max of an image given as a data URL. *)
Definition inline_request : Body :=
  EditImageTerms.request (Some "flux-kontext-max") "data:image/png;base64,AAAA" None
    (Some "make it blue") None None.

End EditImageRouteTerms.

Module GenerateImageRouteTerms.
Import Eff GenerateImage.


(** A world whose Replicate client fails. *)
Definition failing : Env :=
  {| OPENAI_API_KEY := Some "sk-test";
     REPLICATE_API_KEY := Some "r8-test";
     generateImageWithContext := generateImageWithContext (GenerateImageTerms.world true);
     generateImageWithGPTImage1 :=
       generateImageWithGPTImage1 (GenerateImageTerms.world true);
     replicate_generateImage := fun _ _ _ => Thrown (Error "NSFW content detected") |}.

End GenerateImageRouteTerms.

Module WaveSpeedClientTerms.
Import Eff WaveSpeed.

(** The payload of the submission: the images and the prompt of the
    request, the guidance scale 3.5 unless the request gives one that is
    not 0, and the safety tolerance 2 unless the request gives one that is
    not empty. *)
Definition payload_of (request : WaveSpeedMultiImageRequest) : Payload :=
  {| guidance_scale :=
       match guidanceScale request with
       | Some g => if Qeq_bool g 0 then (7 # 2)%Q else g
       | None => (7 # 2)%Q
       end;
     pl_images := images request;
     pl_prompt := prompt request;
     safety_tolerance := Js.or_else (safetyTolerance request) "2" |}.

Definition submit_url (this : Client) : string :=
  baseUrl this ++ "/wavespeed-ai/flux-kontext-max/multi".

(** An image the client accepts: a string that starts with data: or http. *)
Definition accepted_image (image : string) : bool :=
  Js.startsWith "data:" image || Js.startsWith "http" image.

(** The service refuses the submission with status 402. *)
Definition refusing : Service :=
  {| submit := fun _ _ =>
       Resolved (mkResponse false 402 "Payment Required"
                   {| sb_text := Returned "insufficient credits";
                      sb_json := Thrown (Error "Unexpected token") |});
     poll := fun _ _ => NetworkError (Error "fetch failed") |}.

(** The task is completed at the third poll. *)
Definition completed_at_third : Service :=
  {| submit := fun _ _ => WaveSpeedTerms.accepted;
     poll := fun _ attempt =>
       if (attempt =? 3)%nat
       then WaveSpeedTerms.answer "completed" (Some ["https://cdn.wavespeed.ai/out.png"]) None
       else WaveSpeedTerms.answer "processing" None None |}.

End WaveSpeedClientTerms.

Module EditMultiImageRouteTerms.
Import Eff EditMultiImage.

(** The client the route builds with the key [key]. *)
Definition client_of (key : string) : WaveSpeed.Client :=
  {| WaveSpeed.apiKey := key; WaveSpeed.baseUrl := "https://api.wavespeed.ai/api/v3" |}.

(** The request the route hands to the client. *)
Definition request_of (body : Body) (urls : list string) (p : string)
  : WaveSpeed.WaveSpeedMultiImageRequest :=
  {| WaveSpeed.images := urls;
     WaveSpeed.prompt := p;
     WaveSpeed.guidanceScale := Some (default (7 # 2)%Q (guidanceScale body));
     WaveSpeed.safetyTolerance := Some (default "2" (safetyTolerance body)) |}.

(** A world with the key, whose service completes the task at the third
    poll. *)
Definition with_key : Env :=
  {| WAVESPEED_API_KEY := Some "ws-test";
     service := WaveSpeedClientTerms.completed_at_third |}.

(** Two images, a guidance scale of 0. *)
Definition two_urls : Body :=
  {| images := Some (JArr [JStr "https://example.com/a.png";
                           JStr "https://example.com/b.png"]);
     prompt := Some (JStr "merge the two pictures");
     guidanceScale := Some 0%Q;
     safetyTolerance := None |}.

(** Two images, the second one a number. *)
Definition url_and_number : Body :=
  {| images := Some (JArr [JStr "https://example.com/a.png"; JNum 7]);
     prompt := Some (JStr "merge the two pictures");
     guidanceScale := None;
     safetyTolerance := None |}.

End EditMultiImageRouteTerms.

Module PerplexitySearchTerms.
Import Eff PerplexitySearch.

(** The last message of the chat whose role is [user]. *)
Definition last_user_message (msgs : list ChatMessage) : option ChatMessage :=
  last (List.filter (fun m => String.eqb (role m) "user") msgs).

(** A world whose client answers every search with one citation. *)
Definition world : Env :=
  {| new_client := Returned tt;
     search := fun _ _ =>
       Returned {| citations := Some ["https://example.com/news"];
                   search_results := None;
                   images := None;
                   rest := "{}" |};
     today := "Sunday, November 1, 2026";
     response_data := fun _ => None |}.

(** A chat that first asks for news and then for a picture. *)
Definition chat : list ChatMessage :=
  [ {| role := "user"; content := "What is the latest news today?" |};
    {| role := "assistant"; content := "Here are the headlines." |};
    {| role := "user"; content := "Draw a picture of the latest news" |} ].

End PerplexitySearchTerms.

(* ===================================================================== *)
(** * Properties *)
(* ===================================================================== *)

(** ** Search-intent detection *)

Module SearchIntentSpec.
Import SearchIntentDetector.

Lemma some_included_spec (keywords : list string) (lower : string) :
  some_included keywords lower = true <->
  exists keyword, In keyword keywords /\ Js.includes keyword lower = true.
Proof. unfold some_included. apply existsb_exists. Qed.

Lemma hasGenerativePattern_spec (userMessage : string) :
  hasGenerativePattern userMessage = true <->
  exists pattern, In pattern generativePatterns /\ Regex.test pattern userMessage = true.
Proof. unfold hasGenerativePattern. apply existsb_exists. Qed.

(** The detector's three possible search types, read off the keyword tests. *)
Lemma chooseSearchType_cases (c r : bool) :
  chooseSearchType c r = current_events /\ c = true
  \/ chooseSearchType c r = research /\ c = false /\ r = true
  \/ chooseSearchType c r = factual /\ c = false /\ r = false.
Proof. destruct c, r; cbn; tauto. Qed.

Lemma assessComplexity_research (message : string) :
  assessComplexity message (Some research) = complex.
Proof. reflexivity. Qed.

(** What [detectSearchIntent] returns once it has decided to search. *)
Lemma detect_searching (userMessage : string) :
  needsSearch (detectSearchIntent userMessage) = true ->
  let lower := Js.toLowerCase userMessage in
  let st := chooseSearchType (some_included currentInfoKeywords lower)
                             (some_included researchKeywords lower) in
  let c := assessComplexity userMessage (Some st) in
  searchType (detectSearchIntent userMessage) = Some st
  /\ queryType (detectSearchIntent userMessage) = Some st
  /\ complexity (detectSearchIntent userMessage) = Some c
  /\ estimatedDuration (detectSearchIntent userMessage)
     = Some (estimateDuration (Some c) (Some st))
  /\ requiresAsync (detectSearchIntent userMessage)
     = Some (match c, st with complex, _ | _, research => true | _, _ => false end).
Proof.
  unfold detectSearchIntent.
  destruct (some_included actionExclusions _ || hasGenerativePattern _);
    [discriminate |].
  destruct (negb _); [discriminate |].
  intros _. repeat split; reflexivity.
Qed.

(** C8. Whenever an action-exclusion keyword occurs in the lower-cased
    message, or a generative pattern matches the message, the detector
    returns exactly [{ needsSearch: false }], every other field unset,
    whatever current-information, factual or research keywords the message
    also holds. *)
Theorem action_request_is_never_searched (userMessage : string) :
  (exists keyword, In keyword actionExclusions
                   /\ Js.includes keyword (Js.toLowerCase userMessage) = true)
  \/ (exists pattern, In pattern generativePatterns
                      /\ Regex.test pattern userMessage = true) ->
  detectSearchIntent userMessage
  = {| needsSearch := false; searchQuery := None; searchType := None;
       timeFilter := None; domainFilter := None; queryType := None;
       complexity := None; estimatedDuration := None; requiresAsync := None |}.
Proof.
  intros H. unfold detectSearchIntent.
  assert (Hb : some_included actionExclusions (Js.toLowerCase userMessage)
               || hasGenerativePattern userMessage = true).
  { apply orb_true_iff. destruct H as [H | H].
    - left. now apply some_included_spec.
    - right. now apply hasGenerativePattern_spec. }
  rewrite Hb. reflexivity.
Qed.

(** The message asks to generate an image and also holds the
    current-information keywords "latest", "news" and "today". *)
Lemma action_request_is_never_searched_witness :
  ((exists keyword, In keyword actionExclusions
      /\ Js.includes keyword
           (Js.toLowerCase "Generate an image of the latest news today") = true)
   \/ (exists pattern, In pattern generativePatterns
         /\ Regex.test pattern "Generate an image of the latest news today" = true))
  /\ some_included currentInfoKeywords
       (Js.toLowerCase "Generate an image of the latest news today") = true
  /\ detectSearchIntent "Generate an image of the latest news today" = no_search.
Proof.
  assert (H : (exists keyword, In keyword actionExclusions
      /\ Js.includes keyword
           (Js.toLowerCase "Generate an image of the latest news today") = true)
   \/ (exists pattern, In pattern generativePatterns
         /\ Regex.test pattern "Generate an image of the latest news today" = true)).
  { left. exists "generate". split; [cbn; tauto | vm_compute; reflexivity]. }
  split; [exact H |].
  split; [vm_compute; reflexivity |].
  exact (action_request_is_never_searched _ H).
Defined.

(** A message that only a generative pattern excludes: no action keyword
    occurs in it, and it asks for the latest research. *)
Example pattern_only_exclusion :
  hasActionKeyword "show characters talking about the latest research" = false
  /\ hasGenerativePattern "show characters talking about the latest research" = true
  /\ detectSearchIntent "show characters talking about the latest research" = no_search.
Proof. vm_compute. repeat split. Qed.

(** C9. The detector never returns the search type [comparison]. When it
    searches, the type is [current_events] if a current-information keyword
    occurs, else [research] if a research keyword occurs, else [factual];
    a [research] result is [complex] and asynchronous; and the search type
    handed to [assessComplexity] and [estimateDuration] is never
    [comparison]. *)
Theorem search_type_is_never_comparison (userMessage : string) :
  let r := detectSearchIntent userMessage in
  let lower := Js.toLowerCase userMessage in
  searchType r <> Some comparison
  /\ (needsSearch r = true ->
      searchType r
      = Some (if some_included currentInfoKeywords lower then current_events
              else if some_included researchKeywords lower then research
              else factual)
      /\ (searchType r = Some research ->
          complexity r = Some complex /\ requiresAsync r = Some true)
      /\ exists st,
           st <> comparison
           /\ searchType r = Some st
           /\ complexity r = Some (assessComplexity userMessage (Some st))
           /\ estimatedDuration r = Some (estimateDuration (complexity r) (Some st))).
Proof.
  cbv zeta.
  assert (Hnc : forall c r, chooseSearchType c r <> comparison)
    by (intros [] []; discriminate).
  split.
  - destruct (needsSearch (detectSearchIntent userMessage)) eqn:Hn.
    + pose proof (detect_searching userMessage Hn) as H. cbv zeta in H.
      set (st := chooseSearchType _ _) in H.
      destruct H as (Hst & _). rewrite Hst.
      intros E. assert (Est : st = comparison) by congruence.
      exact (Hnc _ _ Est).
    + unfold detectSearchIntent in *.
      destruct (some_included actionExclusions _ || hasGenerativePattern _);
        [discriminate |].
      destruct (negb _); [discriminate | discriminate Hn].
  - intros Hn.
    pose proof (detect_searching userMessage Hn) as H. cbv zeta in H.
    set (st := chooseSearchType _ _) in H.
    destruct H as (Hst & _ & Hc & Hd & Ha).
    split; [rewrite Hst; reflexivity |]. split.
    + rewrite Hst. intros E. assert (Est : st = research) by congruence.
      rewrite Hc, Ha, Est. split; reflexivity.
    + exists st. split; [apply Hnc |]. split; [exact Hst |]. split; [exact Hc |].
      rewrite Hd, Hc. reflexivity.
Qed.

Lemma search_type_is_never_comparison_witness :
  needsSearch (detectSearchIntent "compare the best laptops") = true
  /\ searchType (detectSearchIntent "compare the best laptops") = Some research
  /\ complexity (detectSearchIntent "compare the best laptops") = Some complex
  /\ requiresAsync (detectSearchIntent "compare the best laptops") = Some true.
Proof.
  assert (Hn : needsSearch (detectSearchIntent "compare the best laptops") = true)
    by (vm_compute; reflexivity).
  destruct (search_type_is_never_comparison "compare the best laptops")
    as (_ & H).
  destruct (H Hn) as (Hst & Hres & _).
  assert (Hr : searchType (detectSearchIntent "compare the best laptops") = Some research).
  { rewrite Hst. vm_compute. reflexivity. }
  destruct (Hres Hr) as (Hc & Ha).
  repeat split; assumption.
Defined.

End SearchIntentSpec.

(** ** The edit-image route *)

Module EditImageSpec.
Import Eff EditImage EditImageTerms ImageUrlValidatorTerms EditImageRecoveryTerms
  EditImageErrorTerms.

(** The handler of the inner [try] always answers, so the outer [catch]
    is not entered once the body has been parsed. *)
Lemma POST_dispatch (env : Env) (body : Body) (m imageUrl prompt : string) :
  passes_guards env body m imageUrl prompt ->
  POST env (Returned body)
  = try_catch
      (dispatch env m imageUrl (imageId body) prompt
         (default "standard" (quality body)) (default "vivid" (style body))
         (default "1024x1024" (size body)) (mask body))
      (fun error => mret (catch_edit_error error)).
Proof.
  intros [Hm Ho Hr Hu Hut Hp Hpt]. unfold POST.
  munfold. cbv beta iota zeta. rewrite <- Hm, Hu, Hp, Hut, Hpt. cbn [negb].
  assert (Hk1 : String.eqb m "gpt-image-1" && negb (Js.truthy_opt (OPENAI_API_KEY env))
                = false).
  { destruct (String.eqb_spec m "gpt-image-1") as [E | E]; [| reflexivity].
    rewrite (Ho E). reflexivity. }
  assert (Hk2 : is_flux m && negb (Js.truthy_opt (REPLICATE_API_KEY env)) = false).
  { destruct (is_flux m) eqn:E; [| reflexivity]. rewrite (Hr eq_refl). reflexivity. }
  rewrite Hk1, Hk2.
  destruct (dispatch env m imageUrl _ _ _ _ _ _) as [l [r | e]]; cbn;
    rewrite ?app_nil_r; reflexivity.
Qed.



Lemma lookup_id_looked_up (imageId : option string) (imageUrl : string) :
  lookup_id imageId imageUrl = looked_up imageUrl imageId.
Proof. destruct imageId as [[| c id] |]; reflexivity. Qed.

Lemma permanent_url_copy (env : Env) (id : string) :
  permanent_url (getImageByLocalId env id) = permanent_copy env id.
Proof.
  unfold permanent_url, permanent_copy.
  destruct (getImageByLocalId env id) as [[[[| c u] |]] |]; reflexivity.
Qed.

(** [ensureImageUrlAccessible] makes the calls of [recovery] and ends as
    it says. *)
Lemma ensure_recovery (env : Env) (url : string) :
  ensureImageUrlAccessible env url
  = (fst (recovery env url),
     match snd (recovery env url) with
     | Some v => Returned v
     | None => Thrown unrecoverable
     end).
Proof.
  unfold ensureImageUrlAccessible, validateImageUrl, downloadImageAsDataUrl,
    proxy_conversion, await_fetch, recovery, reachable, downloaded, converted.
  munfold.
  destruct (fetch_head env url None) as [e | [[] st txt []]]; cbn; try reflexivity;
    destruct (fetch_get env url) as [e' | [[] st' txt' [d | e']]]; cbn;
    try reflexivity;
    destruct (fetch_proxy env url) as [e'' | [[] st'' txt'' [d' | e'']]]; cbn;
    reflexivity.
Qed.

(** The validation of the route makes the calls of [validation] and ends
    with the URL it gives, or with the answer "expired or inaccessible". *)
Lemma validate_validation (env : Env) (imageUrl : string) (imageId : option string) :
  Js.startsWith "data:" imageUrl = false ->
  Js.includes "blob.vercel-storage.com" imageUrl = false ->
  validate_for_replicate env imageUrl imageId
  = (fst (validation env imageUrl imageId),
     Returned (match snd (validation env imageUrl imageId) with
               | Some v => inr v
               | None => inl (expired_response imageUrl)
               end)).
Proof.
  intros Hd Hb. unfold validate_for_replicate. rewrite Hd, Hb. cbn [negb andb].
  unfold head_check, head_check_failed, validation, recovery_pass, first_check,
    await_fetch, await_lookup, permanent_copy, permanent_url.
  rewrite lookup_id_looked_up, ensure_recovery.
  destruct (recovery env imageUrl) as [calls [v |]]; cbn [fst snd].
  all: munfold.
  all: destruct (fetch_head env imageUrl (Some 5000)) as [e0 | [[] st txt []]];
       cbn [ok negb].
  all: destruct (looked_up imageUrl imageId) as [id |]; cbn [mbind option_bind];
       [destruct (getImageByLocalId env id) as [[[[| c u] |]] |] |].
  all: cbn; rewrite ?app_nil_r, <- ?app_assoc; reflexivity.
Qed.




(** The answer of the Replicate branch once the URL has been validated. *)
Lemma replicate_branch_validated (env : Env) (m imageUrl : string)
    (imageId : option string) (prompt quality style size : string) l v :
  Js.truthy_opt (REPLICATE_API_KEY env) = true ->
  validate_for_replicate env imageUrl imageId = (l, Returned (inr v)) ->
  exists md,
    replicate_branch env m imageUrl imageId prompt quality style size
    = ((l ++ [EvReplicateEdit m (edit_input prompt v)])%list,
       match replicate_editImage env m (edit_input prompt v) with
       | Returned edited =>
           Returned {| resp_status := 200;
                       resp_json :=
                         SuccessJson
                           [ {| img_url := edited; img_originalUrl := imageUrl;
                                img_revisedPrompt := prompt; img_index := 0 |} ] md |}
       | Thrown e => Thrown e
       end)
    /\ md_quality md = quality /\ md_size md = size /\ md_model md = m.
Proof.
  intros Hk Hv. unfold replicate_branch. rewrite Hk, Hv. cbn [negb].
  munfold. fold (edit_input prompt v).
  eexists. split.
  - destruct (replicate_editImage env m (edit_input prompt v)) as [edited | e];
      cbn; rewrite ?app_nil_r; reflexivity.
  - repeat split.
Qed.

(** The OpenAI branch: one call, with the remapped quality and size. *)
Lemma dispatch_gpt (env : Env) (body : Body) (imageUrl prompt : string) :
  not_gemini_uri imageUrl ->
  dispatch env "gpt-image-1" imageUrl (imageId body) prompt
    (default "standard" (quality body)) (default "vivid" (style body))
    (default "1024x1024" (size body)) (mask body)
  = ([EvOpenAIEdit imageUrl prompt (gpt_options body)],
     match smartEditWithGPTImage1 env imageUrl prompt (gpt_options body) with
     | Returned result =>
         Returned
           {| resp_status := 200;
              resp_json :=
                SuccessJson
                  [ {| img_url := res_imageUrl result;
                       img_originalUrl := Js.or_else (res_originalImageUrl result) imageUrl;
                       img_revisedPrompt := Js.or_else (res_revisedPrompt result) prompt;
                       img_index := 0 |} ]
                  {| md_model := Js.or_else (res_model result) "gpt-image-1";
                     md_provider := "openai";
                     md_quality := default "standard" (quality body);
                     md_style := default "vivid" (style body);
                     md_size := default "1024x1024" (size body);
                     md_originalPrompt := prompt;
                     md_editMode := true;
                     md_method := Js.or_else (res_method result) "image-to-image";
                     md_imageCount := 1;
                     md_note :=
                       match res_model result with
                       | Some m =>
                           if Js.includes "fallback" m
                           then Some "Using fallback model due to GPT-Image-1 availability"
                           else None
                       | None => None
                       end |} |}
     | Thrown e => Thrown e
     end).
Proof.
  intros Hu. unfold dispatch. cbn [String.eqb Ascii.eqb Bool.eqb]. unfold gpt_branch.
  assert (Hgem : negb (Js.startsWith "data:" imageUrl)
                 && (Js.includes "generativelanguage.googleapis.com" imageUrl
                     || Js.includes "files/" imageUrl) = false).
  { destruct Hu as [-> | [-> ->]]; [reflexivity |].
    destruct (Js.startsWith "data:" imageUrl); reflexivity. }
  rewrite Hgem. munfold. fold (gpt_options body).
  destruct (smartEditWithGPTImage1 env imageUrl prompt (gpt_options body)); reflexivity.
Qed.




(** Before the guards are passed nothing is checked: a request without a
    prompt is answered 400 "Edit prompt is required" and no HEAD request
    is made. *)
Example flux_request_without_prompt_is_not_checked :
  POST offline (Returned flux_request_without_prompt)
  = ([], Returned (error_response 400 "Edit prompt is required" None)).
Proof. vm_compute. reflexivity. Qed.

(** In the world without network every step fails, once: the first HEAD
    request is rejected, not answered. *)
Example offline_edit_is_refused :
  POST offline (Returned flux_request)
  = ([ EvHead "https://replicate.delivery/pbxt/a.png" (Some 5000);
       EvLookup "img_1";
       EvHead "https://replicate.delivery/pbxt/a.png" None;
       EvGet "https://replicate.delivery/pbxt/a.png";
       EvProxy "https://replicate.delivery/pbxt/a.png" ],
     Returned (expired_response "https://replicate.delivery/pbxt/a.png")).
Proof. vm_compute. reflexivity. Qed.

(** With a permanent copy the lookup ends the recovery. *)
Example persisted_copy_is_used :
  log_of (POST persisted (Returned flux_request))
  = [ EvHead "https://replicate.delivery/pbxt/a.png" (Some 5000);
      EvLookup "img_1";
      EvReplicateEdit "flux-kontext-pro"
        (edit_input "make it blue" "https://blob.vercel-storage.com/img_1.png") ].
Proof. vm_compute. reflexivity. Qed.

Lemma prefix_exists (p s : string) :
  String.prefix p s = true <-> exists rest, s = p ++ rest.
Proof.
  revert s. induction p as [| a p IH]; intros s.
  - split; [intros _; exists s; reflexivity | intros _; destruct s; reflexivity].
  - destruct s as [| b s]; cbn; [split; [discriminate | intros [rest [=]]] |].
    destruct (ascii_dec a b) as [-> | Hne].
    + rewrite IH. split; intros [rest Hr]; exists rest.
      * change (String b s = String b (p ++ rest)). congruence.
      * change (String b s = String b (p ++ rest)) in Hr. congruence.
    + split; [discriminate |]. intros [rest Hr].
      change (String b s = String a (p ++ rest)) in Hr. congruence.
Qed.

(** [includes] finds exactly the parts of a string. *)
Lemma includes_inside (needle s : string) :
  Js.includes needle s = true <-> exists before after, s = before ++ needle ++ after.
Proof.
  induction s as [| c s IH]; cbn [Js.includes].
  - rewrite orb_false_r, prefix_exists. split.
    + intros [rest Hr]. exists "", rest. exact Hr.
    + intros ([| b before] & after & Hs).
      * exists after. exact Hs.
      * discriminate.
  - rewrite orb_true_iff, prefix_exists, IH. split.
    + intros [[rest Hr] | (before & after & Hs)].
      * exists "", rest. exact Hr.
      * exists (String c before), after.
        change (String c s = String c (before ++ needle ++ after)). congruence.
    + intros ([| b before] & after & Hs).
      * left. exists after. exact Hs.
      * right. exists before, after.
        change (String c s = String b (before ++ needle ++ after)) in Hs. congruence.
Qed.

Lemma message_includes_contains (needle : string) (e : JsError) :
  message_includes needle e = true <-> message_contains needle e.
Proof.
  unfold message_includes, message_contains.
  destruct (err_message e) as [m |].
  - rewrite includes_inside. split.
    + intros (before & after & H). exists m, before, after. split; [reflexivity | exact H].
    + intros (m' & before & after & [= <-] & H). exists before, after. exact H.
  - split; [discriminate | intros (m' & before & after & [=] & _)].
Qed.

Lemma message_includes_not (needle : string) (e : JsError) :
  message_includes needle e = false <-> ~ message_contains needle e.
Proof.
  rewrite <- message_includes_contains. destruct (message_includes needle e); split;
    (congruence || tauto).
Qed.

Lemma opt_is_eq (o : option string) (s : string) : opt_is o s = true <-> o = Some s.
Proof.
  unfold opt_is. destruct o as [x |]; [| split; discriminate].
  destruct (String.eqb_spec x s); split; congruence.
Qed.

Lemma opt_is_not (o : option string) (s : string) : opt_is o s = false <-> o <> Some s.
Proof. rewrite <- opt_is_eq. destruct (opt_is o s); split; (congruence || tauto). Qed.

(** The tests of the handler hold of the errors of each category. *)
Lemma handler_tests (e : JsError) :
  (message_includes "invalid_request_error" e = true <-> belongs_to InvalidRequest e)
  /\ (message_includes "rate_limit_exceeded" e = true <-> belongs_to RateLimit e)
  /\ (message_includes "404 Client Error" e && message_includes "replicate.delivery" e
      = true <-> belongs_to UrlExpired e)
  /\ (message_includes "safety system" e
      || opt_is (err_code e) "moderation_blocked"
      || opt_is (err_type e) "image_generation_user_error" = true
      <-> belongs_to ContentNotAllowed e)
  /\ (message_includes "model_not_found" e = true <-> belongs_to ModelNotAvailable e).
Proof.
  cbn [belongs_to].
  rewrite andb_true_iff, !orb_true_iff, !message_includes_contains, !opt_is_eq.
  tauto.
Qed.

(** Each test of the handler either holds, and the error belongs to the
    category, or fails, and it does not. *)
Ltac decide_test T b :=
  let E := fresh "E" in
  destruct b eqn:E;
  [ apply proj1 in T; specialize (T eq_refl)
  | apply proj2 in T;
    assert (~ _) by (let H := fresh in intros H; apply T in H; discriminate H);
    clear T ].

(** The answer of the handler, category by category. *)
Lemma catch_edit_error_answer (e : JsError) (c : Category) :
  falls_into e c ->
  resp_status (catch_edit_error e) = fst (answer c)
  /\ error_of (catch_edit_error e) = Some (snd (answer c)).
Proof.
  intros [Hc Hb]. unfold catch_edit_error.
  destruct (handler_tests e) as (T1 & T2 & T3 & T4 & T5).
  assert (Hn : forall c', In c' (listed_before c) -> ~ belongs_to c' e).
  { rewrite Forall_forall in Hb. intros c' Hin. apply Hb. apply list_elem_of_In, Hin. }
  clear Hb.
  decide_test T1 (message_includes "invalid_request_error" e).
  { destruct c; try (split; reflexivity); exfalso;
      (apply (Hn InvalidRequest); [cbn; auto 10 | assumption]). }
  decide_test T2 (message_includes "rate_limit_exceeded" e).
  { destruct c; try (split; reflexivity); exfalso;
      first [ tauto | apply (Hn RateLimit); [cbn; auto 10 | assumption] ]. }
  decide_test T3 (message_includes "404 Client Error" e
                  && message_includes "replicate.delivery" e).
  { destruct c; try (split; reflexivity); exfalso;
      first [ tauto | apply (Hn UrlExpired); [cbn; auto 10 | assumption] ]. }
  decide_test T4 (message_includes "safety system" e
                  || opt_is (err_code e) "moderation_blocked"
                  || opt_is (err_type e) "image_generation_user_error").
  { destruct c; try (split; reflexivity); exfalso;
      first [ tauto | apply (Hn ContentNotAllowed); [cbn; auto 10 | assumption] ]. }
  decide_test T5 (message_includes "model_not_found" e).
  { destruct c; try (split; reflexivity); exfalso;
      first [ tauto | apply (Hn ModelNotAvailable); [cbn; auto 10 | assumption] ]. }
  destruct c; try (split; reflexivity); exfalso; tauto.
Qed.

(** Every error falls into a category. *)
Lemma falls_into_total (e : JsError) : exists c, falls_into e c.
Proof.
  destruct (handler_tests e) as (T1 & T2 & T3 & T4 & T5).
  unfold falls_into.
  decide_test T1 (message_includes "invalid_request_error" e).
  { exists InvalidRequest. split; [assumption | constructor]. }
  decide_test T2 (message_includes "rate_limit_exceeded" e).
  { exists RateLimit. split; [assumption | repeat constructor; assumption]. }
  decide_test T3 (message_includes "404 Client Error" e
                  && message_includes "replicate.delivery" e).
  { exists UrlExpired. split; [assumption | repeat constructor; assumption]. }
  decide_test T4 (message_includes "safety system" e
                  || opt_is (err_code e) "moderation_blocked"
                  || opt_is (err_type e) "image_generation_user_error").
  { exists ContentNotAllowed. split; [assumption | repeat constructor; assumption]. }
  decide_test T5 (message_includes "model_not_found" e).
  { exists ModelNotAvailable. split; [assumption | repeat constructor; assumption]. }
  exists FailedToEdit. split; [exact I | repeat constructor; assumption].
Qed.

(** C3. The error handler of the edit-image route sorts a thrown error by
    the text of its message: an error falls into the first category, in the
    order of the specification, to which it belongs (a message that
    contains 'invalid_request_error'; one that contains
    'rate_limit_exceeded'; one that contains both '404 Client Error' and
    'replicate.delivery'; one that contains 'safety system', or an
    [error.code] 'moderation_blocked', or an [error.type]
    'image_generation_user_error'; a message that contains
    'model_not_found'; any other error), every error falls into one, and
    the answer has the status and the error text of that category: 400
    "Invalid request", 429 "Rate limit exceeded", 400 "Image URL expired",
    400 "Content not allowed", 400 "Model not available", 500 "Failed to
    edit image".  An error thrown by the provider call, OpenAI or
    Replicate (after the validation of the image URL, or without it for a
    data URL or a URL of the blob storage), is answered in this way. *)
Theorem provider_errors_are_classified :
  (forall e : JsError, exists c, falls_into e c)
  /\ (forall (e : JsError) (c : Category),
         falls_into e c ->
         resp_status (catch_edit_error e) = fst (answer c)
         /\ error_of (catch_edit_error e) = Some (snd (answer c)))
  /\ (forall env body imageUrl prompt e c,
         passes_guards env body "gpt-image-1" imageUrl prompt ->
         not_gemini_uri imageUrl ->
         smartEditWithGPTImage1 env imageUrl prompt (gpt_options body) = Thrown e ->
         falls_into e c ->
         exists response,
           POST env (Returned body)
           = ([EvOpenAIEdit imageUrl prompt (gpt_options body)], Returned response)
           /\ resp_status response = fst (answer c)
           /\ error_of response = Some (snd (answer c)))
  /\ (forall env body m imageUrl prompt validImageUrl e c,
         passes_guards env body m imageUrl prompt ->
         m = "flux-kontext-max" \/ m = "flux-kontext-pro" ->
         Js.startsWith "data:" imageUrl = false ->
         Js.includes "blob.vercel-storage.com" imageUrl = false ->
         snd (validation env imageUrl (imageId body)) = Some validImageUrl ->
         replicate_editImage env m (edit_input prompt validImageUrl) = Thrown e ->
         falls_into e c ->
         exists response,
           POST env (Returned body)
           = ((fst (validation env imageUrl (imageId body))
                 ++ [EvReplicateEdit m (edit_input prompt validImageUrl)])%list,
              Returned response)
           /\ resp_status response = fst (answer c)
           /\ error_of response = Some (snd (answer c)))
  /\ (forall env body m imageUrl prompt e c,
         passes_guards env body m imageUrl prompt ->
         m = "flux-kontext-max" \/ m = "flux-kontext-pro" ->
         Js.startsWith "data:" imageUrl = true
         \/ Js.includes "blob.vercel-storage.com" imageUrl = true ->
         replicate_editImage env m (edit_input prompt imageUrl) = Thrown e ->
         falls_into e c ->
         exists response,
           POST env (Returned body)
           = ([EvReplicateEdit m (edit_input prompt imageUrl)], Returned response)
           /\ resp_status response = fst (answer c)
           /\ error_of response = Some (snd (answer c))).
Proof.
  assert (Hflux : forall env body m imageUrl prompt l v e c,
             passes_guards env body m imageUrl prompt ->
             m = "flux-kontext-max" \/ m = "flux-kontext-pro" ->
             validate_for_replicate env imageUrl (imageId body) = (l, Returned (inr v)) ->
             replicate_editImage env m (edit_input prompt v) = Thrown e ->
             falls_into e c ->
             exists response,
               POST env (Returned body)
               = ((l ++ [EvReplicateEdit m (edit_input prompt v)])%list, Returned response)
               /\ resp_status response = fst (answer c)
               /\ error_of response = Some (snd (answer c))).
  { intros env body m imageUrl prompt l v e c Hg Hm' Hv He Hc.
    assert (Hf : is_flux m = true) by (destruct Hm' as [-> | ->]; reflexivity).
    exists (catch_edit_error e). split; [| exact (catch_edit_error_answer e c Hc)].
    rewrite (POST_dispatch env body m imageUrl prompt Hg).
    assert (Hk : Js.truthy_opt (REPLICATE_API_KEY env) = true) by (apply Hg, Hf).
    assert (Hm : String.eqb m "gpt-image-1" = false).
    { destruct (String.eqb_spec m "gpt-image-1") as [-> |]; [discriminate | reflexivity]. }
    unfold dispatch. rewrite Hm, Hf.
    destruct (replicate_branch_validated env m imageUrl (imageId body) prompt
                (default "standard" (quality body)) (default "vivid" (style body))
                (default "1024x1024" (size body)) _ v Hk Hv) as (md & -> & _).
    rewrite He. cbn. rewrite app_nil_r. reflexivity. }
  split; [exact falls_into_total |]. split; [exact catch_edit_error_answer |].
  split; [| split].
  - intros env body imageUrl prompt e c Hg Hu He Hc.
    exists (catch_edit_error e). split; [| exact (catch_edit_error_answer e c Hc)].
    rewrite (POST_dispatch env body _ imageUrl prompt Hg).
    rewrite (dispatch_gpt env body imageUrl prompt Hu), He. reflexivity.
  - intros env body m imageUrl prompt v e c Hg Hm' Hd Hb Hv He Hc.
    apply (Hflux env body m imageUrl prompt _ v e c Hg Hm'); [| exact He | exact Hc].
    rewrite (validate_validation env imageUrl (imageId body) Hd Hb), Hv. reflexivity.
  - intros env body m imageUrl prompt e c Hg Hm' Hu He Hc.
    apply (Hflux env body m imageUrl prompt [] imageUrl e c Hg Hm');
      [| exact He | exact Hc].
    unfold validate_for_replicate.
    destruct Hu as [-> | ->]; [reflexivity |].
    destruct (Js.startsWith "data:" imageUrl); reflexivity.
Qed.

(** The categories at work: the moderation told by [error.code] or by
    [error.type] alone, the rate limit, and the expired URL of Replicate;
    an edit that OpenAI's moderation refuses is answered 400 "Content not
    allowed", and one for which Replicate finds the image gone 400 "Image
    URL expired". *)
Lemma provider_errors_are_classified_witness :
  falls_into moderation_error ContentNotAllowed
  /\ resp_status (catch_edit_error moderation_error) = 400%nat
  /\ error_of (catch_edit_error moderation_error) = Some "Content not allowed"
  /\ falls_into user_error ContentNotAllowed
  /\ error_of (catch_edit_error user_error) = Some "Content not allowed"
  /\ falls_into rate_limit_error RateLimit
  /\ resp_status (catch_edit_error rate_limit_error) = 429%nat
  /\ falls_into expired_url_error UrlExpired
  /\ error_of (catch_edit_error expired_url_error) = Some "Image URL expired"
  /\ passes_guards moderated gpt_request "gpt-image-1" "https://example.com/a.png"
       "make it blue"
  /\ (exists response,
         outcome_of (POST moderated (Returned gpt_request)) = Returned response
         /\ resp_status response = 400%nat
         /\ error_of response = Some "Content not allowed")
  /\ passes_guards stale flux_request "flux-kontext-pro"
       "https://replicate.delivery/pbxt/a.png" "make it blue"
  /\ exists response,
       POST stale (Returned flux_request)
       = ([ EvHead "https://replicate.delivery/pbxt/a.png" (Some 5000);
            EvReplicateEdit "flux-kontext-pro"
              (edit_input "make it blue" "https://replicate.delivery/pbxt/a.png") ],
          Returned response)
       /\ resp_status response = 400%nat
       /\ error_of response = Some "Image URL expired".
Proof.
  destruct provider_errors_are_classified as (_ & Hanswer & Hgpt & Hflux & _).
  assert (Hnot : forall needle e,
             message_includes needle e = false -> ~ message_contains needle e).
  { intros needle e. apply message_includes_not. }
  assert (H1 : falls_into moderation_error ContentNotAllowed).
  { split; [right; left; reflexivity |].
    repeat constructor; cbn [belongs_to];
      try (apply Hnot; vm_compute; reflexivity).
    intros [H _]. revert H. apply Hnot. vm_compute. reflexivity. }
  assert (H2 : falls_into user_error ContentNotAllowed).
  { split; [right; right; reflexivity |].
    repeat constructor; cbn [belongs_to];
      try (apply Hnot; vm_compute; reflexivity).
    intros [H _]. revert H. apply Hnot. vm_compute. reflexivity. }
  assert (H3 : falls_into rate_limit_error RateLimit).
  { split; [exists "429 rate_limit_exceeded", "429 ", ""; split; reflexivity |].
    repeat constructor. apply Hnot. vm_compute. reflexivity. }
  assert (H4 : falls_into expired_url_error UrlExpired).
  { split.
    - split; eexists.
      + exists "", ": Not Found for url: https://replicate.delivery/pbxt/a.png".
        split; reflexivity.
      + exists "404 Client Error: Not Found for url: https://", "/pbxt/a.png".
        split; reflexivity.
    - repeat constructor; apply Hnot; vm_compute; reflexivity. }
  assert (Hg : passes_guards moderated gpt_request "gpt-image-1"
                 "https://example.com/a.png" "make it blue")
    by (constructor; intros; reflexivity).
  split; [exact H1 |].
  split; [exact (proj1 (Hanswer _ _ H1)) |].
  split; [exact (proj2 (Hanswer _ _ H1)) |].
  split; [exact H2 |].
  split; [exact (proj2 (Hanswer _ _ H2)) |].
  split; [exact H3 |].
  split; [exact (proj1 (Hanswer _ _ H3)) |].
  split; [exact H4 |].
  split; [exact (proj2 (Hanswer _ _ H4)) |].
  split; [exact Hg |].
  split.
  { destruct (Hgpt moderated gpt_request "https://example.com/a.png" "make it blue"
                moderation_error ContentNotAllowed Hg (or_intror (conj eq_refl eq_refl))
                eq_refl H1) as (response & Hp & Hs & He).
    exists response. rewrite Hp. split; [reflexivity |]. split; assumption. }
  assert (Hg' : passes_guards stale flux_request "flux-kontext-pro"
                  "https://replicate.delivery/pbxt/a.png" "make it blue")
    by (constructor; intros; reflexivity).
  split; [exact Hg' |].
  destruct (Hflux stale flux_request "flux-kontext-pro"
              "https://replicate.delivery/pbxt/a.png" "make it blue"
              "https://replicate.delivery/pbxt/a.png" expired_url_error UrlExpired
              Hg' (or_intror eq_refl) eq_refl eq_refl eq_refl eq_refl H4)
    as (response & Hp & Hs & He).
  exists response. split; [exact Hp |]. split; assumption.
Defined.

End EditImageSpec.

(** ** The generate-image route *)

Module GenerateImageSpec.
Import Eff GenerateImage GenerateImageTerms.

(** C6. The handler validates and dispatches before any provider call: a
    missing (or empty) prompt is answered 400 "Prompt is required"; then
    model gpt-image-1 without OPENAI_API_KEY is answered 500; a Flux model
    without REPLICATE_API_KEY is answered 500; any other model string is
    answered 400 "Unsupported model: <model>".  In each of these cases the
    log of provider calls is empty. *)
Theorem generate_image_prechecks (env : Env) (body : Body) :
  let m := default "flux-kontext-pro" (model body) in
  (Js.truthy_opt (prompt body) = false ->
   POST env (Returned body)
   = ([], Returned (error_response 400 "Prompt is required" None)))
  /\ (Js.truthy_opt (prompt body) = true ->
      (m = "gpt-image-1" -> Js.truthy_opt (OPENAI_API_KEY env) = false ->
       exists response,
         POST env (Returned body) = ([], Returned response)
         /\ resp_status response = 500%nat)
      /\ (m = "flux-kontext-pro" \/ m = "flux-kontext-max" \/ m = "flux-dev-ultra-fast" ->
          Js.truthy_opt (REPLICATE_API_KEY env) = false ->
          exists response,
            POST env (Returned body) = ([], Returned response)
            /\ resp_status response = 500%nat)
      /\ (m <> "gpt-image-1" -> m <> "flux-kontext-pro" -> m <> "flux-kontext-max" ->
          m <> "flux-dev-ultra-fast" ->
          POST env (Returned body)
          = ([], Returned (error_response 400 ("Unsupported model: " ++ m)
                             (Some supported_hint))))).
Proof.
  cbv zeta. unfold POST. munfold. cbv beta iota.
  set (m := default "flux-kontext-pro" (model body)).
  split.
  - intros Hp. destruct (prompt body) as [p |]; [| reflexivity].
    cbn in Hp. rewrite Hp. reflexivity.
  - intros Hp. destruct (prompt body) as [p |]; [| discriminate].
    cbn in Hp. rewrite Hp. cbn [negb].
    split; [| split].
    + intros Hm Hk. rewrite Hm. cbn [String.eqb Ascii.eqb Bool.eqb].
      unfold gpt_branch. rewrite Hk. eexists. split; reflexivity.
    + intros Hm Hk.
      assert (Hg : String.eqb m "gpt-image-1" = false)
        by (destruct Hm as [-> | [-> | ->]]; reflexivity).
      assert (Hr : is_replicate_model m = true)
        by (destruct Hm as [-> | [-> | ->]]; reflexivity).
      rewrite Hg, Hr. unfold replicate_branch. rewrite Hk.
      eexists. split; reflexivity.
    + intros H1 H2 H3 H4.
      apply String.eqb_neq in H1, H2, H3, H4.
      unfold is_replicate_model. rewrite H1, H2, H3, H4. reflexivity.
Qed.

Lemma generate_image_prechecks_witness :
  POST (world false) (Returned (request None (Some "gpt-image-1") None))
  = ([], Returned (error_response 400 "Prompt is required" None))
  /\ (exists response,
         POST (world false) (Returned (request (Some "a cat") (Some "gpt-image-1") None))
         = ([], Returned response) /\ resp_status response = 500%nat)
  /\ (exists response,
         POST (world false) (Returned (request (Some "a cat") None None))
         = ([], Returned response) /\ resp_status response = 500%nat)
  /\ POST (world true) (Returned (request (Some "a cat") (Some "dall-e-3") None))
     = ([], Returned (error_response 400 "Unsupported model: dall-e-3" (Some supported_hint))).
Proof.
  split; [| split; [| split]].
  - apply (generate_image_prechecks (world false)
             (request None (Some "gpt-image-1") None)). reflexivity.
  - destruct (generate_image_prechecks (world false)
                (request (Some "a cat") (Some "gpt-image-1") None)) as (_ & H).
    destruct (H eq_refl) as (Hgpt & _). apply Hgpt; reflexivity.
  - destruct (generate_image_prechecks (world false)
                (request (Some "a cat") None None)) as (_ & H).
    destruct (H eq_refl) as (_ & Hflux & _).
    apply Hflux; [left; reflexivity | reflexivity].
  - destruct (generate_image_prechecks (world true)
                (request (Some "a cat") (Some "dall-e-3") None)) as (_ & H).
    destruct (H eq_refl) as (_ & _ & Hother). apply Hother; discriminate.
Defined.


End GenerateImageSpec.

(** ** The quality and size tables of the two image routes *)

Module RemappingSpec.
Import Eff.




End RemappingSpec.

(** ** The WaveSpeed client *)

Module WaveSpeedSpec.
Import Eff WaveSpeed WaveSpeedTerms.

(** One turn of the inner [try]: exactly one poll is made. *)
Lemma poll_once_log (service : Service) request resultUrl taskId attempts :
  log_of (poll_once service request resultUrl taskId attempts)
  = [EvPoll resultUrl attempts].
Proof.
  unfold poll_once, await_fetch, log_of. munfold.
  destruct (poll service resultUrl attempts) as [e | [[] st txt [r | e]]]; cbn;
    try reflexivity.
  destruct (if opt_is _ "completed" then _ else None) as [[| u us] |];
    try (destruct (opt_is _ "failed")); reflexivity.
Qed.

(** The loop sleeps one second before each poll and polls at most
    [remaining] times. *)
Lemma poll_loop_schedule (service : Service) request resultUrl taskId remaining :
  forall attempts,
    exists k, (k <= remaining)%nat
              /\ log_of (poll_loop service request resultUrl taskId remaining attempts)
                 = schedule resultUrl attempts k.
Proof.
  induction remaining as [| remaining IH]; intros attempts.
  - exists 0%nat. split; [lia | reflexivity].
  - cbn [poll_loop]. munfold.
    pose proof (poll_once_log service request resultUrl taskId (S attempts)) as Hl.
    unfold log_of in *.
    destruct (poll_once service request resultUrl taskId (S attempts))
      as [l [[response |] | e]]; cbn [fst] in Hl; subst l.
    + exists 1%nat. split; [lia | reflexivity].
    + destruct (IH (S attempts)) as (k & Hk & Hlog).
      exists (S k). split; [lia |].
      destruct (poll_loop service request resultUrl taskId remaining (S attempts))
        as [l' r']. cbn in *. subst l'. reflexivity.
    + destruct (maxAttempts <=? S attempts)%nat.
      * exists 1%nat. split; [lia | reflexivity].
      * destruct (IH (S attempts)) as (k & Hk & Hlog).
        exists (S k). split; [lia |].
        destruct (poll_loop service request resultUrl taskId remaining (S attempts))
          as [l' r']. cbn in *. subst l'. reflexivity.
Qed.

Lemma schedule_polls (resultUrl : string) (attempts k : nat) :
  length (List.filter is_poll (schedule resultUrl attempts k)) = k.
Proof.
  revert attempts. induction k as [| k IH]; intros attempts; [reflexivity |].
  cbn. rewrite IH. reflexivity.
Qed.

(** A poll that reports "failed" before the last attempt does not end the
    loop: the error it throws is caught and the next turn begins. *)
Lemma failed_poll_is_swallowed (service : Service) request resultUrl taskId
    remaining attempts st txt pollResult :
  (S attempts < maxAttempts)%nat ->
  poll service resultUrl (S attempts)
  = Resolved (mkResponse true st txt (Returned pollResult)) ->
  first_truthy (pr_data_status pollResult) (pr_status pollResult) = Some "failed" ->
  poll_loop service request resultUrl taskId (S remaining) attempts
  = let '(l, r) := poll_loop service request resultUrl taskId remaining (S attempts) in
    (EvSleep 1000 :: EvPoll resultUrl (S attempts) :: l, r).
Proof.
  intros Hlt Hpoll Hst. cbn [poll_loop]. unfold poll_once, await_fetch. munfold.
  rewrite Hpoll. cbn [ok payload negb]. rewrite Hst.
  cbn [opt_is String.eqb Ascii.eqb Bool.eqb].
  apply Nat.leb_gt in Hlt. rewrite Hlt.
  destruct (poll_loop service request resultUrl taskId remaining (S attempts)).
  reflexivity.
Qed.

(** A poll that reports "completed" with a non-empty array of outputs ends
    the loop with [success: true] and the first output. *)
Lemma completed_poll_returns (service : Service) request resultUrl taskId
    remaining attempts st txt pollResult imageUrl rest :
  poll service resultUrl (S attempts)
  = Resolved (mkResponse true st txt (Returned pollResult)) ->
  first_truthy (pr_data_status pollResult) (pr_status pollResult) = Some "completed" ->
  first_defined (pr_data_outputs pollResult) (pr_outputs pollResult)
  = Some (imageUrl :: rest) ->
  poll_loop service request resultUrl taskId (S remaining) attempts
  = ([EvSleep 1000; EvPoll resultUrl (S attempts)],
     Returned (completed_response request imageUrl taskId (S attempts))).
Proof.
  intros Hpoll Hst Hout. cbn [poll_loop]. unfold poll_once, await_fetch. munfold.
  rewrite Hpoll. cbn [ok payload negb]. rewrite Hst, Hout.
  cbn [opt_is String.eqb Ascii.eqb Bool.eqb]. reflexivity.
Qed.

(** When no turn ends the loop, the loop is left after [remaining] turns
    with the timeout error. *)
Lemma pending_polls_time_out (service : Service) request resultUrl taskId remaining :
  forall attempts,
    (forall k, (attempts < k <= attempts + remaining)%nat ->
               outcome_of (poll_once service request resultUrl taskId k) = Returned None) ->
    outcome_of (poll_loop service request resultUrl taskId remaining attempts)
    = Thrown (Error "Task timed out after 2 minutes").
Proof.
  induction remaining as [| remaining IH]; intros attempts Hpending; [reflexivity |].
  cbn [poll_loop]. munfold. unfold outcome_of in *.
  pose proof (Hpending (S attempts) ltac:(lia)) as H1.
  destruct (poll_once service request resultUrl taskId (S attempts)) as [l o].
  cbn [snd] in H1. subst o.
  specialize (IH (S attempts)).
  destruct (poll_loop service request resultUrl taskId remaining (S attempts)) as [l' r'].
  cbn in *. apply IH. intros k Hk. apply Hpending. lia.
Qed.
#[local] Arguments poll_loop : simpl never.

(** [generateMultiImageEdit] always returns a response, and polls at most
    120 times. *)
Lemma generateMultiImageEdit_returns (service : Service) (this : Client) request :
  exists log response,
    generateMultiImageEdit service this request = (log, Returned response)
    /\ (length (List.filter is_poll log) <= 120)%nat.
Proof.
  unfold generateMultiImageEdit, await_fetch. munfold.
  set (payload := {| guidance_scale := _ |}).
  set (url := (baseUrl this ++ "/wavespeed-ai/flux-kontext-max/multi")).
  destruct (submit service url payload) as [e | [[] st txt [tx js]]]; cbn.
  - do 2 eexists. split; [reflexivity | cbn; lia].
  - destruct js as [sr | e]; cbn; [| do 2 eexists; split; [reflexivity | cbn; lia]].
    destruct (first_truthy (sr_data_id sr) (sr_id sr)) as [taskId |]; cbn;
      [| do 2 eexists; split; [reflexivity | cbn; lia]].
    destruct (negb (Js.truthy taskId)); cbn;
      [do 2 eexists; split; [reflexivity | cbn; lia] |].
    set (resultUrl := (baseUrl this ++ "/predictions/" ++ taskId ++ "/result")).
    destruct (poll_loop_schedule service request resultUrl taskId maxAttempts 0%nat)
      as (k & Hk & Hlog).
    unfold log_of in Hlog.
    destruct (poll_loop service request resultUrl taskId maxAttempts 0)
      as [l [r | e]]; cbn in *; subst l;
      do 2 eexists; (split; [reflexivity |]);
      rewrite ?app_nil_r; cbn; rewrite schedule_polls; unfold maxAttempts in Hk; lia.
  - destruct tx; cbn; do 2 eexists; (split; [reflexivity | cbn; lia]).
Qed.

(** C2, the failing input. The service reports the task failed at the
    first poll and completed at the second: the client does not return
    [success: false], it polls again and returns [success: true] with the
    output of the second poll. *)
Theorem failed_poll_does_not_end_polling :
  generateMultiImageEdit failed_then_completed client two_images
  = ([ EvSubmit "https://api.wavespeed.ai/api/v3/wavespeed-ai/flux-kontext-max/multi"
         {| guidance_scale := (7 # 2)%Q;
            pl_images := images two_images;
            pl_prompt := prompt two_images;
            safety_tolerance := "2" |};
       EvSleep 1000; EvPoll result_url 1;
       EvSleep 1000; EvPoll result_url 2 ],
     Returned (completed_response two_images "https://cdn.wavespeed.ai/out.png"
                 "task-1" 2))
  /\ success (completed_response two_images "https://cdn.wavespeed.ai/out.png"
                "task-1" 2) = true.
Proof. split; vm_compute; reflexivity. Qed.

(** When the task stays unfinished after the failure, the client polls
    120 times and reports a timeout, not the failure. *)
Example failed_task_times_out :
  exists log,
    generateMultiImageEdit failed_then_processing client two_images
    = (log, Returned (failure_response (Error "Task timed out after 2 minutes")))
    /\ length (List.filter is_poll log) = 120%nat.
Proof. eexists. split; vm_compute; reflexivity. Qed.

End WaveSpeedSpec.

(** ** The edit-multi-image route *)

Module EditMultiImageSpec.
Import Eff EditMultiImage EditMultiImageTerms.

Lemma trimEnd_keeps (c : ascii) (t : string) :
  Js.is_space c = false -> Js.truthy (Js.trimEnd (String c t)) = true.
Proof. intros H. cbn. rewrite H. destruct (Js.trimEnd t); reflexivity. Qed.

Lemma truthy_trim (s : string) : Js.truthy (Js.trim s) = negb (only_whitespace s).
Proof.
  unfold Js.trim. induction s as [| c t IH]; [reflexivity |].
  cbn [Js.trimStart only_whitespace]. destruct (Js.is_space c) eqn:Hc.
  - exact IH.
  - rewrite trimEnd_keeps by exact Hc. reflexivity.
Qed.

(** The condition [!prompt || !prompt.trim()] on a string. *)
Lemma blank_prompt (p : string) :
  negb (Js.truthy p) || negb (Js.truthy (Js.trim p)) = only_whitespace p.
Proof.
  rewrite truthy_trim, negb_involutive.
  destruct p as [| c t]; [reflexivity |]. reflexivity.
Qed.

(** The client never answers with the key error of the route. *)
Lemma generate_not_key_error (env : Env) client urls p g t log response :
  generate env client urls p g t = (log, Returned response) ->
  error_of response <> Some key_error.
Proof.
  unfold generate. destruct (negb (fst (WaveSpeed.validateImages urls))).
  - munfold. intros [= <- <-]. discriminate.
  - munfold.
    destruct (WaveSpeed.generateMultiImageEdit _ _ _) as [l [result | e]]; cbn.
    + destruct (negb (WaveSpeed.success result)); intros [= <- <-]; discriminate.
    + discriminate.
Qed.

(** The requests the handler lets through to the key check. *)
Lemma POST_validated (env : Env) (body : Body) :
  ~ (images_missing body \/ prompt_missing body
     \/ too_few_images body \/ too_many_images body) ->
  exists imgs p,
    images body = Some (JArr imgs) /\ prompt body = Some (JStr p)
    /\ (2 <= length imgs <= 10)%nat /\ only_whitespace p = false.
Proof.
  intros Hv. unfold images_missing, prompt_missing, too_few_images, too_many_images in Hv.
  destruct (images body) as [[| | | | imgs |] |] eqn:Hi;
    try (exfalso; apply Hv; left; right; left; eexists; split; [reflexivity | reflexivity]);
    try (exfalso; apply Hv; left; left; reflexivity).
  destruct (prompt body) as [[| | | p | |] |] eqn:Hp;
    try (exfalso; apply Hv; right; left; right; left; eexists; split; [reflexivity | reflexivity]);
    try (exfalso; apply Hv; right; left; left; reflexivity).
  exists imgs, p. repeat split.
  - destruct (le_lt_dec 2 (length imgs)); [assumption |].
    exfalso. apply Hv. right. right. left. exists imgs. split; [reflexivity | lia].
  - destruct (le_lt_dec (length imgs) 10); [assumption |].
    exfalso. apply Hv. right. right. right. exists imgs. split; [reflexivity | lia].
  - destruct (only_whitespace p) eqn:Hw; [| reflexivity].
    exfalso. apply Hv. right. left. right. right. exists p. split; [reflexivity | exact Hw].
Qed.

(** C10. A request whose [images] is missing, not an array or empty, whose
    [prompt] is missing, not a string or only white space, or that holds
    fewer than 2 or more than 10 images is answered with status 400 and
    the WaveSpeed client is neither constructed nor called (the log of
    outside calls is empty); and the answer about the missing API key
    (status 500) is given only to requests that pass all of these
    validations, and to each of them when the key is missing, again before
    the client exists. *)
Theorem invalid_multi_image_request_rejected (env : Env) (body : Body) :
  (images_missing body \/ prompt_missing body
   \/ too_few_images body \/ too_many_images body ->
   exists response,
     POST env (Returned body) = ([], Returned response)
     /\ resp_status response = 400%nat)
  /\ (forall log response,
        POST env (Returned body) = (log, Returned response) ->
        error_of response = Some key_error ->
        resp_status response = 500%nat /\ log = []
        /\ Js.truthy_opt (WAVESPEED_API_KEY env) = false
        /\ ~ (images_missing body \/ prompt_missing body
              \/ too_few_images body \/ too_many_images body))
  /\ (~ (images_missing body \/ prompt_missing body
         \/ too_few_images body \/ too_many_images body) ->
      Js.truthy_opt (WAVESPEED_API_KEY env) = false ->
      POST env (Returned body)
      = ([], Returned (error_response 500 key_error
                         (Some "Please add WAVESPEED_API_KEY to your .env.local file")))).
Proof.
  assert (Hkey : ~ (images_missing body \/ prompt_missing body
                    \/ too_few_images body \/ too_many_images body) ->
                 Js.truthy_opt (WAVESPEED_API_KEY env) = false ->
                 POST env (Returned body)
                 = ([], Returned (error_response 500 key_error
                                    (Some "Please add WAVESPEED_API_KEY to your .env.local file")))).
  { intros Hv Hk. destruct (POST_validated env body Hv) as (imgs & p & Hi & Hp & Hlen & Hw).
    unfold POST. munfold. cbv beta iota. rewrite Hi, Hp.
    destruct imgs as [| i imgs]; [cbn in Hlen; lia |].
    rewrite blank_prompt, Hw.
    assert (H2 : (length (i :: imgs) <? 2)%nat = false) by (apply Nat.ltb_ge; lia).
    assert (H10 : (10 <? length (i :: imgs))%nat = false) by (apply Nat.ltb_ge; lia).
    rewrite H2, H10, Hk. reflexivity. }
  match goal with
  | |- ?A /\ ?B /\ _ =>
      enough (HAB : A /\ B)
        by (destruct HAB as [HA HB]; split; [exact HA | split; [exact HB | exact Hkey]])
  end.
  clear Hkey.
  unfold POST. munfold. cbv beta iota.
  destruct (images body) as [[| | | | [| i imgs] |] |] eqn:Hi.
  all: try (split;
            [ intros _; eexists; split; reflexivity
            | cbn; intros log response [= <- <-]; discriminate ]).
  destruct (prompt body) as [[| | | p | |] |] eqn:Hp.
  all: try (split;
            [ intros _; eexists; split; reflexivity
            | cbn; intros log response [= <- <-]; discriminate ]).
  rewrite blank_prompt.
  destruct (only_whitespace p) eqn:Hw.
  { split; [ intros _; eexists; split; reflexivity
           | cbn; intros log response [= <- <-]; discriminate ]. }
  destruct (length (i :: imgs) <? 2)%nat eqn:H2.
  { split; [ intros _; eexists; split; reflexivity
           | cbn; intros log response [= <- <-]; discriminate ]. }
  destruct (10 <? length (i :: imgs))%nat eqn:H10.
  { split; [ intros _; eexists; split; reflexivity
           | cbn; intros log response [= <- <-]; discriminate ]. }
  apply Nat.ltb_ge in H2. apply Nat.ltb_ge in H10.
  assert (Hvalid : ~ (images_missing body \/ prompt_missing body
                      \/ too_few_images body \/ too_many_images body)).
  { unfold images_missing, prompt_missing, too_few_images, too_many_images.
    rewrite Hi, Hp.
    intros [[H | [(v & [= <-] & H) | H]]
           | [[H | [(v & [= <-] & H) | (q & [= <-] & H)]]
           | [(l & [= <-] & H) | (l & [= <-] & H)]]];
      try discriminate; try congruence; lia. }
  split; [intros H; contradiction |].
  destruct (negb (Js.truthy_opt (WAVESPEED_API_KEY env))) eqn:Hk.
  { cbn. intros log response [= <- <-] _. apply negb_true_iff in Hk.
    repeat split; assumption. }
  intros log response Heq Herr. exfalso.
  destruct (all_strings (i :: imgs)) as [v | urls].
  { cbn in Heq. injection Heq as <- <-. discriminate. }
  destruct (WaveSpeed.new_client _ _) as [client | e].
  - destruct (generate env client urls p _ _) as [l [r | e]] eqn:Hg.
    + cbn in Heq. injection Heq as <- <-.
      exact (generate_not_key_error _ _ _ _ _ _ _ _ Hg Herr).
    + cbn in Heq. injection Heq as <- <-. discriminate.
  - cbn in Heq. injection Heq as <- <-. discriminate.
Qed.

Lemma invalid_multi_image_request_rejected_witness :
  too_few_images one_image
  /\ exists response,
       POST no_key (Returned one_image) = ([], Returned response)
       /\ resp_status response = 400%nat.
Proof.
  assert (H : too_few_images one_image).
  { exists [JStr "https://example.com/a.png"]. split; [reflexivity | cbn; lia]. }
  split; [exact H |].
  destruct (invalid_multi_image_request_rejected no_key one_image) as (Hrej & _).
  apply Hrej. right. right. left. exact H.
Defined.

End EditMultiImageSpec.

(** ** The progress store *)

Module ImageProgressSpec.
Import ImageProgress.

(** [Math.max(lo, Math.min(x, hi))] lies between [lo] and [hi]. *)
Lemma clamp_bounds (lo hi x : Q) :
  (lo <= hi)%Q -> (lo <= clamp lo hi x)%Q /\ (clamp lo hi x <= hi)%Q.
Proof.
  intros H. unfold clamp. split.
  - apply Q.le_max_l.
  - apply Q.max_lub; [exact H | apply Q.le_min_r].
Qed.

(** The floor of a clamped value lies between the integer bounds. *)
Lemma floor_clamp_bounds (lo hi : Z) (x : Q) :
  (lo <= hi)%Z ->
  (lo <= Qfloor (clamp (inject_Z lo) (inject_Z hi) x) <= hi)%Z.
Proof.
  intros H.
  assert (Hq : (inject_Z lo <= inject_Z hi)%Q) by (rewrite <- Zle_Qle; exact H).
  destruct (clamp_bounds _ _ x Hq) as [H1 H2].
  apply Qfloor_resp_le in H1, H2. rewrite Qfloor_Z in H1, H2.
  split; assumption.
Qed.

Lemma pow2_pos (e : Z) : (0 < ImageProgressFloat.pow2 e)%Q.
Proof.
  destruct e as [| p | p]; cbn; [reflexivity | | reflexivity].
  change 0%Q with (inject_Z 0). rewrite <- Zlt_Qlt. lia.
Qed.

Lemma nearest_even_nonneg (x : Q) :
  (0 <= x)%Q -> (0 <= ImageProgressFloat.nearest_even x)%Z.
Proof.
  intros H. apply Qfloor_resp_le in H. change (Qfloor 0) with 0%Z in H.
  unfold ImageProgressFloat.nearest_even.
  destruct (_ ?= _)%Q; [destruct (Z.even _) | |]; lia.
Qed.

(** The rounding to doubles keeps the sign of what it rounds. *)
Lemma to_double_nonneg (x : Q) : (0 <= x)%Q -> (0 <= ImageProgressFloat.to_double x)%Q.
Proof.
  intros H. unfold ImageProgressFloat.to_double.
  destruct x as [[| n | n] d]; cbn [Qnum].
  - discriminate.
  - unfold ImageProgressFloat.round_positive.
    apply Qmult_le_0_compat; [| apply Qlt_le_weak, pow2_pos].
    change 0%Q with (inject_Z 0). rewrite <- Zle_Qle. apply nearest_even_nonneg.
    apply Qle_shift_div_l; [apply pow2_pos |]. rewrite Qmult_0_l. exact H.
  - exfalso. revert H. unfold Qle. cbn. lia.
Qed.

(** The helper of the store is the function in exact arithmetic. *)
Lemma exact_arithmetic (elapsedTime estimatedTotal : Q) (stage : ImageGenerationStage)
    (random : Q) :
  calculateProgressFromElapsed elapsedTime estimatedTotal stage random
  = ImageProgressFloat.calculateProgressFromElapsed (fun x => x)
      elapsedTime estimatedTotal stage random.
Proof. destruct stage; reflexivity. Qed.

(** C5. In the arithmetic of the source, whatever the rounding [rnd] of
    its operations (that of doubles, or none), for a non-negative elapsed
    time and a positive estimated total: [calculateProgressFromElapsed]
    gives 100 for the stage [completed], 0 for [failed], and otherwise an
    integer of the range of the stage (0 to 20, 20 to 85, 85 to 100),
    namely the floor of the value of the curve [t * t * (3 - 2 * t)] at
    [t = min(elapsed / total, 1)], scaled to the range, moved by the
    variance [(random - 0.5) * 1] and then clamped to the range; [t] lies
    between 0 and 1 when the rounding keeps non-negative numbers
    non-negative.  The helper of the store, as it is embedded here, is
    this function without rounding.  And the store's [calculateProgress]
    writes a progress of at most 99 in a record whose stage is not
    [completed], whatever the helper gave: it either leaves the store as
    it is or rewrites the record of the image, keeping its stage, with
    such a progress. *)
Theorem progress_stays_in_stage_range
    (rnd : Q -> Q) (stage : ImageGenerationStage)
    (elapsedTime estimatedTotal random : Q) :
  (0 <= elapsedTime)%Q -> (0 < estimatedTotal)%Q ->
  let p := ImageProgressFloat.calculateProgressFromElapsed rnd
             elapsedTime estimatedTotal stage random in
  let t := Qmin (rnd (elapsedTime / estimatedTotal)%Q) 1 in
  let curve := rnd (rnd (t * t) * rnd (3 - rnd (2 * t)))%Q in
  let variance := rnd (rnd (random - (1 # 2)) * 1)%Q in
  (stage = completed -> p = 100%Z)
  /\ (stage = failed -> p = 0%Z)
  /\ (stage = initializing ->
      (0 <= p <= 20)%Z
      /\ p = Qfloor (Qmax 0 (Qmin (rnd (rnd (0 + rnd (curve * rnd (20 - 0))) + variance))
                               20))%Q)
  /\ (stage = processing ->
      (20 <= p <= 85)%Z
      /\ p = Qfloor (Qmax 20 (Qmin (rnd (rnd (20 + rnd (curve * rnd (85 - 20))) + variance))
                                85))%Q)
  /\ (stage = finalizing ->
      (85 <= p <= 100)%Z
      /\ p = Qfloor (Qmax 85 (Qmin (rnd (rnd (85 + rnd (curve * rnd (100 - 85))) + variance))
                                100))%Q)
  /\ ((forall x, (0 <= x)%Q -> (0 <= rnd x)%Q) -> (0 <= t <= 1)%Q)
  /\ calculateProgressFromElapsed elapsedTime estimatedTotal stage random
     = ImageProgressFloat.calculateProgressFromElapsed (fun x => x)
         elapsedTime estimatedTotal stage random
  /\ (forall (current : ImageGenerationProgress) (newElapsed newProgress now : Z),
         ImageProgress.stage current <> completed ->
         (progress (updated_record current newElapsed newProgress now) <= 99)%Q)
  /\ forall (id : string) (now : Z) (state : ImageGenerationState),
       calculateProgress id now random state = state
       \/ exists current record,
            state !! id = Some current
            /\ calculateProgress id now random state = <[id := record]> state
            /\ ImageProgress.stage record = ImageProgress.stage current
            /\ (ImageProgress.stage current <> completed ->
                (progress record <= 99)%Q).
Proof.
  intros He Ht. cbv zeta.
  assert (Hcap : forall (current : ImageGenerationProgress) (newElapsed newProgress now : Z),
             ImageProgress.stage current <> completed ->
             (progress (updated_record current newElapsed newProgress now) <= 99)%Q).
  { intros current newElapsed newProgress now Hs. cbn [progress updated_record].
    change 99%Q with (inject_Z 99). rewrite <- Zle_Qle.
    destruct (ImageProgress.stage current); try contradiction; apply Z.le_min_r. }
  split; [intros ->; reflexivity |].
  split; [intros ->; reflexivity |].
  split; [intros ->; split;
          [apply (floor_clamp_bounds 0 20); lia | reflexivity] |].
  split; [intros ->; split;
          [apply (floor_clamp_bounds 20 85); lia | reflexivity] |].
  split; [intros ->; split;
          [apply (floor_clamp_bounds 85 100); lia | reflexivity] |].
  split; [| split; [apply exact_arithmetic | split; [exact Hcap |]]].
  - intros Hrnd. split.
    + apply Q.min_glb; [| discriminate]. apply Hrnd.
      apply Qle_shift_div_l; [exact Ht |]. rewrite Qmult_0_l. exact He.
    + apply Q.le_min_r.
  - intros id now state. unfold calculateProgress.
    destruct (state !! id) as [current |] eqn:Hc; [| left; reflexivity].
    destruct (status current); try (left; reflexivity).
    destruct (differs_by_one _ _ || differs_by_one _ _); [| left; reflexivity].
    right. eexists current, _. split; [reflexivity |]. split; [reflexivity |].
    split; [reflexivity |]. apply Hcap.
Qed.

(** A quarter of the estimated time into the stage [processing], in
    doubles: the curve gives 0.15625 where the line would give 0.25, and
    the progress is 30, not 36.  And at the end of the estimated time, in
    the stage [initializing], with a random number just below one half:
    the sum 20 - 2^-52 is not a double and rounds to 20, so that the
    progress is 20 in doubles and 19 in exact arithmetic. *)
Lemma progress_stays_in_stage_range_witness :
  (0 <= 3)%Q /\ (0 < 12)%Q
  /\ ImageProgressFloat.calculateProgressFromElapsed ImageProgressFloat.to_double
       3 12 processing (1 # 2) = 30%Z
  /\ (Qmin (ImageProgressFloat.to_double (3 / 12)%Q) 1 == 1 # 4)%Q
  /\ (0 <= Qmin (ImageProgressFloat.to_double (3 / 12)%Q) 1 <= 1)%Q
  /\ (0 <= 12)%Q
  /\ ImageProgressFloat.calculateProgressFromElapsed ImageProgressFloat.to_double
       12 12 initializing ((1 # 2) - (1 # 2 ^ 52)) = 20%Z
  /\ calculateProgressFromElapsed 12 12 initializing ((1 # 2) - (1 # 2 ^ 52)) = 19%Z.
Proof.
  assert (H0 : (0 <= 3)%Q) by discriminate.
  assert (H1 : (0 < 12)%Q) by reflexivity.
  assert (H2 : (0 <= 12)%Q) by discriminate.
  split; [exact H0 |]. split; [exact H1 |].
  destruct (progress_stays_in_stage_range ImageProgressFloat.to_double processing
              3 12 (1 # 2) H0 H1)
    as (_ & _ & _ & Hp & _ & Ht & _).
  split; [rewrite (proj2 (Hp eq_refl)); vm_compute; reflexivity |].
  split; [vm_compute; reflexivity |].
  split; [exact (Ht to_double_nonneg) |].
  split; [exact H2 |].
  destruct (progress_stays_in_stage_range ImageProgressFloat.to_double initializing
              12 12 ((1 # 2) - (1 # 2 ^ 52)) H2 H1)
    as (_ & _ & Hi & _ & _ & _ & Hexact & _).
  split; [rewrite (proj2 (Hi eq_refl)); vm_compute; reflexivity |].
  rewrite Hexact. vm_compute. reflexivity.
Defined.

(** In the last stage the helper reaches 100, and the store writes 99. *)
Example finalizing_is_capped :
  ImageProgressFloat.calculateProgressFromElapsed ImageProgressFloat.to_double
    40 12 finalizing (1 # 2) = 100%Z
  /\ forall current,
       ImageProgress.stage current = finalizing ->
       progress (updated_record current 40 100 0) = 99%Q.
Proof.
  split; [vm_compute; reflexivity |].
  intros current Hs. cbn. rewrite Hs. reflexivity.
Qed.

End ImageProgressSpec.

(** ** Saving the gallery *)

Module ImageUtilsSpec.
Import Eff ImageUtils ImageUtilsTerms.

Lemma substring0_length (n : nat) (s : string) :
  (String.length (Js.substring0 n s) <= n)%nat.
Proof.
  unfold Js.substring0. revert s. induction n as [| n IH]; intros [| c t]; cbn;
    try lia.
  specialize (IH t). lia.
Qed.

Lemma slice_last_suffix {A} (n : nat) (l : list A) : slice_last n l `suffix_of` l.
Proof.
  unfold slice_last. destruct (n =? 0)%nat; [reflexivity | apply suffix_drop].
Qed.

Lemma slice_last_length {A} (n : nat) (l : list A) :
  (0 < n)%nat -> length (slice_last n l) = Nat.min n (length l).
Proof.
  intros Hn. unfold slice_last.
  destruct (Nat.eqb_spec n 0) as [-> | _]; [lia |]. rewrite length_drop. lia.
Qed.

Lemma is_completed_spec (img : GeneratedImage) :
  is_completed img = true <-> ~ dropped img.
Proof.
  unfold is_completed, dropped.
  rewrite !andb_true_iff, !negb_true_iff. split.
  - intros [[Hg Hu] Hd] [H | [H | H]]; rewrite H in *; discriminate.
  - intros Hn. repeat split.
    + destruct (isGenerating img) as [[] |]; try reflexivity.
      exfalso. apply Hn. left. reflexivity.
    + destruct (url img) eqn:E; [| reflexivity].
      exfalso. apply Hn. right. left. reflexivity.
    + destruct (Js.startsWith "data:" (url img)) eqn:E; [| reflexivity].
      exfalso. apply Hn. right. right. reflexivity.
Qed.

Lemma most_recent_suffix {A} (n : nat) (l : list A) : most_recent n l `suffix_of` l.
Proof. apply suffix_drop. Qed.

Lemma most_recent_length {A} (n : nat) (l : list A) :
  length (most_recent n l) = Nat.min n (length l).
Proof. unfold most_recent. rewrite length_drop. lia. Qed.

(** [slice(-n)] of a mapped array, for a positive [n]. *)
Lemma slice_last_map {A B} (f : A -> B) (n : nat) (l : list A) :
  (0 < n)%nat -> slice_last n (List.map f l) = List.map f (most_recent n l).
Proof.
  intros Hn. unfold slice_last, most_recent.
  destruct (Nat.eqb_spec n 0) as [-> | _]; [lia |].
  rewrite length_map. apply skipn_map.
Qed.

Section Browser.
Variable now : Z.
Variable toISOString : Z -> string.
Variable JSON_stringify : list StoredImage -> Outcome string.
Variable blob_size : string -> nat.
Variable quota : Storage -> string -> string -> bool.

(** What is written of an image is its stored form. *)
Lemma prepare_one_stored_form (img : GeneratedImage) :
  prepare_one now toISOString img = stored_form now toISOString img.
Proof.
  unfold prepare_one, stored_form. f_equal.
  destruct (timestamp img); reflexivity.
Qed.

(** The metadata added before the slicing is not written. *)
Lemma prepareForStorage_stored_form (l : list GeneratedImage) :
  prepareForStorage now toISOString (List.map (with_expiration_info now toISOString) l)
  = List.map (stored_form now toISOString) l.
Proof.
  unfold prepareForStorage. rewrite List.map_map. apply List.map_ext.
  intros img. rewrite prepare_one_stored_form. reflexivity.
Qed.

(** The loop computes the slicing of the specification; it can only fail
    by an error of the serialization. *)
Lemma shrink_sliced (l : list GeneratedImage) :
  (exists kept,
      shrink now toISOString JSON_stringify blob_size
        (List.map (with_expiration_info now toISOString) l)
      = Returned (List.map (with_expiration_info now toISOString) kept)
      /\ Sliced now toISOString JSON_stringify blob_size l kept
      /\ kept `suffix_of` l)
  \/ (exists e,
         shrink now toISOString JSON_stringify blob_size
           (List.map (with_expiration_info now toISOString) l)
         = Thrown e
         /\ SlicingThrows now toISOString JSON_stringify blob_size l e).
Proof.
  remember (List.map (with_expiration_info now toISOString) l) as l' eqn:El.
  revert l El.
  funelim (shrink now toISOString JSON_stringify blob_size l'); intros l0 ->.
  all: unfold calculateDataSize in *; rewrite prepareForStorage_stored_form in *.
  all: destruct (JSON_stringify (List.map (stored_form now toISOString) l0))
         as [s | e'] eqn:Hser; try discriminate.
  - right. exists e. split; [reflexivity |]. apply throws_here. congruence.
  - injection Heq0 as <-. clear Heq. rewrite length_map in *.
    unfold maxSize, seventy_percent in *.
    destruct (4 * 1024 * 1024 <? blob_size s)%nat eqn:Hs.
    + apply Nat.ltb_lt in Hs.
      assert (Hpos : (0 < length l0 * 7 / 10)%nat)
        by (apply Nat.div_str_pos; lia).
      rewrite (slice_last_map _ _ _ Hpos) in *.
      destruct (H _ eq_refl) as [(kept & Hk & Hsl & Hsuf) | (e & He & Hth)].
      * left. exists kept. split; [exact Hk |]. split.
        -- eapply sliced_step; eauto.
        -- etransitivity; [exact Hsuf | apply most_recent_suffix].
      * right. exists e. split; [exact He |]. eapply throws_later; eauto.
    + apply Nat.ltb_ge in Hs. left. exists l0.
      split; [reflexivity |]. split; [| reflexivity].
      eapply sliced_stop; eauto.
  - injection Heq0 as <-. clear Heq. rewrite length_map in *. left. exists l0.
    split; [reflexivity |]. split; [| reflexivity].
    eapply sliced_stop; eauto. lia.
Qed.

(** The slicing of the specification is deterministic. *)
Lemma sliced_functional (l k1 k2 : list GeneratedImage) :
  Sliced now toISOString JSON_stringify blob_size l k1 ->
  Sliced now toISOString JSON_stringify blob_size l k2 -> k1 = k2.
Proof.
  intros H1. revert k2.
  induction H1 as [l s Hs Hstop | l kept s Hs Hbig Hlen _ IH]; intros k2 H2.
  - destruct H2 as [l s' _ _ | l kept s' Hs' Hbig Hlen _]; [reflexivity |].
    rewrite Hs in Hs'. injection Hs' as <-. lia.
  - destruct H2 as [l s' Hs' Hstop | l kept' s' _ _ _ H2].
    + rewrite Hs in Hs'. injection Hs' as <-. lia.
    + apply IH. exact H2.
Qed.

(** Where the slicing stops, the serialization has succeeded. *)
Lemma sliced_serialized (l kept : list GeneratedImage) :
  Sliced now toISOString JSON_stringify blob_size l kept ->
  exists s, JSON_stringify (List.map (stored_form now toISOString) kept) = Returned s.
Proof.
  induction 1 as [l s Hs _ | l kept s _ _ _ _ IH]; [| exact IH].
  exists s. exact Hs.
Qed.

(** A slicing that throws comes to a serialization that throws. *)
Lemma slicing_throws_serialization (l : list GeneratedImage) (e : JsError) :
  SlicingThrows now toISOString JSON_stringify blob_size l e ->
  exists l', JSON_stringify (List.map (stored_form now toISOString) l') = Thrown e.
Proof.
  induction 1 as [l e He | l s e _ _ _ _ IH]; [exists l; exact He | exact IH].
Qed.

(** [saveGeneratedImages] returns normally, whatever happens inside. *)
Lemma save_returns (images : list GeneratedImage) (st : Storage) :
  fst (saveGeneratedImages now toISOString JSON_stringify blob_size quota images st) = Returned tt.
Proof.
  cbv [saveGeneratedImages stry sbind spure sret store setItem clearOldImages removeItem].
  destruct (length _ =? 0)%nat; [reflexivity |].
  destruct (shrink now toISOString JSON_stringify blob_size _) as [kept | e];
    [| reflexivity].
  destruct (JSON_stringify (prepareForStorage now toISOString kept)) as [s | e].
  - destruct (quota st "generatedImages" s); [reflexivity |].
    cbn. destruct (JSON_stringify _) as [s' | e']; [| reflexivity].
    destruct (quota _ "generatedImages" s'); reflexivity.
  - cbn. destruct (JSON_stringify _) as [s' | e']; [| reflexivity].
    destruct (quota _ "generatedImages" s'); reflexivity.
Qed.

(** C7. [saveGeneratedImages] first drops the images that are still
    generating, have no URL or have a data URL; when none remains the
    storage is untouched; otherwise it starts from the 30 most recent of
    the others, slices the list to its most recent 70% while the size of
    its serialization exceeds 4 MB (4 * 1024 * 1024 bytes) and more than 5
    images remain, and writes under the key "generatedImages" the
    serialization of the stored forms (URLs cut to 500 characters, prompts
    to 200) of what is kept; when that write exceeds the quota it clears
    the keys "generatedImages" and "imageCache" and writes the 10 most
    recent images instead, when they fit; when a serialization throws
    during the slicing the storage is untouched; and the function never
    throws. *)
Theorem saving_evicts_by_slicing (images : list GeneratedImage) (st : Storage) :
  let remaining := List.filter is_completed images in
  let recent := most_recent 30 remaining in
  let saved :=
    snd (saveGeneratedImages now toISOString JSON_stringify blob_size quota images st) in
  (forall img, is_completed img = true <-> ~ dropped img)
  /\ (forall img, In img remaining <-> In img images /\ ~ dropped img)
  /\ fst (saveGeneratedImages now toISOString JSON_stringify blob_size quota images st)
     = Returned tt
  /\ (remaining = [] -> saved = st)
  /\ (length recent <= 30)%nat
  /\ recent `suffix_of` remaining
  /\ (forall img,
         prepare_one now toISOString img = stored_form now toISOString img
         /\ (String.length (s_url (stored_form now toISOString img)) <= 500)%nat
         /\ (String.length (s_prompt (stored_form now toISOString img)) <= 200)%nat)
  /\ (remaining <> [] ->
      (exists kept s,
          Sliced now toISOString JSON_stringify blob_size recent kept
          /\ kept `suffix_of` recent
          /\ JSON_stringify (List.map (stored_form now toISOString) kept) = Returned s
          /\ saved
             = if quota st "generatedImages" s
               then <["generatedImages" := s]> st
               else after_quota_error now toISOString JSON_stringify quota remaining st)
      \/ (exists e,
             SlicingThrows now toISOString JSON_stringify blob_size recent e
             /\ saved = st)).
Proof.
  cbv zeta.
  set (remaining := List.filter is_completed images).
  split; [exact is_completed_spec |].
  split.
  { intros img. unfold remaining. rewrite filter_In. rewrite is_completed_spec.
    reflexivity. }
  split; [apply save_returns |].
  split.
  { intros Hnil. cbv [saveGeneratedImages stry sret].
    fold remaining. rewrite Hnil. reflexivity. }
  split.
  { rewrite most_recent_length. lia. }
  split; [apply most_recent_suffix |].
  split.
  { intros img. split; [apply prepare_one_stored_form |].
    split; apply (substring0_length _ _). }
  intros Hne.
  assert (Hlen : (length (List.map (with_expiration_info now toISOString) remaining) =? 0)%nat
                 = false).
  { apply Nat.eqb_neq. rewrite length_map.
    destruct remaining; [contradiction | discriminate]. }
  cbv [saveGeneratedImages stry sbind spure sret store setItem clearOldImages removeItem
         after_quota_error].
  fold remaining. rewrite Hlen.
  rewrite !slice_last_map by lia.
  destruct (shrink_sliced (most_recent 30 remaining))
    as [(kept & Hk & Hs & Hsuf) | (e & He & Hth)].
  - left. destruct (sliced_serialized _ _ Hs) as (s & Hser).
    exists kept, s. split; [exact Hs |]. split; [exact Hsuf |]. split; [exact Hser |].
    rewrite Hk. rewrite !prepareForStorage_stored_form, Hser.
    destruct (quota st "generatedImages" s); [reflexivity |].
    destruct (JSON_stringify
                (List.map (stored_form now toISOString) (most_recent 10 remaining)))
      as [s' | e']; [| reflexivity].
    destruct (quota _ "generatedImages" s'); reflexivity.
  - right. exists e. split; [exact Hth |]. rewrite He. reflexivity.
Qed.

End Browser.

(** Eight images remain of the crowded gallery.  Their serialization takes
    more than 4 MB, so that the five most recent are kept; these do not fit
    the quota beside the cache, so that the keys are cleared, after which
    all eight, being among the 10 most recent, are written. *)
Lemma saving_evicts_by_slicing_witness :
  List.filter is_completed crowded_gallery <> []
  /\ List.map id (List.filter is_completed crowded_gallery)
     = ["img_1"; "img_2"; "img_3"; "img_4"; "img_5"; "img_6"; "img_7"; "img_8"]
  /\ (exists kept,
         Sliced 0 pretty tiny_stringify megabyte_per_character
           (most_recent 30 (List.filter is_completed crowded_gallery)) kept
         /\ List.map id kept = ["img_4"; "img_5"; "img_6"; "img_7"; "img_8"])
  /\ shared_quota cached "generatedImages" "img_4,img_5,img_6,img_7,img_8" = false
  /\ saveGeneratedImages 0 pretty tiny_stringify megabyte_per_character shared_quota
       crowded_gallery cached
     = (Returned tt,
        {["generatedImages" := "img_1,img_2,img_3,img_4,img_5,img_6,img_7,img_8"]}).
Proof.
  assert (Hne : List.filter is_completed crowded_gallery <> []) by discriminate.
  split; [exact Hne |]. split; [reflexivity |].
  set (five := most_recent 5 (List.filter is_completed crowded_gallery)).
  assert (Hfive : Sliced 0 pretty tiny_stringify megabyte_per_character
                    (most_recent 30 (List.filter is_completed crowded_gallery)) five).
  { apply (sliced_step _ _ _ _ _ _ "img_1,img_2,img_3,img_4,img_5,img_6,img_7,img_8").
    - vm_compute. reflexivity.
    - unfold megabyte_per_character.
      change (String.length "img_1,img_2,img_3,img_4,img_5,img_6,img_7,img_8")
        with 47%nat.
      lia.
    - vm_compute. lia.
    - replace (most_recent _ _) with five by (vm_compute; reflexivity).
      apply (sliced_stop _ _ _ _ _ "img_4,img_5,img_6,img_7,img_8").
      + vm_compute. reflexivity.
      + right. vm_compute. lia. }
  split; [exists five; split; [exact Hfive | reflexivity] |].
  split; [reflexivity |].
  destruct (saving_evicts_by_slicing 0 pretty tiny_stringify megabyte_per_character
              shared_quota crowded_gallery cached)
    as (_ & _ & Hret & _ & _ & _ & _ & Hsave).
  apply injective_projections; [exact Hret |]. cbn [snd].
  destruct (Hsave Hne) as [(kept & s & Hk & _ & Hs & Hst) | (e & He & _)].
  - rewrite Hst.
    rewrite (sliced_functional _ _ _ _ _ _ _ Hk Hfive) in Hs.
    vm_compute in Hs. injection Hs as <-.
    vm_compute. reflexivity.
  - apply slicing_throws_serialization in He as (l' & He). discriminate He.
Defined.

End ImageUtilsSpec.

(* ===================================================================== *)
(** * Further properties of the code *)
(* ===================================================================== *)

(** ** Search-intent detection: the query, the filters and the estimates *)

Module SearchIntentDetectorSpec.
Import SearchIntentDetector StringTerms SearchIntentTerms.

Lemma append_assoc (a b c : string) : (a ++ b) ++ c = a ++ b ++ c.
Proof.
  induction a as [| x a IH]; [reflexivity |].
  change (String x ((a ++ b) ++ c) = String x (a ++ b ++ c)). f_equal. exact IH.
Qed.

Lemma append_nil_r (a : string) : a ++ EmptyString = a.
Proof.
  induction a as [| x a IH]; [reflexivity |].
  change (String x (a ++ EmptyString) = String x a). f_equal. exact IH.
Qed.

Lemma trimStart_first (s : string) (c : ascii) :
  first_char (Js.trimStart s) = Some c -> Js.is_space c = false.
Proof.
  induction s as [| d t IH]; cbn; [discriminate |].
  destruct (Js.is_space d) eqn:E; [exact IH |].
  cbn. intros [= <-]. exact E.
Qed.

Lemma trimEnd_first (s : string) :
  Js.trimEnd s = EmptyString \/ first_char (Js.trimEnd s) = first_char s.
Proof.
  destruct s as [| c t]; cbn; [now left |].
  destruct (Js.trimEnd t); [destruct (Js.is_space c) |]; cbn; auto.
Qed.

Lemma trimEnd_last (s : string) (c : ascii) :
  last_char (Js.trimEnd s) = Some c -> Js.is_space c = false.
Proof.
  revert c. induction s as [| d t IH]; intros c; cbn; [discriminate |].
  destruct (Js.trimEnd t) as [| e t'] eqn:E.
  - destruct (Js.is_space d) eqn:Ed; cbn; [discriminate |].
    intros [= <-]. exact Ed.
  - intros H. apply IH. exact H.
Qed.

Lemma trim_trimmed (s : string) : trimmed (Js.trim s).
Proof.
  unfold Js.trim. split; intros c H.
  - destruct (trimEnd_first (Js.trimStart s)) as [E | E].
    + rewrite E in H. discriminate.
    + rewrite E in H. now apply trimStart_first in H.
  - now apply trimEnd_last in H.
Qed.

Lemma trimStart_suffix (s : string) : exists ws, s = ws ++ Js.trimStart s.
Proof.
  induction s as [| d t [ws IH]]; cbn; [now exists EmptyString |].
  destruct (Js.is_space d).
  - exists (String d ws). change (String d t = String d (ws ++ Js.trimStart t)).
    f_equal. exact IH.
  - now exists EmptyString.
Qed.

Lemma trimEnd_prefix (s : string) : exists ws, s = Js.trimEnd s ++ ws.
Proof.
  induction s as [| d t [ws IH]]; cbn; [now exists EmptyString |].
  destruct (Js.trimEnd t) as [| e t'] eqn:E.
  - change (t = ws) in IH. destruct (Js.is_space d).
    + exists (String d ws). change (String d t = String d ws). f_equal. exact IH.
    + exists ws. change (String d t = String d ws). f_equal. exact IH.
  - exists ws. change (String d t = String d (String e t' ++ ws)). f_equal. exact IH.
Qed.

Lemma strip_last_prefix (c : ascii) (s : string) :
  exists post, s = Regex.strip_last c s ++ post.
Proof.
  induction s as [| d t [post IH]]; [now exists EmptyString |].
  cbn [Regex.strip_last]. destruct t as [| e t'].
  - destruct (Ascii.eqb c d).
    + now exists (String d EmptyString).
    + now exists EmptyString.
  - exists post.
    change (String d (String e t')
            = String d (Regex.strip_last c (String e t') ++ post)).
    f_equal. exact IH.
Qed.

Section Suffix.
Context {R : Type}.
Implicit Types (k : @Regex.cont R) (x : R).

(** What a continuation is called with is what is left of the input. *)
Definition leaves (res : option R) (s : string) k : Prop :=
  forall x, res = Some x ->
  exists prev' pre s', s = pre ++ s' /\ k prev' s' = Some x.

Lemma leaves_here prev s k : leaves (k prev s) s k.
Proof. intros x H. now exists prev, EmptyString, s. Qed.

Lemma leaves_first a b s k :
  leaves a s k -> leaves b s k -> leaves (Regex.first_of a b) s k.
Proof. intros Ha Hb x. destruct a; cbn; auto. Qed.

Lemma leaves_cons res c t k :
  leaves res t k -> leaves res (String c t) k.
Proof.
  intros H x Hx. destruct (H x Hx) as (prev' & pre & s' & -> & Hk).
  now exists prev', (String c pre), s'.
Qed.

Lemma leaves_none s k : leaves None s k.
Proof. intros x [=]. Qed.

Lemma lit_leaves p prev s k : leaves (Regex.lit p prev s k) s k.
Proof.
  revert prev s. induction p as [| pc pt IH]; intros prev s; cbn.
  - apply leaves_here.
  - destruct s as [| c t]; [apply leaves_none |].
    destruct (Ascii.eqb _ _); [| apply leaves_none].
    apply leaves_cons, IH.
Qed.

Lemma star_leaves cl prev s k : leaves (Regex.star cl prev s k) s k.
Proof.
  revert prev. induction s as [| c t IH]; intros prev; cbn.
  - apply leaves_here.
  - destruct (Regex.in_class cl c); [| apply leaves_here].
    apply leaves_first; [apply leaves_cons, IH | apply leaves_here].
Qed.

Lemma plus_leaves cl prev s k : leaves (Regex.plus cl prev s k) s k.
Proof.
  destruct s as [| c t]; cbn; [apply leaves_none |].
  destruct (Regex.in_class cl c); [| apply leaves_none].
  apply leaves_cons, star_leaves.
Qed.

Lemma upto_leaves n cl prev s k : leaves (Regex.upto n cl prev s k) s k.
Proof.
  revert prev s. induction n as [| n IH]; intros prev s; cbn.
  - apply leaves_here.
  - destruct s as [| c t]; [apply leaves_here |].
    destruct (Regex.in_class cl c); [| apply leaves_here].
    apply leaves_first; [apply leaves_cons, IH | apply leaves_here].
Qed.

Lemma run_leaves r prev s k : leaves (Regex.run r prev s k) s k.
Proof.
  revert prev s k.
  induction r as [p | r1 IH1 r2 IH2 | r1 IH1 r2 IH2 | r1 IH1 | cl | cl | n cl | |];
    intros prev s k; cbn.
  - apply lit_leaves.
  - intros x Hx.
    destruct (IH1 _ _ _ x Hx) as (prev1 & pre1 & s1 & -> & H1).
    destruct (IH2 _ _ _ x H1) as (prev2 & pre2 & s2 & -> & H2).
    exists prev2, (pre1 ++ pre2), s2. split; [| exact H2].
    now rewrite append_assoc.
  - apply leaves_first; auto.
  - apply leaves_first; [auto | apply leaves_here].
  - apply star_leaves.
  - apply plus_leaves.
  - apply upto_leaves.
  - destruct (xorb _ _); [apply leaves_here | apply leaves_none].
  - destruct s; [apply leaves_here | apply leaves_none].
Qed.
End Suffix.

(** [replace(/^r/, '')] only removes a prefix. *)
Lemma strip_prefix_suffix (r : Regex.regex) (s : string) :
  exists pre, s = pre ++ Regex.strip_prefix r s.
Proof.
  unfold Regex.strip_prefix.
  destruct (Regex.run r None s _) as [rest |] eqn:E.
  - destruct (run_leaves r None s _ rest E) as (prev' & pre & s' & -> & [= ->]).
    now exists pre.
  - now exists EmptyString.
Qed.

Lemma trim_part (s : string) : part_of (Js.trim s) s.
Proof.
  unfold Js.trim.
  destruct (trimStart_suffix s) as [ws1 H1].
  destruct (trimEnd_prefix (Js.trimStart s)) as [ws2 H2].
  exists ws1, ws2. now rewrite <- H2.
Qed.

Lemma part_of_trans (a b c : string) : part_of a b -> part_of b c -> part_of a c.
Proof.
  intros (p1 & q1 & ->) (p2 & q2 & ->).
  exists (p2 ++ p1), (q1 ++ q2).
  now rewrite !append_assoc.
Qed.

(** X1. The search query that [extractSearchQuery] builds neither starts
    nor ends with white space, and it is cut out of the message: the
    message is some text, then the query, then some text.  It is the query
    of every result that asks for a search. *)
Theorem search_query_is_a_trimmed_part (userMessage : string) :
  let query := extractSearchQuery userMessage in
  trimmed query
  /\ part_of query userMessage
  /\ (needsSearch (detectSearchIntent userMessage) = true ->
      searchQuery (detectSearchIntent userMessage) = Some query).
Proof.
  cbv zeta. split; [apply trim_trimmed |]. split.
  - unfold extractSearchQuery.
    eapply part_of_trans; [apply trim_part |].
    destruct (strip_prefix_suffix
                (Regex.seqs [ Regex.alts [ "what"; "who"; "when"; "where"; "how"; "why";
                                           "is"; "are"; "can"; "could"; "would"; "should" ];
                              Regex.Plus Regex.CSpace ]) userMessage) as [pre Hpre].
    destruct (strip_last_prefix "?"%char
                (Regex.strip_prefix
                   (Regex.seqs [ Regex.alts [ "what"; "who"; "when"; "where"; "how"; "why";
                                              "is"; "are"; "can"; "could"; "would"; "should" ];
                                 Regex.Plus Regex.CSpace ]) userMessage)) as [post Hpost].
    exists pre, post. rewrite <- Hpost. exact Hpre.
  - unfold detectSearchIntent.
    destruct (some_included actionExclusions _ || hasGenerativePattern _);
      [discriminate |].
    destruct (negb _); [discriminate | reflexivity].
Qed.

Lemma search_query_is_a_trimmed_part_witness :
  extractSearchQuery "What   is the latest news?  " = "is the latest news?"
  /\ searchQuery (detectSearchIntent "What   is the latest news?  ")
     = Some "is the latest news?".
Proof.
  split; [vm_compute; reflexivity |].
  destruct (search_query_is_a_trimmed_part "What   is the latest news?  ")
    as (_ & _ & H).
  rewrite H; vm_compute; reflexivity.
Defined.


Lemma included_keyword (keyword lower : string) (keywords : list string) :
  In keyword keywords -> Js.includes keyword lower = true ->
  some_included keywords lower = true.
Proof.
  intros Hin Hinc. unfold some_included. apply existsb_exists. now exists keyword.
Qed.

(** X2. For a result that asks for a search, the estimated duration is
    between 2 and 60 seconds, and the search is flagged asynchronous exactly
    when the estimate is 10 seconds or more. *)
Theorem async_search_takes_ten_seconds (userMessage : string) :
  needsSearch (detectSearchIntent userMessage) = true ->
  exists seconds,
    estimatedDuration (detectSearchIntent userMessage) = Some seconds
    /\ (2 <= seconds <= 60)%nat
    /\ requiresAsync (detectSearchIntent userMessage) = Some (10 <=? seconds)%nat.
Proof.
  intros Hn.
  pose proof (SearchIntentSpec.detect_searching userMessage Hn) as H. cbv zeta in H.
  destruct H as (_ & _ & _ & Hd & Ha).
  rewrite Hd, Ha. clear Hd Ha Hn.
  destruct (SearchIntentSpec.chooseSearchType_cases
              (some_included currentInfoKeywords (Js.toLowerCase userMessage))
              (some_included researchKeywords (Js.toLowerCase userMessage)))
    as [(-> & _) | [(-> & _) | (-> & _)]].
  - destruct (assessComplexity _ _); eexists; (split; [reflexivity |]); cbn;
      (split; [lia | reflexivity]).
  - rewrite SearchIntentSpec.assessComplexity_research.
    eexists; (split; [reflexivity |]); cbn; (split; [lia | reflexivity]).
  - destruct (assessComplexity _ _); eexists; (split; [reflexivity |]); cbn;
      (split; [lia | reflexivity]).
Qed.

Lemma async_search_takes_ten_seconds_witness :
  exists seconds,
    estimatedDuration (detectSearchIntent "What is the latest news?") = Some seconds
    /\ (2 <= seconds <= 60)%nat
    /\ requiresAsync (detectSearchIntent "What is the latest news?")
       = Some (10 <=? seconds)%nat.
Proof.
  apply (async_search_takes_ten_seconds "What is the latest news?").
  vm_compute. reflexivity.
Defined.

(** X3. The estimate of [estimateDuration] never falls when the complexity
    rises, whatever the search type; a missing complexity counts as
    [simple] and a missing type as [factual]; and the fallback of 5 seconds
    is never taken, every estimate being an entry of the table. *)
Theorem estimate_grows_with_complexity (searchType : option SearchType) :
  (estimateDuration (Some simple) searchType
   <= estimateDuration (Some moderate) searchType
   <= estimateDuration (Some complex) searchType)%nat
  /\ estimateDuration None searchType = estimateDuration (Some simple) searchType
  /\ (forall complexity,
        estimateDuration complexity None = estimateDuration complexity (Some factual))
  /\ (forall complexity,
        estimateDuration complexity searchType
        = baseDurations (default simple complexity) (default factual searchType)).
Proof.
  split; [| split; [| split]].
  - destruct searchType as [[] |]; cbn; lia.
  - reflexivity.
  - reflexivity.
  - intros [[] |]; destruct searchType as [[] |]; reflexivity.
Qed.

(** A time filter, when there is one, is not the empty string. *)
Lemma time_filter_truthy (userMessage : string) :
  Js.truthy_opt (timeFilter (detectSearchIntent userMessage)) = true
  \/ timeFilter (detectSearchIntent userMessage) = None.
Proof.
  unfold detectSearchIntent.
  destruct (some_included actionExclusions _ || hasGenerativePattern _);
    [now right |].
  destruct (negb _); [now right |].
  cbn [timeFilter].
  destruct (Js.includes "today" _); [now left |].
  destruct (Js.includes "this week" _); [now left |].
  destruct (Js.includes "this month" _); [now left |].
  destruct (Js.includes "this year" _); [now left | now right].
Qed.

(** X4. The time filter of a result is one of day, week, month and year,
    and a result filtered by day, month or year is always a
    [current_events] search: the words that set these filters are
    current-information keywords. *)
Theorem time_filter_marks_current_events (userMessage filter : string) :
  timeFilter (detectSearchIntent userMessage) = Some filter ->
  In filter ["day"; "week"; "month"; "year"]
  /\ (filter <> "week" ->
      searchType (detectSearchIntent userMessage) = Some current_events).
Proof.
  unfold detectSearchIntent.
  destruct (some_included actionExclusions _ || hasGenerativePattern _);
    [discriminate |].
  destruct (negb _); [discriminate |].
  cbn [timeFilter searchType].
  set (lower := Js.toLowerCase userMessage).
  assert (Hcur : forall keyword, In keyword currentInfoKeywords ->
            Js.includes keyword lower = true ->
            chooseSearchType (some_included currentInfoKeywords lower)
              (some_included researchKeywords lower) = current_events).
  { intros keyword Hin Hinc.
    now rewrite (included_keyword keyword lower currentInfoKeywords Hin Hinc). }
  destruct (Js.includes "today" lower) eqn:Hday.
  { intros [= <-]. split; [cbn; tauto |]. intros _. f_equal.
    apply (Hcur "today"); [cbn; tauto | exact Hday]. }
  destruct (Js.includes "this week" lower) eqn:Hweek.
  { intros [= <-]. split; [cbn; tauto |]. intros Hne. now destruct Hne. }
  destruct (Js.includes "this month" lower) eqn:Hmonth.
  { intros [= <-]. split; [cbn; tauto |]. intros _. f_equal.
    apply (Hcur "this month"); [cbn; tauto | exact Hmonth]. }
  destruct (Js.includes "this year" lower) eqn:Hyear.
  { intros [= <-]. split; [cbn; tauto |]. intros _. f_equal.
    apply (Hcur "this year"); [cbn; tauto | exact Hyear]. }
  discriminate.
Qed.

Lemma time_filter_marks_current_events_witness :
  In "month" ["day"; "week"; "month"; "year"]
  /\ ("month" <> "week" ->
      searchType (detectSearchIntent "compare the best phones this month")
      = Some current_events).
Proof.
  apply (time_filter_marks_current_events "compare the best phones this month" "month").
  vm_compute. reflexivity.
Defined.

(** X5. A message that is not of the research type, asks at most one
    question and has at most 50 words is never rated [complex]: its score
    is at most 3. *)
Theorem short_single_question_is_not_complex (message : string)
    (searchType : SearchType) :
  searchType = current_events \/ searchType = factual ->
  (Js.count_char "?"%char message <= 1)%nat ->
  (length (Js.split_ws message) <= 50)%nat ->
  assessComplexity message (Some searchType) <> complex.
Proof.
  intros Hst Hq Hw. unfold assessComplexity.
  assert (E1 : (1 <? Js.count_char "?"%char message)%nat = false)
    by (apply Nat.ltb_ge; exact Hq).
  assert (E2 : (50 <? length (Js.split_ws message))%nat = false)
    by (apply Nat.ltb_ge; exact Hw).
  rewrite E1, E2.
  destruct Hst as [-> | ->];
    destruct (20 <? length (Js.split_ws message))%nat,
             (Regex.test complexTerms message),
             (2 <? countConcepts message)%nat; cbn; discriminate.
Qed.

Lemma short_single_question_is_not_complex_witness :
  assessComplexity
    "Please analyze in a detailed way what the current price of bitcoin is today?"
    (Some current_events) <> complex.
Proof.
  apply short_single_question_is_not_complex;
    [left; reflexivity | vm_compute; lia | vm_compute; lia].
Defined.

(** The sites whose short name occurs in the message, in the order of the
    four tests. *)
Lemma domain_filter_flat_map (message : string) :
  extractDomainFilter message
  = match flat_map (fun '(name, site) =>
                      if Js.includes name message then [site] else []) site_names with
    | [] => None
    | domains => Some domains
    end.
Proof.
  unfold extractDomainFilter, site_names. cbn -[Js.includes].
  destruct (Js.includes "reddit" message), (Js.includes "wikipedia" message),
           (Js.includes "github" message), (Js.includes "stackoverflow" message);
    reflexivity.
Qed.

Lemma named_sites_NoDup (message : string) :
  NoDup (flat_map (fun '(name, site) =>
                     if Js.includes name message then [site] else []) site_names).
Proof.
  unfold site_names. cbn -[Js.includes].
  destruct (Js.includes "reddit" message), (Js.includes "wikipedia" message),
           (Js.includes "github" message), (Js.includes "stackoverflow" message);
    apply (bool_decide_unpack _); vm_compute; reflexivity.
Qed.

Lemma named_sites_In (message site : string) :
  In site (flat_map (fun '(name, site) =>
                       if Js.includes name message then [site] else []) site_names)
  <-> exists name, In (name, site) site_names /\ Js.includes name message = true.
Proof.
  rewrite in_flat_map. split.
  - intros ([name site'] & Hin & H).
    destruct (Js.includes name message) eqn:E; [| destruct H].
    destruct H as [<- | []]. now exists name.
  - intros (name & Hin & E). exists (name, site). split; [exact Hin |].
    rewrite E. now left.
Qed.

(** X6. The domain filter is never an empty list.  It holds, without
    repetition, exactly the sites among reddit.com, wikipedia.org,
    github.com and stackoverflow.com whose short name occurs in the
    message, and it is missing exactly when no short name occurs. *)
Theorem domain_filter_lists_named_sites (message : string) :
  (extractDomainFilter message = None <->
   forall name site, In (name, site) site_names -> Js.includes name message = false)
  /\ (forall domains, extractDomainFilter message = Some domains ->
        domains <> [] /\ NoDup domains
        /\ forall site, In site domains <->
             exists name, In (name, site) site_names
                          /\ Js.includes name message = true).
Proof.
  rewrite domain_filter_flat_map.
  pose proof (named_sites_NoDup message) as Hnd.
  pose proof (named_sites_In message) as Hin.
  destruct (flat_map _ site_names) as [| d ds].
  - split; [| discriminate]. split; [| reflexivity].
    intros _ name site H.
    destruct (Js.includes name message) eqn:E; [| reflexivity].
    destruct (proj2 (Hin site)). now exists name.
  - split.
    + split; [discriminate |]. intros H.
      destruct (proj1 (Hin d) (or_introl eq_refl)) as (name & Hn & E).
      rewrite (H name d Hn) in E. discriminate E.
    + intros domains [= <-]. split; [discriminate |]. split; [exact Hnd | exact Hin].
Qed.

Lemma domain_filter_lists_named_sites_witness :
  extractDomainFilter "python tips on github or stackoverflow"
  = Some ["github.com"; "stackoverflow.com"]
  /\ NoDup ["github.com"; "stackoverflow.com"].
Proof.
  assert (E : extractDomainFilter "python tips on github or stackoverflow"
              = Some ["github.com"; "stackoverflow.com"]) by (vm_compute; reflexivity).
  split; [exact E |].
  destruct (domain_filter_lists_named_sites "python tips on github or stackoverflow")
    as (_ & H).
  exact (proj1 (proj2 (H _ E))).
Defined.

End SearchIntentDetectorSpec.

(** ** The Perplexity search route *)

Module PerplexitySearchSpec.
Import Eff SearchIntentDetector PerplexitySearch PerplexitySearchTerms.

Lemma last_In {A} (l : list A) (x : A) : last l = Some x -> In x l.
Proof.
  induction l as [| a l IH]; [discriminate |].
  destruct l as [| b l']; [intros [= ->]; now left |].
  intros H. right. apply IH. exact H.
Qed.

Lemma last_None {A} (l : list A) : last l = None -> l = [].
Proof.
  induction l as [| a l IH]; [reflexivity |].
  destruct l as [| b l']; [discriminate |].
  intros H. specialize (IH H). discriminate IH.
Qed.

Lemma last_user_message_is_user (msgs : list ChatMessage) (m : ChatMessage) :
  last_user_message msgs = Some m -> role m = "user" /\ In m msgs.
Proof.
  unfold last_user_message. intros H. apply last_In in H.
  apply List.filter_In in H. destruct H as [Hin Hr].
  apply String.eqb_eq in Hr. split; assumption.
Qed.

Lemma no_user_message (msgs : list ChatMessage) :
  last_user_message msgs = None <-> (forall m, In m msgs -> role m <> "user").
Proof.
  unfold last_user_message. split.
  - intros H m Hin Hr. apply last_None in H.
    assert (Hf : In m (List.filter (fun m => String.eqb (role m) "user") msgs)).
    { apply List.filter_In. split; [exact Hin |]. now apply String.eqb_eq. }
    rewrite H in Hf. destruct Hf.
  - intros H.
    destruct (last (List.filter _ msgs)) as [m |] eqn:E; [| reflexivity].
    apply last_In, List.filter_In in E. destruct E as [Hin Hr].
    apply String.eqb_eq in Hr. destruct (H m Hin Hr).
Qed.

(** X7. A request without messages, with an empty list of messages or
    without any message of role [user] is answered 400, and a request whose
    body cannot be read is answered 500; in none of these cases is the
    Perplexity client built or called. *)
Theorem search_needs_a_user_message (env : Env) (req : Outcome Body) :
  (forall body, req = Returned body ->
     messages body = None \/ messages body = Some [] ->
     POST env req
     = ([], Returned {| resp_status := 400;
                        resp_json := ErrorJson "Messages are required" None |}))
  /\ (forall body msgs, req = Returned body ->
        messages body = Some msgs -> msgs <> [] ->
        (forall m, In m msgs -> role m <> "user") ->
        POST env req
        = ([], Returned {| resp_status := 400;
                           resp_json := ErrorJson "No user message found" None |}))
  /\ (forall e, req = Thrown e ->
        log_of (POST env req) = []
        /\ exists details,
             outcome_of (POST env req)
             = Returned {| resp_status := 500;
                           resp_json := ErrorJson "Failed to perform search" details |}).
Proof.
  split; [| split].
  - intros body -> [H | H]; unfold POST; munfold; cbn; rewrite H; reflexivity.
  - intros body msgs -> Hm Hne Hno. apply no_user_message in Hno.
    unfold last_user_message in Hno.
    unfold POST; munfold; cbn. rewrite Hm.
    destruct msgs as [| m0 msgs']; [now destruct Hne |].
    rewrite Hno. reflexivity.
  - intros e ->. unfold POST; munfold; cbn. split; [reflexivity |]. eauto.
Qed.

Lemma search_needs_a_user_message_witness :
  POST world
    (Returned {| messages := Some [ {| role := "assistant"; content := "latest news" |} ];
                 forceSearch := Some true |})
  = ([], Returned {| resp_status := 400;
                     resp_json := ErrorJson "No user message found" None |}).
Proof.
  destruct (search_needs_a_user_message world
              (Returned {| messages :=
                             Some [ {| role := "assistant"; content := "latest news" |} ];
                           forceSearch := Some true |})) as (_ & H & _).
  apply (H _ _ eq_refl eq_refl); [discriminate |].
  intros m [<- | []]. discriminate.
Defined.

(** X8. When the last user message of the chat asks for something to be
    made (an action keyword occurs in it, or a generative pattern matches
    it) and the search is not forced, the route answers 200 with
    [needsSearch: false] and neither builds nor calls the Perplexity client,
    whatever the earlier messages of the chat ask for. *)
Theorem generation_request_is_not_searched (env : Env) (body : Body)
    (msgs : list ChatMessage) (m : ChatMessage) :
  messages body = Some msgs ->
  last_user_message msgs = Some m ->
  forceSearch body = None \/ forceSearch body = Some false ->
  hasActionKeyword (content m) = true \/ hasGenerativePattern (content m) = true ->
  POST env (Returned body)
  = ([], Returned {| resp_status := 200;
                     resp_json := NoSearchJson "No web search required for this query" |}).
Proof.
  intros Hm Hl Hf Ha. unfold last_user_message in Hl.
  assert (Hd : detectSearchIntent (content m) = no_search).
  { unfold detectSearchIntent. unfold hasActionKeyword in Ha.
    apply orb_true_iff in Ha. rewrite Ha. reflexivity. }
  unfold POST; munfold; cbn. rewrite Hm.
  destruct msgs as [| m0 msgs']; [discriminate Hl |].
  rewrite Hl, Hd. cbn. destruct Hf as [-> | ->]; reflexivity.
Qed.

Lemma generation_request_is_not_searched_witness :
  needsSearch (detectSearchIntent "What is the latest news today?") = true
  /\ POST world (Returned {| messages := Some chat; forceSearch := None |})
     = ([], Returned {| resp_status := 200;
                        resp_json :=
                          NoSearchJson "No web search required for this query" |}).
Proof.
  split; [vm_compute; reflexivity |].
  apply (generation_request_is_not_searched world _ chat
           {| role := "user"; content := "Draw a picture of the latest news" |});
    [reflexivity | vm_compute; reflexivity | left; reflexivity
    | left; vm_compute; reflexivity].
Defined.

(** X9. When the last user message needs a search, or the search is
    forced, the client is built and then called once, with exactly two
    messages, the system message and the last user message, and with the
    options of the detected intent: the recency filter is the intent's time
    filter and the domain filter its domain filter.  The answer is 200 with
    the client's response, or 500 when the client cannot be built or fails,
    and then the search is not repeated. *)
Theorem search_gets_last_user_message (env : Env) (body : Body)
    (msgs : list ChatMessage) (m : ChatMessage) :
  messages body = Some msgs ->
  last_user_message msgs = Some m ->
  needsSearch (detectSearchIntent (content m)) = true \/ forceSearch body = Some true ->
  let intent := detectSearchIntent (content m) in
  let sent := [ systemMessage (today env); {| role := "user"; content := content m |} ] in
  let options := searchOptions_of intent in
  search_recency_filter options = timeFilter intent
  /\ search_domain_filter options = domainFilter intent
  /\ match new_client env, search env sent options with
     | Returned _, Returned response =>
         POST env (Returned body)
         = ([EvNewClient; EvSearch sent options],
            Returned {| resp_status := 200;
                        resp_json :=
                          SearchJson response intent (citations response)
                            (search_results response) (images response) |})
     | Returned _, Thrown e =>
         log_of (POST env (Returned body)) = [EvNewClient; EvSearch sent options]
         /\ exists details,
              outcome_of (POST env (Returned body))
              = Returned {| resp_status := 500;
                            resp_json := ErrorJson "Failed to perform search" details |}
     | Thrown e, _ =>
         log_of (POST env (Returned body)) = [EvNewClient]
         /\ exists details,
              outcome_of (POST env (Returned body))
              = Returned {| resp_status := 500;
                            resp_json := ErrorJson "Failed to perform search" details |}
     end.
Proof.
  intros Hm Hl Hneed. cbv zeta.
  destruct (last_user_message_is_user _ _ Hl) as [Hrole _].
  unfold last_user_message in Hl.
  split; [| split].
  - unfold searchOptions_of. cbn.
    destruct (SearchIntentDetectorSpec.time_filter_truthy (content m)) as [E | E];
      rewrite E; reflexivity.
  - reflexivity.
  - assert (Hgo : negb (needsSearch (detectSearchIntent (content m)))
                  && negb (default false (forceSearch body)) = false).
    { destruct Hneed as [-> | ->]; [reflexivity | apply andb_false_r]. }
    unfold POST; munfold; cbn. rewrite Hm.
    destruct msgs as [| m0 msgs']; [discriminate Hl |].
    rewrite Hl, Hgo, Hrole.
    destruct (new_client env) as [[] | e1]; cbn.
    + destruct (search env _ _) as [response | e2]; cbn;
        [reflexivity | split; [reflexivity | eauto]].
    + split; [reflexivity | eauto].
Qed.

Lemma search_gets_last_user_message_witness :
  POST world
    (Returned {| messages := Some [ {| role := "user"; content := "a poem" |} ];
                 forceSearch := Some true |})
  = ([ EvNewClient;
       EvSearch [ systemMessage "Sunday, November 1, 2026";
                  {| role := "user"; content := "a poem" |} ]
         {| search_mode := "web"; return_images := true;
            return_related_questions := true;
            search_recency_filter := None; search_domain_filter := None |} ],
     Returned {| resp_status := 200;
                 resp_json :=
                   SearchJson
                     {| citations := Some ["https://example.com/news"];
                        search_results := None; images := None; rest := "{}" |}
                     no_search (Some ["https://example.com/news"]) None None |}).
Proof.
  destruct (search_gets_last_user_message world
              {| messages := Some [ {| role := "user"; content := "a poem" |} ];
                 forceSearch := Some true |}
              [ {| role := "user"; content := "a poem" |} ]
              {| role := "user"; content := "a poem" |}
              eq_refl eq_refl (or_intror eq_refl)) as (_ & _ & H).
  exact H.
Defined.

End PerplexitySearchSpec.

(** ** The image progress store: the life of a record *)

Module ImageProgressStoreSpec.
Import ImageProgress ImageProgressStore JsObjectTerms.

Lemma calculateProgress_not_generating (id : string) (now : Z) (random : Q)
    (state : ImageGenerationState) (current : ImageGenerationProgress) :
  state !! id = Some current -> status current <> generating ->
  calculateProgress id now random state = state.
Proof.
  intros Hc Hs. unfold calculateProgress. rewrite Hc.
  destruct (status current); [contradiction | reflexivity | reflexivity].
Qed.

(** X10. Completing an image whose record is stored sets its progress to
    100, its status and stage to completed and its remaining time to 0, and
    keeps its identity and the records of the other images.  From then on
    [calculateProgress] leaves the store as it is, at any time and for any
    random value: a completed image stays at 100.  Completing an image that
    has no record changes nothing (the id not being a name that objects
    inherit). *)
Theorem completed_image_stays_at_100 (id : string) (now : Z)
    (state : ImageGenerationState) :
  ~ In id inherited_keys ->
  let state' := completeImageGeneration id now state in
  (state !! id = None -> state' = state)
  /\ (forall other, other <> id -> state' !! other = state !! other)
  /\ (forall current, state !! id = Some current ->
        exists record,
          getProgress id state' = Some record
          /\ progress record = 100%Q
          /\ status record = status_completed
          /\ stage record = completed
          /\ estimatedRemainingTime record = 0%Q
          /\ completedAt record = Some now
          /\ imageId record = imageId current
          /\ prompt record = prompt current
          /\ createdAt record = createdAt current
          /\ (forall later random,
                calculateProgress id later random state' = state')).
Proof.
  intros _. cbv zeta. unfold completeImageGeneration, getProgress.
  split; [intros ->; reflexivity |]. split.
  - intros other Hne. destruct (state !! id); [| reflexivity].
    now rewrite lookup_insert_ne.
  - intros current Hc. rewrite Hc. eexists. rewrite lookup_insert_eq.
    split; [reflexivity |]. repeat (split; [reflexivity |]).
    intros later random.
    eapply calculateProgress_not_generating; [apply lookup_insert_eq | discriminate].
Qed.

Lemma completed_image_stays_at_100_witness :
  let state :=
    addImageGeneration "img_1" "a red fox" None None (Some "hd") None None
      (Some "gpt-image-1") 1000 ∅ in
  exists record,
    getProgress "img_1" (completeImageGeneration "img_1" 9000 state) = Some record
    /\ progress record = 100%Q
    /\ stageMessage record = "Image generation complete!".
Proof.
  cbv zeta.
  destruct (completed_image_stays_at_100 "img_1" 9000
              (addImageGeneration "img_1" "a red fox" None None (Some "hd") None None
                 (Some "gpt-image-1") 1000 ∅)) as (_ & _ & H).
  { cbn. intuition discriminate. }
  edestruct H as (record & Hg & Hp & _).
  - unfold addImageGeneration. apply lookup_insert_eq.
  - exists record. split; [exact Hg |]. split; [exact Hp |].
    unfold getProgress, completeImageGeneration, addImageGeneration in Hg.
    rewrite lookup_insert_eq in Hg. rewrite lookup_insert_eq in Hg.
    injection Hg as <-. reflexivity.
Defined.

Lemma calculated_progress_nonneg (elapsed total random : Q)
    (stage : ImageGenerationStage) :
  (0 <= calculateProgressFromElapsed elapsed total stage random)%Z.
Proof.
  unfold calculateProgressFromElapsed.
  destruct stage; cbn [stageRanges]; try lia.
  - apply (ImageProgressSpec.floor_clamp_bounds 0 20). lia.
  - pose proof (ImageProgressSpec.floor_clamp_bounds 20 85
                  ((inject_Z 20
                    + smoothstep (Qmin (elapsed / total) 1) * (inject_Z 85 - inject_Z 20)
                    + (random - (1 # 2)) * 1)%Q)). lia.
  - pose proof (ImageProgressSpec.floor_clamp_bounds 85 100
                  ((inject_Z 85
                    + smoothstep (Qmin (elapsed / total) 1) * (inject_Z 100 - inject_Z 85)
                    + (random - (1 # 2)) * 1)%Q)). lia.
Qed.

(** X11. [calculateProgress] neither adds nor removes a record and never
    touches the record of another image.  Of the record of the image it
    keeps the identity, the prompt, the status, the stage, the creation
    time and the estimated total; when it rewrites the record, the elapsed
    time is the whole number of seconds since the creation, the remaining
    time is the estimated total minus the elapsed time but never negative,
    and the progress is not negative.  (The estimated total is positive, as
    [addImageGeneration] sets it.) *)
Theorem progress_update_keeps_the_record (id : string) (now : Z) (random : Q)
    (state : ImageGenerationState) (current : ImageGenerationProgress) :
  state !! id = Some current ->
  (0 < estimatedTotalTime current)%Q ->
  let state' := calculateProgress id now random state in
  (forall other, other <> id -> state' !! other = state !! other)
  /\ exists record,
       state' !! id = Some record
       /\ imageId record = imageId current
       /\ prompt record = prompt current
       /\ status record = status current
       /\ stage record = stage current
       /\ createdAt record = createdAt current
       /\ estimatedTotalTime record = estimatedTotalTime current
       /\ (record = current
           \/ elapsedTime record = inject_Z ((now - createdAt current) / 1000)
              /\ estimatedRemainingTime record
                 = Qmax 0 (estimatedTotalTime current - elapsedTime record)
              /\ (0 <= estimatedRemainingTime record)%Q
              /\ (0 <= progress record)%Q
              /\ lastUpdated record = now).
Proof.
  intros Hc Ht. cbv zeta. unfold calculateProgress. rewrite Hc.
  assert (Hsame : exists record,
            state !! id = Some record
            /\ imageId record = imageId current
            /\ prompt record = prompt current
            /\ status record = status current
            /\ stage record = stage current
            /\ createdAt record = createdAt current
            /\ estimatedTotalTime record = estimatedTotalTime current
            /\ (record = current
                \/ elapsedTime record = inject_Z ((now - createdAt current) / 1000)
                   /\ estimatedRemainingTime record
                      = Qmax 0 (estimatedTotalTime current - elapsedTime record)
                   /\ (0 <= estimatedRemainingTime record)%Q
                   /\ (0 <= progress record)%Q
                   /\ lastUpdated record = now)).
  { exists current. split; [exact Hc |]. repeat (split; [reflexivity |]). now left. }
  destruct (status current) eqn:Hs; [| split; [reflexivity | exact Hsame] ..].
  destruct (differs_by_one _ _ || differs_by_one _ _);
    [| split; [reflexivity | exact Hsame]].
  split.
  - intros other Hne. now rewrite lookup_insert_ne.
  - eexists. rewrite lookup_insert_eq. split; [reflexivity |].
    do 2 (split; [reflexivity |]). split; [exact Hs |].
    do 3 (split; [reflexivity |]). right.
    cbn [elapsedTime estimatedRemainingTime progress lastUpdated updated_record].
    split; [reflexivity |]. split; [reflexivity |].
    split; [apply Q.le_max_l |]. split; [| reflexivity].
    change 0%Q with (inject_Z 0). rewrite <- Zle_Qle.
    pose proof (calculated_progress_nonneg
                  (inject_Z ((now - createdAt current) / 1000))
                  (estimatedTotalTime current) random (stage current)).
    destruct (stage current); lia.
Qed.

Lemma progress_update_keeps_the_record_witness :
  let state :=
    addImageGeneration "img_1" "a red fox" None None None None None None 1000 ∅ in
  exists record,
    calculateProgress "img_1" 7500 (1 # 2) state !! "img_1" = Some record
    /\ elapsedTime record = 6%Q
    /\ estimatedRemainingTime record = 6%Q
    /\ progress record = 10%Q.
Proof.
  cbv zeta.
  edestruct (progress_update_keeps_the_record "img_1" 7500 (1 # 2)
               (addImageGeneration "img_1" "a red fox" None None None None None None
                  1000 ∅)) as (_ & record & Hr & _).
  - unfold addImageGeneration. apply lookup_insert_eq.
  - reflexivity.
  - exists record. split; [exact Hr |].
    unfold calculateProgress, addImageGeneration in Hr.
    rewrite lookup_insert_eq in Hr. cbn in Hr.
    match type of Hr with
    | (if ?b then _ else _) !! _ = _ =>
        replace b with true in Hr by (vm_compute; reflexivity)
    end.
    rewrite lookup_insert_eq in Hr. injection Hr as <-.
    repeat split; vm_compute; reflexivity.
Defined.

(** X12. A progress of 0 counts as missing in [getStageMessage]: for the
    stage [processing] the message is then the last one of the stage.  So a
    record that [addImageGeneration] has just created and [updateStage]
    moves to [processing] without a message of its own shows
    Finalizing generation..., with its progress still 0. *)
Theorem fresh_image_in_processing_shows_finalizing
    (id prompt : string)
    (originalImageId originalImageUrl quality style size model : option string)
    (created now : Z) (state : ImageGenerationState) :
  (forall isEdit,
     getStageMessage processing model (Some 0%Q) isEdit
     = getStageMessage processing model (Some 85%Q) isEdit)
  /\ exists record,
       updateStage id processing None now
         (addImageGeneration id prompt originalImageId originalImageUrl quality style
            size model created state) !! id = Some record
       /\ stage record = processing
       /\ progress record = 0%Q
       /\ stageMessage record = "Finalizing generation...".
Proof.
  split; [intros isEdit; reflexivity |].
  unfold updateStage, addImageGeneration.
  rewrite lookup_insert_eq. eexists. rewrite lookup_insert_eq.
  split; [reflexivity |]. repeat split.
Qed.

Lemma In_generating (state : ImageGenerationState) (record : ImageGenerationProgress) :
  In record (getAllGeneratingImages state)
  <-> exists id, state !! id = Some record /\ status record = generating.
Proof.
  unfold getAllGeneratingImages. rewrite List.filter_In.
  rewrite <- list_elem_of_In, list_elem_of_fmap. split.
  - intros [([id r] & -> & Hin) Hg]. apply elem_of_map_to_list in Hin.
    exists id. split; [exact Hin |].
    unfold is_generating in Hg. cbn in Hg. cbn.
    destruct (status r); [reflexivity | discriminate | discriminate].
  - intros (id & Hl & Hs). split.
    + exists (id, record). split; [reflexivity |]. now apply elem_of_map_to_list.
    + unfold is_generating. now rewrite Hs.
Qed.

(** X13. [getAllGeneratingImages] lists the stored records whose status is
    generating.  After an image is completed or removed, the records listed
    are those that were generating under another id, and neither
    [calculateProgress] nor [updateStage] nor [completeImageGeneration]
    brings the record of a removed image back (the id not being a name
    that objects inherit). *)
Theorem finished_image_leaves_the_generating_list (id : string) (now : Z)
    (state : ImageGenerationState) :
  ~ In id inherited_keys ->
  (forall record,
     In record (getAllGeneratingImages (completeImageGeneration id now state))
     <-> exists other, other <> id /\ state !! other = Some record
                       /\ status record = generating)
  /\ (forall record,
        In record (getAllGeneratingImages (removeProgress id state))
        <-> exists other, other <> id /\ state !! other = Some record
                          /\ status record = generating)
  /\ getProgress id (removeProgress id state) = None
  /\ (forall random, calculateProgress id now random (removeProgress id state)
                     = removeProgress id state)
  /\ (forall stage message, updateStage id stage message now (removeProgress id state)
                            = removeProgress id state)
  /\ completeImageGeneration id now (removeProgress id state) = removeProgress id state.
Proof.
  intros _.
  assert (Hgone : removeProgress id state !! id = None)
    by (unfold removeProgress; apply lookup_delete_eq).
  split; [| split; [| split; [| split; [| split]]]].
  - intros record. rewrite In_generating. split.
    + intros (other & Hl & Hs). exists other.
      destruct (decide (other = id)) as [-> | Hne].
      * exfalso. unfold completeImageGeneration in Hl.
        destruct (state !! id) as [current |] eqn:Hc.
        -- rewrite lookup_insert_eq in Hl. injection Hl as <-. discriminate Hs.
        -- rewrite Hc in Hl. discriminate Hl.
      * split; [exact Hne |]. split; [| exact Hs].
        unfold completeImageGeneration in Hl.
        destruct (state !! id); [| exact Hl].
        now rewrite lookup_insert_ne in Hl.
    + intros (other & Hne & Hl & Hs). exists other. split; [| exact Hs].
      unfold completeImageGeneration.
      destruct (state !! id); [| exact Hl].
      now rewrite lookup_insert_ne.
  - intros record. rewrite In_generating. unfold removeProgress. split.
    + intros (other & Hl & Hs). exists other.
      apply lookup_delete_Some in Hl. destruct Hl as [Hne Hl]. auto.
    + intros (other & Hne & Hl & Hs). exists other. split; [| exact Hs].
      apply lookup_delete_Some. auto.
  - exact Hgone.
  - intros random. unfold calculateProgress. now rewrite Hgone.
  - intros stage message. unfold updateStage. now rewrite Hgone.
  - unfold completeImageGeneration. now rewrite Hgone.
Qed.

Lemma finished_image_leaves_the_generating_list_witness :
  let state :=
    addImageGeneration "img_2" "a blue bird" None None None None None None 2000
      (addImageGeneration "img_1" "a red fox" None None None None None None 1000 ∅) in
  List.map imageId (getAllGeneratingImages (completeImageGeneration "img_1" 9000 state))
  = ["img_2"]
  /\ getProgress "img_1" (removeProgress "img_1" state) = None.
Proof.
  cbv zeta. split; [vm_compute; reflexivity |].
  destruct (finished_image_leaves_the_generating_list "img_1" 9000
              (addImageGeneration "img_2" "a blue bird" None None None None None None 2000
                 (addImageGeneration "img_1" "a red fox" None None None None None None
                    1000 ∅))) as (_ & _ & H & _).
  - cbn. intuition discriminate.
  - exact H.
Defined.

End ImageProgressStoreSpec.

(** ** Prompts and time stamps of lib/image-utils.ts *)

Module ImageUtilsTextSpec.
Import Regex ImageUtils ImageUtilsText ImageUtilsTextTerms StringTerms.

(** X14. [formatImageTimestamp] labels a valid date by its age, the
    number of milliseconds between the date and now (below 2^53, as for any
    two dates near each other): Just now below one minute, which includes
    every date in the future, then the whole number of minutes below one
    hour, of hours below one day, and of days, each with the plural s only
    above 1.  A missing date gives Unknown time and an invalid one Invalid
    time. *)
Theorem timestamp_label_follows_age (now ms : Z) :
  (Z.abs (now - ms) < 2 ^ 53)%Z ->
  formatImageTimestamp NoDate now = "Unknown time"
  /\ formatImageTimestamp InvalidDate now = "Invalid time"
  /\ formatImageTimestamp (ValidDate ms) now = label_by_age (now - ms)
  /\ ((now < ms + 60000)%Z ->
      formatImageTimestamp (ValidDate ms) now = "Just now")
  /\ ((ms + 60000 <= now < ms + 120000)%Z ->
      formatImageTimestamp (ValidDate ms) now = "1 minute ago")
  /\ ((ms + 86400000 <= now < ms + 172800000)%Z ->
      formatImageTimestamp (ValidDate ms) now = "1 day ago").
Proof.
  intros _.
  assert (Hlabel : formatImageTimestamp (ValidDate ms) now = label_by_age (now - ms)).
  { unfold formatImageTimestamp, label_by_age.
    set (d := (now - ms)%Z).
    assert (Em : (d / 1000 / 60 = d / 60000)%Z) by (rewrite Z.div_div by lia; reflexivity).
    assert (Eh : (d / 1000 / 60 / 60 = d / 3600000)%Z)
      by (rewrite !Z.div_div by lia; reflexivity).
    assert (Ed : (d / 1000 / 60 / 60 / 24 = d / 86400000)%Z)
      by (rewrite !Z.div_div by lia; reflexivity).
    rewrite Ed, Eh, Em.
    assert (Hsmall : forall unit, (0 < unit)%Z -> (d < unit)%Z -> (d / unit <= 0)%Z)
      by (intros unit Hu Hd; apply Z.lt_succ_r, Z.div_lt_upper_bound; lia).
    assert (Hlarge : forall unit, (0 < unit)%Z -> (unit <= d)%Z -> (0 < d / unit)%Z)
      by (intros unit Hu Hd; apply Z.div_str_pos; lia).
    pose proof (Hsmall 60000%Z eq_refl) as S1.
    pose proof (Hsmall 3600000%Z eq_refl) as S2.
    pose proof (Hsmall 86400000%Z eq_refl) as S3.
    pose proof (Hlarge 60000%Z eq_refl) as L1.
    pose proof (Hlarge 3600000%Z eq_refl) as L2.
    pose proof (Hlarge 86400000%Z eq_refl) as L3.
    destruct (Z.ltb_spec d 60000), (Z.ltb_spec d 3600000), (Z.ltb_spec d 86400000),
      (Z.ltb_spec 0 (d / 60000)), (Z.ltb_spec 0 (d / 3600000)),
      (Z.ltb_spec 0 (d / 86400000)); try reflexivity; lia. }
  split; [reflexivity |]. split; [reflexivity |]. split; [exact Hlabel |].
  split; [| split].
  - intros H. rewrite Hlabel. unfold label_by_age.
    destruct (Z.ltb_spec (now - ms) 60000); [reflexivity | lia].
  - intros H. rewrite Hlabel. unfold label_by_age.
    destruct (Z.ltb_spec (now - ms) 60000); [lia |].
    destruct (Z.ltb_spec (now - ms) 3600000); [| lia].
    assert (E : ((now - ms) / 60000 = 1)%Z)
      by (symmetry; apply (Z.div_unique _ _ 1 (now - ms - 60000)); lia).
    rewrite E. reflexivity.
  - intros H. rewrite Hlabel. unfold label_by_age.
    destruct (Z.ltb_spec (now - ms) 60000); [lia |].
    destruct (Z.ltb_spec (now - ms) 3600000); [lia |].
    destruct (Z.ltb_spec (now - ms) 86400000); [lia |].
    assert (E : ((now - ms) / 86400000 = 1)%Z)
      by (symmetry; apply (Z.div_unique _ _ 1 (now - ms - 86400000)); lia).
    rewrite E. reflexivity.
Qed.

Lemma timestamp_label_follows_age_witness :
  formatImageTimestamp (ValidDate 1000) 7300000 = "2 hours ago"
  /\ formatImageTimestamp (ValidDate 9000000) 7300000 = "Just now".
Proof.
  split.
  - destruct (timestamp_label_follows_age 7300000 1000) as (_ & _ & Hl & _);
      [vm_compute; reflexivity |].
    rewrite Hl. vm_compute. reflexivity.
  - destruct (timestamp_label_follows_age 7300000 9000000) as (_ & _ & _ & Hj & _);
      [vm_compute; reflexivity |].
    apply Hj. lia.
Defined.

Lemma single_spaced_suffix (a b : string) : single_spaced (a ++ b) -> single_spaced b.
Proof.
  induction a as [| c a IH]; [auto |].
  change (single_spaced (String c (a ++ b)) -> single_spaced b).
  intros [_ H]. auto.
Qed.

Lemma single_spaced_prefix (a b : string) : single_spaced (a ++ b) -> single_spaced a.
Proof.
  induction a as [| c a IH]; [constructor |].
  change (single_spaced (String c (a ++ b)) -> single_spaced (String c a)).
  intros [Hc H]. split; [| auto].
  intros Hs. destruct (Hc Hs) as [-> Hnext]. split; [reflexivity |].
  destruct a as [| d a']; [exact I | exact Hnext].
Qed.

Lemma collapse_single_spaced (s : string) (in_ws : bool) :
  single_spaced (collapse_ws s in_ws)
  /\ (in_ws = true ->
      match collapse_ws s in_ws with
      | String d _ => Js.is_space d = false
      | EmptyString => True
      end).
Proof.
  revert in_ws. induction s as [| c t IH]; intros in_ws; [split; constructor |].
  cbn [collapse_ws]. destruct (Js.is_space c) eqn:Ec.
  - destruct in_ws; [apply IH |].
    destruct (IH true) as [H1 H2]. split; [| discriminate].
    split; [| exact H1]. intros _. split; [reflexivity |]. now apply H2.
  - destruct (IH false) as [H1 _]. split; [| intros _; exact Ec].
    split; [| exact H1]. intros H. rewrite Ec in H. discriminate H.
Qed.

Lemma trim_single_spaced (s : string) : single_spaced s -> single_spaced (Js.trim s).
Proof.
  intros H. unfold Js.trim.
  destruct (SearchIntentDetectorSpec.trimStart_suffix s) as [ws1 H1].
  destruct (SearchIntentDetectorSpec.trimEnd_prefix (Js.trimStart s)) as [ws2 H2].
  rewrite H1 in H. apply single_spaced_suffix in H.
  rewrite H2 in H. now apply single_spaced_prefix in H.
Qed.

(** X15. The prompt that [extractImagePrompt] returns neither starts nor
    ends with white space.  Either white space occurs in it only as single
    spaces, or the cleaned prompt had fewer than 3 characters and the
    result is the fall-back: a part of the message itself, cut after the
    verb and trimmed. *)
Theorem extracted_prompt_is_trimmed (message : string) :
  trimmed (extractImagePrompt message)
  /\ (single_spaced (extractImagePrompt message)
      \/ extractImagePrompt message = Js.trim (strip_prefix fallbackPattern message)
         /\ part_of (extractImagePrompt message) message).
Proof.
  unfold extractImagePrompt.
  destruct (String.length _ <? 3)%nat.
  - split; [apply SearchIntentDetectorSpec.trim_trimmed |]. right.
    split; [reflexivity |].
    eapply SearchIntentDetectorSpec.part_of_trans;
      [apply SearchIntentDetectorSpec.trim_part |].
    destruct (SearchIntentDetectorSpec.strip_prefix_suffix fallbackPattern message)
      as [pre Hpre].
    exists pre, EmptyString.
    now rewrite SearchIntentDetectorSpec.append_nil_r.
  - split; [apply SearchIntentDetectorSpec.trim_trimmed |]. left.
    apply trim_single_spaced, collapse_single_spaced.
Qed.

(** The greedy [\s*] at the end of a pattern takes all the white space. *)
Lemma star_space_all (prev : option ascii) (s : string) :
  star CSpace prev s (fun _ rest => Some rest) = Some (Js.trimStart s).
Proof.
  revert prev. induction s as [| c t IH]; intros prev; [reflexivity |].
  cbn [star Js.trimStart in_class]. destruct (Js.is_space c); [| reflexivity].
  now rewrite IH.
Qed.

(** X16. In the first pattern the article is optional and [a] is tried
    first, so the letter a that follows the verb and one white space is
    always taken as the article, also when it starts a word: what is left
    of generate, create, make, draw, design or show me, then a, then any
    text, is that text without its leading white space.  So the article an
    leaves its n, and a word that starts with a loses its first letter. *)
Theorem leading_a_is_taken_as_article (verb rest : string) :
  In verb ["generate"; "create"; "make"; "draw"; "design"; "show me"] ->
  strip_prefix verbPattern (verb ++ " a" ++ rest) = Js.trimStart rest
  /\ extractImagePrompt "draw an apple" = "n apple"
  /\ extractImagePrompt "Create astronauts on the moon" = "stronauts on the moon".
Proof.
  intros Hv. split; [| split; vm_compute; reflexivity].
  unfold strip_prefix, verbPattern.
  destruct Hv as [<- | [<- | [<- | [<- | [<- | [<- | []]]]]]];
    cbv [String.append]; cbn -[Js.trimStart]; rewrite star_space_all; reflexivity.
Qed.

Lemma leading_a_is_taken_as_article_witness :
  strip_prefix verbPattern ("make" ++ " a" ++ "n omelette") = "n omelette".
Proof.
  destruct (leading_a_is_taken_as_article "make" "n omelette") as [H _].
  - cbn. tauto.
  - exact H.
Defined.

End ImageUtilsTextSpec.

(** ** Loading the stored images *)

Module ImageUtilsLoadSpec.
Import Eff ImageUtils ImageUtilsTerms ImageUtilsLoad ImageUtilsLoadTerms.

Lemma prefix_substring0 (p s : string) (n : nat) :
  (String.length p <= n)%nat ->
  String.prefix p (Js.substring0 n s) = String.prefix p s.
Proof.
  unfold Js.substring0. revert s n. induction p as [| c p IH]; intros s n Hn.
  - destruct (String.substring 0 n s); destruct s; reflexivity.
  - destruct n as [| n]; [cbn in Hn; lia |].
    destruct s as [| d s]; [reflexivity |]. cbn.
    destruct (Ascii.ascii_dec c d); [| reflexivity].
    apply IH. cbn in Hn. lia.
Qed.

Lemma truthy_substring0 (s : string) (n : nat) :
  (0 < n)%nat -> Js.truthy s = true -> Js.truthy (Js.substring0 n s) = true.
Proof.
  intros Hn. destruct n; [lia |]. destruct s; [discriminate | reflexivity].
Qed.

Lemma or_else_truthy (s d : string) : Js.truthy s = true -> Js.or_else (Some s) d = s.
Proof. intros H. unfold Js.or_else. now rewrite H. Qed.

Lemma or_else_default (s d : string) : Js.or_else (Some s) d = or_default s d.
Proof. destruct s; reflexivity. Qed.

Lemma or_else_empty (s : string) : Js.or_else (Some s) EmptyString = s.
Proof. unfold Js.or_else. destruct s; reflexivity. Qed.

Lemma imap_map_ext {A B C} (f : nat -> B -> C) (g : A -> B) (h : nat -> A -> C)
    (l : list A) :
  (forall i x, l !! i = Some x -> f i (g x) = h i x) ->
  imap f (List.map g l) = imap h l.
Proof.
  revert f h. induction l as [| a l IH]; intros f h H; [reflexivity |].
  cbn. f_equal; [apply (H 0%nat a eq_refl) |].
  apply IH. intros i x Hi. apply (H (Datatypes.S i) x Hi).
Qed.

Section Browser.
Variable now : Z.
Variable toISOString : Z -> string.
Variable JSON_stringify : list StoredImage -> Outcome string.
Variable blob_size : string -> nat.
Variable quota : Storage -> string -> string -> bool.
Variable Date_parse : string -> option Z.
Variable JSON_parse : string -> Outcome (list ParsedImage).
Variable generateImageId : nat -> string.

(** X17. [loadGeneratedImages] never throws.  Without the key, or with an
    empty string under it, it returns no image and leaves the storage as it
    is.  When the stored string cannot be read as an array of images, it
    returns no image and removes the key, so that the next call finds
    nothing.  Otherwise it returns one image for each parsed element, none
    of them generating and each with a valid time stamp, and leaves the
    storage as it is. *)
Theorem loading_clears_unreadable_data (st : Storage) :
  let load := loadGeneratedImages now Date_parse JSON_parse generateImageId in
  (exists loaded, fst (load st) = Returned loaded)
  /\ (st !! "generatedImages" = None \/ st !! "generatedImages" = Some EmptyString ->
      load st = (Returned [], st))
  /\ (forall stored e,
        st !! "generatedImages" = Some stored -> Js.truthy stored = true ->
        JSON_parse stored = Thrown e ->
        load st = (Returned [], delete "generatedImages" st)
        /\ load (delete "generatedImages" st)
           = (Returned [], delete "generatedImages" st))
  /\ (forall stored parsed,
        st !! "generatedImages" = Some stored -> Js.truthy stored = true ->
        JSON_parse stored = Returned parsed ->
        exists loaded,
          load st = (Returned loaded, st)
          /\ length loaded = length parsed
          /\ forall img, In img loaded ->
               isGenerating (image img) = Some false
               /\ exists ms, timestamp (image img) = ValidDate ms).
Proof.
  cbv zeta. unfold loadGeneratedImages, stry, sbind, sret, removeItem.
  split; [| split; [| split]].
  - destruct (st !! "generatedImages") as [stored |]; [| eauto].
    destruct (negb (Js.truthy stored)); [eauto |].
    destruct (JSON_parse stored); eauto.
  - intros [-> | ->]; reflexivity.
  - intros stored e Hs Ht Hp. rewrite Hs, Ht, Hp. cbn.
    split; [reflexivity |]. now rewrite lookup_delete_eq.
  - intros stored parsed Hs Ht Hp. rewrite Hs, Ht, Hp. cbn.
    eexists. split; [reflexivity |]. split; [apply length_imap |].
    intros img Hin. apply list_elem_of_In, elem_of_lookup_imap_1 in Hin.
    destruct Hin as (i & p & -> & _). split; [reflexivity |].
    unfold load_one. cbn.
    destruct (p_timestamp p) as [t |]; [| eauto].
    destruct (Js.truthy t); [| eauto].
    destruct (Date_parse t); eauto.
Qed.

Lemma shrink_fits (l : list GeneratedImage) (s : string) :
  JSON_stringify (prepareForStorage now toISOString l) = Returned s ->
  (blob_size s <= maxSize \/ length l <= 5)%nat ->
  shrink now toISOString JSON_stringify blob_size l = Returned l.
Proof.
  intros Hs Hfit.
  funelim (shrink now toISOString JSON_stringify blob_size l).
  - unfold calculateDataSize in Heq. rewrite Hs in Heq. discriminate Heq.
  - unfold calculateDataSize in Heq0. rewrite Hs in Heq0. injection Heq0 as <-.
    destruct (Nat.ltb_spec maxSize (blob_size s)); [lia | reflexivity].
  - reflexivity.
Qed.

Lemma is_completed_with_expiration_info (img : GeneratedImage) :
  is_completed (with_expiration_info now toISOString img) = is_completed img.
Proof. reflexivity. Qed.

Lemma restored_is_completed (fresh : string) (img : GeneratedImage) :
  is_completed img = true -> is_completed (image (restored now fresh img)) = true.
Proof.
  unfold is_completed.
  cbn [image restored url isGenerating default negb andb].
  rewrite !andb_true_iff, !negb_true_iff. intros [[_ Hu] Hd].
  split; [split; [reflexivity | apply truthy_substring0; [lia | exact Hu]] |].
  unfold Js.startsWith in *. rewrite prefix_substring0; [exact Hd | cbn; lia].
Qed.

(** X18. What is saved loads back.  When there is a completed image, the
    30 most recent completed images fit (their serialization is within
    4 MB or they are at most 5, and the quota accepts it) and the browser
    reads back what it wrote (the stored string is not empty and parses to
    the serialized images, and each written time stamp parses to its
    time), then [loadGeneratedImages] after [saveGeneratedImages] returns
    exactly these images, in order, with the URL cut to 500 and the prompt
    to 200 characters, a valid time stamp, not generating and without the
    fields that are not stored; an image saved with an empty id comes back
    with the id generated at its place, one saved with an empty quality as
    "standard", one saved with an empty model as "unknown", and an image
    whose id, quality and model are not empty keeps them.  Each of them is
    a completed image again, and the storage is left as saved. *)
Theorem saved_images_load_back (images : list GeneratedImage) (st : Storage)
    (s : string) :
  let completed :=
    List.map (with_expiration_info now toISOString) (List.filter is_completed images) in
  let kept := slice_last 30 completed in
  let loaded := imap (fun index => restored now (generateImageId index)) kept in
  List.filter is_completed images <> [] ->
  JSON_stringify (prepareForStorage now toISOString kept) = Returned s ->
  (blob_size s <= maxSize \/ length kept <= 5)%nat ->
  quota st "generatedImages" s = true ->
  Js.truthy s = true ->
  JSON_parse s = Returned (List.map parsed_of (prepareForStorage now toISOString kept)) ->
  (forall img, In img kept ->
     Js.truthy (toISOString (stamp now img)) = true
     /\ Date_parse (toISOString (stamp now img)) = Some (stamp now img)) ->
  let st' :=
    snd (saveGeneratedImages now toISOString JSON_stringify blob_size quota images st) in
  st' = <["generatedImages" := s]> st
  /\ loadGeneratedImages now Date_parse JSON_parse generateImageId st'
     = (Returned loaded, st')
  /\ (length kept <= 30)%nat
  /\ (forall img, In img loaded -> is_completed (image img) = true)
  /\ (forall index img,
        kept !! index = Some img ->
        id img <> EmptyString -> quality img <> EmptyString ->
        model img <> EmptyString ->
        exists back,
          loaded !! index = Some back
          /\ id (image back) = id img
          /\ quality (image back) = quality img
          /\ model (image back) = model img).
Proof.
  cbv zeta.
  set (completed := List.map (with_expiration_info now toISOString)
                      (List.filter is_completed images)).
  set (kept := slice_last 30 completed).
  intros Hne Hs Hfit Hq Ht Hp Hd.
  assert (Hkept : forall img, In img kept ->
            exists img0, In img0 images /\ is_completed img0 = true
                         /\ img = with_expiration_info now toISOString img0).
  { intros img Hin.
    assert (Hc : In img completed).
    { apply list_elem_of_In.
      eapply elem_of_suffix; [apply list_elem_of_In; exact Hin |].
      apply ImageUtilsSpec.slice_last_suffix. }
    apply List.in_map_iff in Hc. destruct Hc as (img0 & <- & Hf).
    apply List.filter_In in Hf. destruct Hf as [Hi Hcomp]. eauto. }
  assert (Hlen : (length completed =? 0)%nat = false).
  { apply Nat.eqb_neq. subst completed. rewrite length_map.
    destruct (List.filter is_completed images); [contradiction | discriminate]. }
  assert (Hsave : snd (saveGeneratedImages now toISOString JSON_stringify blob_size
                         quota images st) = <["generatedImages" := s]> st).
  { cbv [saveGeneratedImages stry sbind spure sret store setItem].
    fold completed. rewrite Hlen. fold kept.
    rewrite (shrink_fits kept s Hs Hfit). rewrite Hs, Hq. reflexivity. }
  rewrite Hsave. split; [reflexivity |]. split; [| split; [| split]].
  - unfold loadGeneratedImages, stry.
    rewrite lookup_insert_eq, Ht, Hp. cbn [negb]. f_equal. f_equal.
    unfold prepareForStorage. rewrite List.map_map.
    apply imap_map_ext. intros i img Hi.
    assert (Hin : In img kept).
    { apply list_elem_of_In. eapply list_elem_of_lookup_2. exact Hi. }
    destruct (Hd img Hin) as [Htr Hdp].
    unfold load_one, restored, parsed_of, prepare_one.
    cbn -[Js.or_else Js.substring0 Js.truthy or_default].
    assert (Etime : match timestamp img with
                    | ValidDate ms => toISOString ms
                    | _ => toISOString now
                    end = toISOString (stamp now img))
      by (unfold stamp; destruct (timestamp img); reflexivity).
    rewrite Etime, Htr, Hdp.
    rewrite !or_else_empty, !or_else_default.
    reflexivity.
  - subst kept. rewrite ImageUtilsSpec.slice_last_length by lia. lia.
  - intros img Hin. apply list_elem_of_In, elem_of_lookup_imap_1 in Hin.
    destruct Hin as (i & img1 & -> & Hi).
    assert (Hin : In img1 kept).
    { apply list_elem_of_In. eapply list_elem_of_lookup_2. exact Hi. }
    destruct (Hkept img1 Hin) as (img0 & _ & Hcomp & ->).
    apply restored_is_completed. exact Hcomp.
  - intros index img Hi Hid Hqu Hmo. eexists. split.
    + rewrite list_lookup_imap, Hi. reflexivity.
    + cbn [image restored id quality model].
      destruct (id img); [contradiction |].
      destruct (quality img); [contradiction |].
      destruct (model img); [contradiction |].
      repeat split.
Qed.

End Browser.

Lemma saved_images_load_back_witness :
  let st' :=
    snd (saveGeneratedImages 0 pretty tiny_stringify String.length tiny_quota
           gallery ∅) in
  st' = {["generatedImages" := "img_1,img_5"]}
  /\ List.map (fun img => (id (image img), url (image img)))
       (match fst (loadGeneratedImages 0 tiny_date tiny_parse (fun _ => "img_new") st')
        with Returned loaded => loaded | Thrown _ => [] end)
     = [ ("img_1", "https://replicate.delivery/1.png");
         ("img_5", "https://blob.vercel-storage.com/5.png") ].
Proof.
  cbv zeta.
  destruct (saved_images_load_back 0 pretty tiny_stringify String.length tiny_quota
              tiny_date tiny_parse (fun _ => "img_new") gallery ∅ "img_1,img_5")
    as (Hst & Hload & _).
  - discriminate.
  - vm_compute. reflexivity.
  - right. vm_compute. lia.
  - reflexivity.
  - reflexivity.
  - reflexivity.
  - intros img Hin.
    assert (E : stamp 0 img = 0%Z).
    { vm_compute in Hin. destruct Hin as [<- | [<- | []]]; reflexivity. }
    rewrite E. split; reflexivity.
  - split; [exact Hst |]. rewrite Hload. vm_compute. reflexivity.
Defined.

(** An image saved without a model or a quality comes back as of the model
    "unknown" and of the quality "standard". *)
Example unnamed_image_gets_defaults :
  let unnamed :=
    {| id := EmptyString; url := "https://replicate.delivery/1.png"; prompt := "a cat";
       timestamp := ValidDate 0; quality := EmptyString; model := EmptyString;
       originalImageId := None; isGenerating := None; isUploaded := None;
       geminiUri := None; isMultiImageEdit := None; sourceImages := None;
       inputImages := None; metadata := None |} in
  let back := restored 0 "img_new" unnamed in
  load_one 0 tiny_date (fun _ => "img_new") 0 (parsed_of (prepare_one 0 pretty unnamed))
  = back
  /\ id (image back) = "img_new"
  /\ quality (image back) = "standard"
  /\ model (image back) = "unknown".
Proof. cbv zeta. repeat split. Qed.

End ImageUtilsLoadSpec.

(** ** The age of a Replicate URL *)

Module ImageUrlValidatorSpec.
Import ImageUtils ImageUrlValidator.

Lemma older_than_a_day (age : Z) :
  Qcompare (inject_Z age / inject_Z (1000 * 60 * 60)) 24 = Gt
  <-> (86400000 < age)%Z.
Proof.
  change (1000 * 60 * 60)%Z with 3600000%Z.
  unfold Qcompare, Qdiv, Qmult, Qinv, inject_Z.
  cbn [Qnum Qden Z.mul Pos.mul].
  change (Z.pos (1 * 3600000)) with 3600000%Z.
  change (24 * 3600000)%Z with 86400000%Z.
  rewrite Z.compare_gt_iff. lia.
Qed.

(** X19. [isLikelyExpiredReplicateUrl] holds exactly for a URL that
    contains replicate.delivery together with a valid time stamp more than
    24 hours (86 400 000 ms) before now; a missing or invalid time stamp
    never counts as expired.  The flags that [saveGeneratedImages] writes
    into the metadata of an image agree with it and with
    [isReplicateDeliveryUrl]. *)
Theorem expiry_needs_a_day_old_replicate_url (now : Z) (url : string)
    (imageTimestamp : JsDate) :
  (isLikelyExpiredReplicateUrl url imageTimestamp now = true
   <-> Js.includes "replicate.delivery" url = true
       /\ exists ms, imageTimestamp = ValidDate ms /\ (86400000 < now - ms)%Z)
  /\ forall toISOString img,
       ImageUtils.url img = url -> timestamp img = imageTimestamp ->
       exists info,
         metadata (with_expiration_info now toISOString img) = Some info
         /\ isReplicateUrl info = EditImage.isReplicateDeliveryUrl url
         /\ isLikelyExpired info = isLikelyExpiredReplicateUrl url imageTimestamp now.
Proof.
  split.
  - unfold isLikelyExpiredReplicateUrl, EditImage.isReplicateDeliveryUrl.
    destruct (Js.includes "replicate.delivery" url); cbn [negb].
    + destruct imageTimestamp as [| | ms].
      * split; [discriminate | intros (_ & ms & [=] & _)].
      * split; [discriminate | intros (_ & ms & [=] & _)].
      * destruct (Qcompare _ 24) eqn:E.
        -- split; [discriminate |]. intros (_ & ms' & [= <-] & H).
           apply older_than_a_day in H. congruence.
        -- split; [discriminate |]. intros (_ & ms' & [= <-] & H).
           apply older_than_a_day in H. congruence.
        -- apply older_than_a_day in E. split; [| reflexivity]. eauto.
    + split; [discriminate | intros [[=] _]].
  - intros toISOString img <- <-. eexists. split; [reflexivity |].
    split; [reflexivity |].
    unfold isLikelyExpiredReplicateUrl, EditImage.isReplicateDeliveryUrl. cbn.
    destruct (Js.includes "replicate.delivery" (ImageUtils.url img)); [| reflexivity].
    destruct (timestamp img); reflexivity.
Qed.

Lemma expiry_needs_a_day_old_replicate_url_witness :
  isLikelyExpiredReplicateUrl "https://replicate.delivery/pbxt/out.png"
    (ValidDate 0) 90000000 = true
  /\ isLikelyExpiredReplicateUrl "https://replicate.delivery/pbxt/out.png"
       (ValidDate 0) 86400000 = false.
Proof.
  split; [| vm_compute; reflexivity].
  apply (expiry_needs_a_day_old_replicate_url 90000000
           "https://replicate.delivery/pbxt/out.png" (ValidDate 0)).
  split; [vm_compute; reflexivity |]. exists 0%Z. split; [reflexivity | lia].
Defined.

End ImageUrlValidatorSpec.

Module ImageUrlRecoverySpec.
Import Eff EditImage ImageUrlValidatorTerms.

(** X30. [ensureImageUrlAccessible] tries three things in a fixed order
    and stops at the first that works: a HEAD request, after which the URL
    is returned as it is; the download of the image, returned as a data
    URL; the conversion proxy, whose data URL is returned.  A request that
    is rejected or not answered ok, or a body that cannot be read, only
    moves on to the next step; when the three fail, the error is always the
    same one, whatever went wrong.  [validateImageUrl] itself never
    throws. *)
Theorem recovery_tries_head_download_proxy (env : Env) (url : string) :
  validateImageUrl env url = ([EvHead url None], Returned (reachable env url))
  /\ ensureImageUrlAccessible env url
     = if reachable env url then ([EvHead url None], Returned url)
       else
         match downloaded env url with
         | Some dataUrl => ([EvHead url None; EvGet url], Returned dataUrl)
         | None =>
             ([EvHead url None; EvGet url; EvProxy url],
              match converted env url with
              | Some dataUrl => Returned dataUrl
              | None => Thrown unrecoverable
              end)
         end.
Proof.
  unfold ensureImageUrlAccessible, validateImageUrl, downloadImageAsDataUrl,
    proxy_conversion, await_fetch, reachable, downloaded, converted.
  munfold.
  destruct (fetch_head env url None) as [e | [[] st txt []]]; cbn;
    (split; [reflexivity |]); try reflexivity;
    destruct (fetch_get env url) as [e' | [[] st' txt' [d | e']]]; cbn;
    try reflexivity;
    destruct (fetch_proxy env url) as [e'' | [[] st'' txt'' [d' | e'']]]; cbn;
    reflexivity.
Qed.

End ImageUrlRecoverySpec.

(** ** The edit-image route: what reaches the providers *)

Module EditImageRouteSpec.
Import Eff EditImage EditImageTerms EditImageRouteTerms.

Ltac solve_calm :=
  unfold calm in *;
  repeat first [ assumption
               | apply List.Forall_nil
               | apply List.Forall_cons; [reflexivity |]
               | apply Forall_app; split ].

(** [ensureImageUrlAccessible] only fetches. *)
Lemma ensure_calm (env : Env) (url : string) :
  calm (log_of (ensureImageUrlAccessible env url)).
Proof.
  unfold ensureImageUrlAccessible, validateImageUrl, downloadImageAsDataUrl,
    proxy_conversion, await_fetch, log_of.
  munfold.
  destruct (fetch_head env url None) as [e | [[] st txt []]];
    destruct (fetch_get env url) as [e' | [[] st' txt' [d | e']]];
    destruct (fetch_proxy env url) as [e'' | [[] st'' txt'' [d' | e'']]];
    cbn; solve_calm.
Qed.

(** The validation of the URL always yields a URL or the answer
    "expired or inaccessible", and calls no provider. *)
Lemma validate_calm (env : Env) (imageUrl : string) (imageId : option string) :
  exists l r,
    validate_for_replicate env imageUrl imageId = (l, Returned r)
    /\ calm l
    /\ match r with inl response => response = expired_response imageUrl | inr _ => True end.
Proof.
  unfold validate_for_replicate.
  destruct (negb (Js.startsWith "data:" imageUrl)
            && negb (Js.includes "blob.vercel-storage.com" imageUrl));
    [| exists [], (inr imageUrl); repeat split; solve_calm].
  unfold head_check, head_check_failed, await_fetch, await_lookup.
  pose proof (ensure_calm env imageUrl) as Hq.
  unfold log_of in *.
  destruct (ensureImageUrlAccessible env imageUrl) as [le [v | e]].
  all: cbn [fst snd] in Hq.
  all: munfold.
  all: destruct (fetch_head env imageUrl (Some 5000)) as [e0 | [[] st txt []]];
       cbn [ok negb].
  all: destruct (lookup_id imageId imageUrl) as [id |];
       [destruct (permanent_url (getImageByLocalId env id)) as [u |] |].
  all: cbn; do 2 eexists; (split; [reflexivity |]); (split; [solve_calm |]);
       try reflexivity; exact I.
Qed.

Lemma catch_edit_error_status (e : JsError) :
  In (resp_status (catch_edit_error e)) [400; 429; 500]%nat
  /\ error_of (catch_edit_error e) <> Some gemini_text.
Proof.
  unfold catch_edit_error.
  repeat match goal with
         | |- context [if ?b then _ else _] => destruct b
         end; cbn; split; (tauto || discriminate).
Qed.

(** What the Replicate branch does once the key is there. *)
Lemma replicate_branch_calls_once (env : Env) (m imageUrl : string)
    (imageId : option string) (prompt quality style size : string) :
  Js.truthy_opt (REPLICATE_API_KEY env) = true ->
  exists l,
    calm l
    /\ (replicate_branch env m imageUrl imageId prompt quality style size
        = (l, Returned (expired_response imageUrl))
        \/ exists v,
             (Js.startsWith "data:" imageUrl = true
              \/ Js.includes "blob.vercel-storage.com" imageUrl = true ->
              l = [] /\ v = imageUrl)
             /\ log_of (replicate_branch env m imageUrl imageId prompt quality style size)
                = (l ++ [EvReplicateEdit m (edit_input prompt v)])%list
             /\ match replicate_editImage env m (edit_input prompt v) with
                | Returned edited =>
                    exists entry md,
                      outcome_of (replicate_branch env m imageUrl imageId prompt
                                    quality style size)
                      = Returned {| resp_status := 200;
                                    resp_json := SuccessJson [entry] md |}
                      /\ img_url entry = edited
                      /\ img_originalUrl entry = imageUrl
                | Thrown e =>
                    outcome_of (replicate_branch env m imageUrl imageId prompt
                                  quality style size) = Thrown e
                end).
Proof.
  intros Hk.
  destruct (validate_calm env imageUrl imageId) as (l & r & Hv & Hc & Hr).
  exists l. split; [exact Hc |].
  destruct r as [response | v].
  - left. subst response. unfold replicate_branch. rewrite Hk, Hv. cbn [negb].
    munfold. cbn. now rewrite app_nil_r.
  - right. exists v. split.
    { intros Hskip. unfold validate_for_replicate in Hv.
      assert (E : negb (Js.startsWith "data:" imageUrl)
                  && negb (Js.includes "blob.vercel-storage.com" imageUrl) = false).
      { destruct Hskip as [-> | ->]; [reflexivity | apply andb_false_r]. }
      rewrite E in Hv. munfold. injection Hv as <- <-. split; reflexivity. }
    destruct (EditImageSpec.replicate_branch_validated env m imageUrl imageId prompt
                quality style size l v Hk Hv) as (md & -> & _).
    split; [reflexivity |].
    destruct (replicate_editImage env m (edit_input prompt v)) as [edited | e];
      [| reflexivity].
    do 2 eexists. split; [reflexivity |]. split; reflexivity.
Qed.

(** X20. An image given as a data URL, or stored at
    blob.vercel-storage.com, is handed to Replicate as it is: for a request
    that passes the guards with a Flux Kontext model, the one outside call
    is the Replicate edit with the image URL of the request, without a HEAD
    request or a lookup before it.  The answer is 200 with the edited URL
    and the URL of the request as original, or the classified error of the
    provider. *)
Theorem inline_and_stored_images_are_not_checked (env : Env) (body : Body)
    (m imageUrl prompt : string) :
  passes_guards env body m imageUrl prompt ->
  is_flux m = true ->
  Js.startsWith "data:" imageUrl = true
  \/ Js.includes "blob.vercel-storage.com" imageUrl = true ->
  log_of (POST env (Returned body)) = [EvReplicateEdit m (edit_input prompt imageUrl)]
  /\ match replicate_editImage env m (edit_input prompt imageUrl) with
     | Returned edited =>
         exists entry md,
           outcome_of (POST env (Returned body))
           = Returned {| resp_status := 200; resp_json := SuccessJson [entry] md |}
           /\ img_url entry = edited
           /\ img_originalUrl entry = imageUrl
     | Thrown e =>
         outcome_of (POST env (Returned body)) = Returned (catch_edit_error e)
     end.
Proof.
  intros Hg Hf Hskip.
  rewrite (EditImageSpec.POST_dispatch env body m imageUrl prompt Hg).
  assert (Hk : Js.truthy_opt (REPLICATE_API_KEY env) = true) by (apply Hg, Hf).
  assert (Hm : String.eqb m "gpt-image-1" = false).
  { destruct (String.eqb_spec m "gpt-image-1") as [-> |]; [discriminate | reflexivity]. }
  unfold dispatch. rewrite Hm, Hf.
  destruct (replicate_branch_calls_once env m imageUrl (imageId body) prompt
              (default "standard" (quality body)) (default "vivid" (style body))
              (default "1024x1024" (size body)) Hk) as (l & Hc & [Hexp | (v & Hv & Hlog & Hout)]).
  - exfalso. unfold replicate_branch in Hexp. rewrite Hk in Hexp. cbn [negb] in Hexp.
    unfold validate_for_replicate in Hexp.
    assert (E : negb (Js.startsWith "data:" imageUrl)
                && negb (Js.includes "blob.vercel-storage.com" imageUrl) = false).
    { destruct Hskip as [-> | ->]; [reflexivity | apply andb_false_r]. }
    rewrite E in Hexp. munfold.
    destruct (replicate_editImage env m _); discriminate Hexp.
  - destruct (Hv Hskip) as [-> ->]. cbn [app] in Hlog.
    unfold log_of, outcome_of in *.
    destruct (replicate_branch env m imageUrl _ _ _ _ _) as [lg out].
    cbn [fst snd] in *. subst lg. munfold.
    destruct (replicate_editImage env m (edit_input prompt imageUrl)) as [edited | e].
    + destruct Hout as (entry & md & -> & H1 & H2). cbn.
      split; [reflexivity |]. eauto.
    + rewrite Hout. cbn. split; reflexivity.
Qed.

Lemma inline_and_stored_images_are_not_checked_witness :
  POST offline (Returned inline_request)
  = ([EvReplicateEdit "flux-kontext-max"
        (edit_input "make it blue" "data:image/png;base64,AAAA")],
     Returned
       {| resp_status := 200;
          resp_json :=
            SuccessJson
              [ {| img_url := "https://replicate.delivery/out.png";
                   img_originalUrl := "data:image/png;base64,AAAA";
                   img_revisedPrompt := "make it blue";
                   img_index := 0 |} ]
              {| md_model := "flux-kontext-max"; md_provider := "replicate";
                 md_quality := "standard"; md_style := "vivid"; md_size := "1024x1024";
                 md_originalPrompt := "make it blue"; md_editMode := true;
                 md_method := "image-to-image"; md_imageCount := 1;
                 md_note := None |} |}).
Proof.
  assert (Hg : passes_guards offline inline_request "flux-kontext-max"
                 "data:image/png;base64,AAAA" "make it blue")
    by (constructor; intros; reflexivity).
  destruct (inline_and_stored_images_are_not_checked offline inline_request
              "flux-kontext-max" "data:image/png;base64,AAAA" "make it blue"
              Hg eq_refl (or_introl eq_refl)) as [Hlog _].
  apply injective_projections; [exact Hlog | vm_compute; reflexivity].
Defined.

(** X21. With GPT-Image-1, an image URL that is not a data URL and that
    contains generativelanguage.googleapis.com or files/ is taken for a
    Gemini file URI: the request is answered 400 and OpenAI is not called.
    The test is on the text of the URL only, so any URL with files/ in its
    path is refused.  With a Flux Kontext model no request is answered
    with this error. *)
Theorem gemini_file_uri_is_refused (env : Env) (body : Body)
    (m imageUrl prompt : string) :
  passes_guards env body m imageUrl prompt ->
  (m = "gpt-image-1" ->
   Js.startsWith "data:" imageUrl = false ->
   Js.includes "generativelanguage.googleapis.com" imageUrl = true
   \/ Js.includes "files/" imageUrl = true ->
   exists response,
     POST env (Returned body) = ([], Returned response)
     /\ resp_status response = 400%nat
     /\ error_of response = Some gemini_text)
  /\ (is_flux m = true ->
      forall response,
        outcome_of (POST env (Returned body)) = Returned response ->
        error_of response <> Some gemini_text).
Proof.
  intros Hg. rewrite (EditImageSpec.POST_dispatch env body m imageUrl prompt Hg).
  split.
  - intros -> Hd Hgem. unfold dispatch. cbn [String.eqb Ascii.eqb Bool.eqb].
    unfold gpt_branch. rewrite Hd.
    assert (E : Js.includes "generativelanguage.googleapis.com" imageUrl
                || Js.includes "files/" imageUrl = true)
      by (destruct Hgem as [-> | ->]; [reflexivity | apply orb_true_r]).
    rewrite E. cbn [negb andb]. munfold. eexists. split; [reflexivity |].
    split; reflexivity.
  - intros Hf response.
    assert (Hk : Js.truthy_opt (REPLICATE_API_KEY env) = true) by (apply Hg, Hf).
    assert (Hm : String.eqb m "gpt-image-1" = false).
    { destruct (String.eqb_spec m "gpt-image-1") as [-> |]; [discriminate | reflexivity]. }
    unfold dispatch. rewrite Hm, Hf.
    destruct (replicate_branch_calls_once env m imageUrl (imageId body) prompt
                (default "standard" (quality body)) (default "vivid" (style body))
                (default "1024x1024" (size body)) Hk)
      as (l & Hc & [Hexp | (v & _ & _ & Hout)]).
    + rewrite Hexp. munfold. cbn. intros [= <-]. discriminate.
    + unfold outcome_of in *.
      destruct (replicate_branch env m imageUrl _ _ _ _ _) as [lg out].
      cbn [snd] in Hout. munfold.
      destruct (replicate_editImage env m (edit_input prompt v)) as [edited | e].
      * destruct Hout as (entry & md & -> & _). cbn. intros [= <-]. discriminate.
      * rewrite Hout. cbn. intros [= <-]. apply catch_edit_error_status.
Qed.

Lemma gemini_file_uri_is_refused_witness :
  exists response,
    POST online (Returned files_request) = ([], Returned response)
    /\ resp_status response = 400%nat
    /\ error_of response = Some gemini_text.
Proof.
  assert (Hg : passes_guards online files_request "gpt-image-1"
                 "https://example.com/files/cat.png" "make it blue")
    by (constructor; intros; reflexivity).
  destruct (gemini_file_uri_is_refused online files_request "gpt-image-1"
              "https://example.com/files/cat.png" "make it blue" Hg) as [H _].
  apply H; [reflexivity | reflexivity | right; vm_compute; reflexivity].
Defined.

(** X22. The edit-image handler never throws, and it calls a provider at
    most once, as its last outside call: the log is a part without
    provider calls followed by nothing or by one provider call.  The status
    of the answer is 200, 400, 429 or 500, and it is 200 only when the
    provider has been called. *)
Theorem edit_calls_a_provider_at_most_once (env : Env) (req : Outcome Body) :
  exists before call response,
    POST env req = ((before ++ call)%list, Returned response)
    /\ calm before
    /\ (call = [] \/ exists ev, call = [ev] /\ is_provider ev = true)
    /\ In (resp_status response) [200; 400; 429; 500]%nat
    /\ (resp_status response = 200%nat -> call <> []).
Proof.
  assert (Hnone : forall st error details,
            In st [400; 500]%nat ->
            exists before call response,
              ([], Returned (error_response st error details))
              = ((before ++ call)%list, Returned response)
              /\ calm before
              /\ (call = [] \/ exists ev, call = [ev] /\ is_provider ev = true)
              /\ In (resp_status response) [200; 400; 429; 500]%nat
              /\ (resp_status response = 200%nat -> call <> [])).
  { intros st error details Hst. exists [], [], (error_response st error details).
    split; [reflexivity |]. split; [solve_calm |]. split; [now left |].
    split; [cbn in *; intuition |].
    cbn. intros ->. cbn in Hst. intuition discriminate. }
  destruct req as [body | e0]; [| apply Hnone; cbn; tauto].
  unfold POST. munfold. cbv beta iota zeta.
  set (m := default "flux-kontext-pro" (model body)).
  destruct (String.eqb m "gpt-image-1" && negb (Js.truthy_opt (OPENAI_API_KEY env)))
    eqn:Hk1; [apply Hnone; cbn; tauto |].
  destruct (is_flux m && negb (Js.truthy_opt (REPLICATE_API_KEY env))) eqn:Hk2;
    [apply Hnone; cbn; tauto |].
  destruct (imageUrl body) as [imageUrl |]; [| apply Hnone; cbn; tauto].
  destruct (negb (Js.truthy imageUrl)); [apply Hnone; cbn; tauto |].
  destruct (prompt body) as [prompt |]; [| apply Hnone; cbn; tauto].
  destruct (negb (Js.truthy prompt)); [apply Hnone; cbn; tauto |].
  unfold dispatch.
  destruct (String.eqb m "gpt-image-1") eqn:Hm.
  - unfold gpt_branch.
    destruct (negb (Js.startsWith "data:" imageUrl) && _).
    + munfold. cbn. exists [], []. eexists. split; [reflexivity |].
      split; [solve_calm |]. split; [now left |]. split; [cbn; tauto |].
      cbn. discriminate.
    + munfold.
      destruct (smartEditWithGPTImage1 env imageUrl prompt _) as [result | e]; cbn.
      * exists []. eexists. eexists. split; [reflexivity |].
        split; [solve_calm |]. split; [right; eexists; split; reflexivity |].
        split; [cbn; tauto | discriminate].
      * exists []. eexists. eexists. split; [reflexivity |].
        split; [solve_calm |]. split; [right; eexists; split; reflexivity |].
        split; [| discriminate].
        destruct (catch_edit_error_status e) as [H _]. cbn in H |- *. tauto.
  - destruct (is_flux m) eqn:Hf.
    + assert (Hk : Js.truthy_opt (REPLICATE_API_KEY env) = true).
      { cbn in Hk2. apply negb_false_iff in Hk2. exact Hk2. }
      destruct (replicate_branch_calls_once env m imageUrl (imageId body) prompt
                  (default "standard" (quality body)) (default "vivid" (style body))
                  (default "1024x1024" (size body)) Hk)
        as (l & Hc & [Hexp | (v & _ & Hlog & Hout)]).
      * rewrite Hexp. cbn. rewrite ?app_nil_r.
        exists l, []. eexists. split; [now rewrite app_nil_r |].
        split; [exact Hc |]. split; [now left |]. split; [cbn; tauto |].
        cbn. discriminate.
      * unfold log_of, outcome_of in *.
        destruct (replicate_branch env m imageUrl _ _ _ _ _) as [lg out].
        cbn [fst snd] in *. subst lg.
        destruct (replicate_editImage env m (edit_input prompt v)) as [edited | e].
        -- destruct Hout as (entry & md & -> & _). cbn. rewrite ?app_nil_r.
           exists l. eexists. eexists. split; [reflexivity |].
           split; [exact Hc |]. split; [right; eexists; split; reflexivity |].
           split; [cbn; tauto | discriminate].
        -- rewrite Hout. cbn. rewrite ?app_nil_r.
           exists l. eexists. eexists. split; [reflexivity |].
           split; [exact Hc |]. split; [right; eexists; split; reflexivity |].
           split; [| discriminate].
           destruct (catch_edit_error_status e) as [H _]. cbn in H |- *. tauto.
    + munfold. cbn. exists [], []. eexists. split; [reflexivity |].
      split; [solve_calm |]. split; [now left |]. split; [cbn; tauto |].
      cbn. discriminate.
Qed.

End EditImageRouteSpec.

(** ** The generate-image route: the provider call and its failure *)

Module GenerateImageRouteSpec.
Import Eff GenerateImage GenerateImageTerms GenerateImageRouteTerms JsObjectTerms.





(** X24. A request with a prompt for a Replicate model, the key being
    configured, makes exactly one call, of the Replicate client, with the
    model and the prompt of the request, the format jpg, the guidance 4.5
    for the style vivid (the default) and 3.5 otherwise, and the aspect
    ratio 16:9 for the size 1792x1024, 9:16 for 1024x1536 and 1:1 for every
    other size, 1536x1024 included (the size not being a name that objects
    inherit, for which the look-up in the table is not undefined).  When
    the client throws, the answer is
    500, Failed to generate image with the model, with the message of the
    error or Image generation failed as details. *)
Theorem replicate_generation_request (env : Env) (body : Body) (p : string) :
  prompt body = Some p -> Js.truthy p = true ->
  is_replicate_model (default "flux-kontext-pro" (model body)) = true ->
  Js.truthy_opt (REPLICATE_API_KEY env) = true ->
  ~ In (default "1024x1024" (size body)) inherited_keys ->
  let m := default "flux-kontext-pro" (model body) in
  let size := default "1024x1024" (size body) in
  let options :=
    {| ro_aspect_ratio :=
         if String.eqb size "1792x1024" then "16:9"
         else if String.eqb size "1024x1536" then "9:16" else "1:1";
       ro_output_format := "jpg";
       ro_guidance_scale :=
         match style body with
         | None | Some "vivid" => (9 # 2)%Q
         | Some _ => (7 # 2)%Q
         end |} in
  log_of (POST env (Returned body)) = [EvReplicateGenerate m p options]
  /\ match replicate_generateImage env m p options with
     | Returned imageUrl =>
         exists md,
           outcome_of (POST env (Returned body))
           = Returned {| resp_status := 200;
                         resp_json :=
                           SuccessJson
                             [ {| img_url := imageUrl; img_revisedPrompt := p;
                                  img_index := 0 |} ] md |}
           /\ md_provider md = "replicate" /\ md_model md = m
           /\ md_quality md = None
     | Thrown e =>
         outcome_of (POST env (Returned body))
         = Returned (error_response 500 ("Failed to generate image with " ++ m)
                       (Some (Js.or_else (err_message e) "Image generation failed")))
     end.
Proof.
  intros Hp Ht Hm Hk _. cbv zeta.
  assert (Hg : String.eqb (default "flux-kontext-pro" (model body)) "gpt-image-1" = false).
  { destruct (String.eqb_spec (default "flux-kontext-pro" (model body)) "gpt-image-1")
      as [E |]; [| reflexivity].
    rewrite E in Hm. discriminate Hm. }
  assert (Ha : aspect_ratio_of (default "1024x1024" (size body))
               = if String.eqb (default "1024x1024" (size body)) "1792x1024" then "16:9"
                 else if String.eqb (default "1024x1024" (size body)) "1024x1536"
                      then "9:16" else "1:1").
  { unfold aspect_ratio_of.
    destruct (String.eqb _ "1024x1024") eqn:E; [| reflexivity].
    apply String.eqb_eq in E. rewrite E. reflexivity. }
  assert (Hs : (if String.eqb (default "vivid" (style body)) "vivid"
                then (9 # 2)%Q else (7 # 2)%Q)
               = match style body with
                 | None | Some "vivid" => (9 # 2)%Q
                 | Some _ => (7 # 2)%Q
                 end).
  { destruct (style body) as [s |]; [| reflexivity]. cbn [default from_option id].
    unfold Datatypes.id.
    destruct (String.eqb_spec s "vivid") as [-> | Hne]; [reflexivity |].
    repeat (destruct s as [| [[] [] [] [] [] [] [] []] s]; try reflexivity;
            try (exfalso; apply Hne; reflexivity)). }
  unfold POST. munfold. cbv beta iota zeta.
  rewrite Hp, Ht, Hg, Hm. cbn [negb].
  unfold replicate_branch. rewrite Hk. cbn [negb]. munfold.
  rewrite Ha, Hs.
  destruct (replicate_generateImage env _ p _) as [imageUrl | e]; cbn.
  - split; [reflexivity |]. eexists. split; [reflexivity |]. repeat split.
  - split; reflexivity.
Qed.

Lemma replicate_generation_request_witness :
  POST failing (Returned (request (Some "a cat") (Some "flux-dev-ultra-fast") None))
  = ([EvReplicateGenerate "flux-dev-ultra-fast" "a cat"
        {| ro_aspect_ratio := "1:1"; ro_output_format := "jpg";
           ro_guidance_scale := (9 # 2)%Q |}],
     Returned (error_response 500 "Failed to generate image with flux-dev-ultra-fast"
                 (Some "NSFW content detected"))).
Proof.
  destruct (replicate_generation_request failing
              (request (Some "a cat") (Some "flux-dev-ultra-fast") None) "a cat"
              eq_refl eq_refl eq_refl eq_refl) as [Hlog Hout].
  { cbn. intuition discriminate. }
  apply injective_projections; [exact Hlog | exact Hout].
Defined.

End GenerateImageRouteSpec.

(** ** The WaveSpeed client: submission, polling and validation *)

Module WaveSpeedClientSpec.
Import Eff WaveSpeed WaveSpeedTerms WaveSpeedClientTerms.

(** X25. When the submission is rejected by the network, answered with
    a status that is not ok, or answered without a task id, the client
    returns [success: false] with the matching error and makes no other
    call: it never sleeps or polls.  The submission carries the payload of
    the request, with the guidance scale 3.5 in place of a missing one or
    of 0. *)
Theorem failed_submission_is_not_polled (service : Service) (this : Client)
    (request : WaveSpeedMultiImageRequest) :
  let submitted := submit service (submit_url this) (payload_of request) in
  let result := generateMultiImageEdit service this request in
  (forall e, submitted = NetworkError e ->
     result = ([EvSubmit (submit_url this) (payload_of request)],
               Returned (failure_response e)))
  /\ (forall st txt text json,
        submitted = Resolved (mkResponse false st txt
                                {| sb_text := Returned text; sb_json := json |}) ->
        result = ([EvSubmit (submit_url this) (payload_of request)],
                  Returned (failure_response
                              (Error ("Failed to submit task: " ++ pretty st ++ " "
                                      ++ text)))))
  /\ (forall st txt text submitResult,
        submitted = Resolved (mkResponse true st txt
                                {| sb_text := text; sb_json := Returned submitResult |}) ->
        Js.truthy_opt (first_truthy (sr_data_id submitResult) (sr_id submitResult))
        = false ->
        result = ([EvSubmit (submit_url this) (payload_of request)],
                  Returned (failure_response
                              (Error "No task ID received from WaveSpeed API"))))
  /\ (guidanceScale request = None \/ guidanceScale request = Some 0%Q ->
      guidance_scale (payload_of request) = (7 # 2)%Q).
Proof.
  cbv zeta. unfold generateMultiImageEdit, await_fetch. munfold.
  fold (payload_of request). fold (submit_url this).
  split; [| split; [| split]].
  - intros e ->. reflexivity.
  - intros st txt text json ->. reflexivity.
  - intros st txt text submitResult -> Hid. cbn.
    destruct (first_truthy (sr_data_id submitResult) (sr_id submitResult))
      as [taskId |]; [| reflexivity].
    cbn in Hid. rewrite Hid. reflexivity.
  - intros [H | H]; unfold payload_of; rewrite H; reflexivity.
Qed.

Lemma failed_submission_is_not_polled_witness :
  generateMultiImageEdit refusing client two_images
  = ([EvSubmit "https://api.wavespeed.ai/api/v3/wavespeed-ai/flux-kontext-max/multi"
        (payload_of two_images)],
     Returned (failure_response
                 (Error "Failed to submit task: 402 insufficient credits"))).
Proof.
  destruct (failed_submission_is_not_polled refusing client two_images)
    as (_ & H & _).
  apply (H 402%nat "Payment Required" "insufficient credits"
           (Thrown (Error "Unexpected token"))).
  reflexivity.
Defined.

(** What the loop yields: the polls follow the schedule, and a response is
    the completed response of the last poll made. *)
Lemma poll_loop_result (service : Service) request resultUrl taskId remaining :
  forall attempts,
    exists k, (k <= remaining)%nat
      /\ log_of (poll_loop service request resultUrl taskId remaining attempts)
         = schedule resultUrl attempts k
      /\ forall response,
           outcome_of (poll_loop service request resultUrl taskId remaining attempts)
           = Returned response ->
           (1 <= k)%nat
           /\ exists imageUrl,
                response = completed_response request imageUrl taskId (attempts + k).
Proof.
  induction remaining as [| remaining IH]; intros attempts.
  - exists 0%nat. split; [lia |]. split; [reflexivity |]. discriminate.
  - cbn [poll_loop]. munfold.
    pose proof (WaveSpeedSpec.poll_once_log service request resultUrl taskId
                  (S attempts)) as Hl.
    assert (Hr : forall l response,
              poll_once service request resultUrl taskId (S attempts)
              = (l, Returned (Some response)) ->
              exists imageUrl,
                response = completed_response request imageUrl taskId (S attempts)).
    { unfold poll_once, await_fetch. munfold. intros l response.
      destruct (poll service resultUrl (S attempts)) as [e | [[] st txt [r | e]]];
        cbn; try discriminate.
      destruct (if opt_is _ "completed" then _ else None) as [[| u us] |];
        try (destruct (opt_is _ "failed")); try discriminate.
      intros [= _ <-]. eauto. }
    unfold log_of, outcome_of in *.
    destruct (poll_once service request resultUrl taskId (S attempts))
      as [l [[response |] | e]] eqn:Hpoll; cbn [fst] in Hl; subst l.
    + exists 1%nat. split; [lia |]. split; [reflexivity |].
      cbn. intros r [= <-]. split; [lia |].
      destruct (Hr _ _ eq_refl) as [imageUrl ->]. exists imageUrl.
      now rewrite Nat.add_1_r.
    + destruct (IH (S attempts)) as (k & Hk & Hlog & Hout).
      exists (Datatypes.S k). split; [lia |].
      destruct (poll_loop service request resultUrl taskId remaining (S attempts))
        as [l' r']. cbn in *. subst l'. split; [reflexivity |].
      intros response Heq. destruct (Hout response Heq) as [Hk1 [imageUrl ->]].
      split; [lia |]. exists imageUrl. f_equal. lia.
    + destruct (maxAttempts <=? S attempts)%nat.
      * exists 1%nat. split; [lia |]. split; [reflexivity |]. discriminate.
      * destruct (IH (S attempts)) as (k & Hk & Hlog & Hout).
        exists (Datatypes.S k). split; [lia |].
        destruct (poll_loop service request resultUrl taskId remaining (S attempts))
          as [l' r']. cbn in *. subst l'. split; [reflexivity |].
        intros response Heq. destruct (Hout response Heq) as [Hk1 [imageUrl ->]].
        split; [lia |]. exists imageUrl. f_equal. lia.
Qed.

(** X26. Once the submission is accepted with a task id, the client
    polls the result URL of the task: after the submission its calls are,
    for some number of turns between 0 and 120, a sleep of one second
    followed by a poll numbered from 1.  It always returns a response.  A
    successful response carries the task id, names the model and reports as
    execution time one second for each poll made; an unsuccessful one
    carries an error text. *)
Theorem accepted_task_is_polled_on_schedule (service : Service) (this : Client)
    (request : WaveSpeedMultiImageRequest) (st : nat) (txt : string)
    (text : Outcome string) (submitResult : SubmitResult) (taskId : string) :
  submit service (submit_url this) (payload_of request)
  = Resolved (mkResponse true st txt
                {| sb_text := text; sb_json := Returned submitResult |}) ->
  first_truthy (sr_data_id submitResult) (sr_id submitResult) = Some taskId ->
  Js.truthy taskId = true ->
  let resultUrl := baseUrl this ++ "/predictions/" ++ taskId ++ "/result" in
  exists turns response,
    (turns <= 120)%nat
    /\ generateMultiImageEdit service this request
       = (EvSubmit (submit_url this) (payload_of request) :: schedule resultUrl 0 turns,
          Returned response)
    /\ (success response = true ->
        WaveSpeed.taskId response = Some taskId
        /\ (exists imageUrl, WaveSpeed.imageUrl response = Some imageUrl)
        /\ exists md,
             metadata response = Some md
             /\ md_model md = "wavespeed-ai/flux-kontext-max/multi"
             /\ md_executionTime md = Some (turns * 1000)%nat)
    /\ (success response = false -> exists text, error response = Some text).
Proof.
  intros Hsub Hid Htruthy. cbv zeta.
  unfold generateMultiImageEdit, await_fetch. munfold.
  fold (payload_of request). fold (submit_url this).
  rewrite Hsub. cbn [ok negb payload sb_json]. rewrite Hid, Htruthy. cbn [negb].
  set (resultUrl := (baseUrl this ++ "/predictions/" ++ taskId ++ "/result")).
  destruct (poll_loop_result service request resultUrl taskId maxAttempts 0%nat)
    as (k & Hk & Hlog & Hout).
  unfold log_of, outcome_of in *.
  destruct (poll_loop service request resultUrl taskId maxAttempts 0)
    as [l [r | e]]; cbn [fst snd] in *; subst l.
  - destruct (Hout r eq_refl) as [_ [imageUrl ->]].
    exists k. eexists. split; [exact Hk |]. split.
    { cbn. rewrite ?app_nil_r. reflexivity. }
    split; [| discriminate].
    intros _. split; [reflexivity |]. split; [eauto |].
    eexists. split; [reflexivity |]. split; reflexivity.
  - exists k. eexists. split; [exact Hk |]. split.
    { cbn. rewrite ?app_nil_r. reflexivity. }
    split; [discriminate |]. intros _. cbn. eauto.
Qed.

Lemma accepted_task_is_polled_on_schedule_witness :
  generateMultiImageEdit completed_at_third client two_images
  = (EvSubmit (submit_url client) (payload_of two_images) :: schedule result_url 0 3,
     Returned (completed_response two_images "https://cdn.wavespeed.ai/out.png"
                 "task-1" 3))
  /\ exists turns response,
       (turns <= 120)%nat
       /\ generateMultiImageEdit completed_at_third client two_images
          = (EvSubmit (submit_url client) (payload_of two_images)
               :: schedule result_url 0 turns,
             Returned response).
Proof.
  split; [vm_compute; reflexivity |].
  destruct (accepted_task_is_polled_on_schedule completed_at_third client two_images
              200%nat "OK" (Returned EmptyString)
              {| sr_data_id := Some "task-1"; sr_id := None |} "task-1"
              eq_refl eq_refl eq_refl) as (turns & response & Hle & H & _).
  exists turns, response. split; [exact Hle | exact H].
Defined.

Lemma image_errors_nil (index : nat) (image : string) :
  image_errors index image = [] <-> accepted_image image = true.
Proof.
  unfold image_errors, accepted_image.
  destruct image as [| c t]; [cbn; split; discriminate |].
  cbn [Js.truthy negb].
  destruct (Js.startsWith "data:" (String c t)), (Js.startsWith "http" (String c t));
    cbn; split; (reflexivity || discriminate).
Qed.

Lemma image_errors_length (index : nat) (image : string) :
  (length (image_errors index image) <= 1)%nat.
Proof.
  unfold image_errors.
  destruct (negb (Js.truthy image)); [cbn; lia |].
  destruct (negb _ && negb _); cbn; lia.
Qed.

Lemma per_image_errors (f : nat -> nat) (imgs : list string) :
  (concat (imap (fun i => image_errors (f i)) imgs) = []
   <-> Forall (fun image => accepted_image image = true) imgs)
  /\ (length (concat (imap (fun i => image_errors (f i)) imgs)) <= length imgs)%nat.
Proof.
  revert f. induction imgs as [| a imgs IH]; intros f.
  - cbn. split; [split; [constructor | reflexivity] | lia].
  - rewrite imap_cons. cbn [concat].
    destruct (IH (fun i => f (Datatypes.S i))) as [IH1 IH2].
    change (imap ((fun i => image_errors (f i)) ∘ Datatypes.S) imgs)
      with (imap (fun i => image_errors (f (Datatypes.S i))) imgs).
    split.
    + split.
      * intros H. apply app_eq_nil in H. destruct H as [Ha Hl].
        constructor; [now apply image_errors_nil in Ha | now apply IH1].
      * intros H. apply Forall_cons_1 in H. destruct H as [Ha Hl].
        rewrite (proj2 (image_errors_nil (f 0%nat) a) Ha), (proj2 IH1 Hl).
        reflexivity.
    + rewrite length_app. pose proof (image_errors_length (f 0%nat) a). cbn. lia.
Qed.

(** When [validateImages] finds no error. *)
Lemma validateImages_valid (imgs : list string) :
  fst (validateImages imgs) = true
  <-> (1 <= length imgs <= 10)%nat
      /\ Forall (fun image => accepted_image image = true) imgs.
Proof.
  unfold validateImages. cbn [fst snd].
  destruct (per_image_errors (fun i => i) imgs) as [Hnil _].
  change (imap (fun i => image_errors i) imgs) with (imap image_errors imgs) in *.
  set (per_image := concat (imap image_errors imgs)) in *.
  rewrite Nat.eqb_eq, length_zero_iff_nil.
  destruct (Nat.eqb_spec (length imgs) 0) as [H0 | H0];
    [split; [discriminate | intros [? _]; lia] |].
  destruct (Nat.ltb_spec 10 (length imgs)) as [H10 | H10];
    [split; [discriminate | intros [? _]; lia] |].
  cbn [app]. rewrite Hnil. split; [intros H; split; [lia | exact H] | tauto].
Qed.

(** X27. [validateImages] accepts a list exactly when it holds between 1
    and 10 images and each of them starts with data: or with http.  It
    reports at most one error for each image and one for the number of
    images. *)
Theorem images_are_valid_when_all_are_urls (imgs : list string) :
  (fst (validateImages imgs) = true
   <-> (1 <= length imgs <= 10)%nat
       /\ Forall (fun image => accepted_image image = true) imgs)
  /\ (length (snd (validateImages imgs)) <= length imgs + 1)%nat.
Proof.
  split; [apply validateImages_valid |].
  unfold validateImages. cbn [snd].
  destruct (per_image_errors (fun i => i) imgs) as [_ Hlen].
  change (imap (fun i => image_errors i) imgs) with (imap image_errors imgs) in *.
  set (per_image := concat (imap image_errors imgs)) in *.
  destruct (Nat.eqb_spec (length imgs) 0) as [H0 | H0];
    destruct (Nat.ltb_spec 10 (length imgs)) as [H10 | H10];
    cbn [app length]; lia.
Qed.

Lemma images_are_valid_when_all_are_urls_witness :
  validateImages ["https://example.com/a.png"; "ftp://example.com/b.png"; EmptyString]
  = (false, ["Image 2 must be a data URL or HTTP URL"; "Image 3 is invalid"])
  /\ fst (validateImages ["https://example.com/a.png"; "data:image/png;base64,AA"])
     = true.
Proof.
  split; [vm_compute; reflexivity |].
  apply (images_are_valid_when_all_are_urls
           ["https://example.com/a.png"; "data:image/png;base64,AA"]).
  split; [cbn; lia |]. repeat (apply List.Forall_cons; [reflexivity |]).
  apply List.Forall_nil.
Defined.

#[local] Arguments poll_loop : simpl never.

(** The first call of the client is the submission of the payload. *)
Lemma submission_comes_first (service : Service) (this : Client)
    (request : WaveSpeedMultiImageRequest) :
  exists rest,
    log_of (generateMultiImageEdit service this request)
    = EvSubmit (submit_url this) (payload_of request) :: rest.
Proof.
  unfold generateMultiImageEdit, await_fetch, log_of. munfold.
  fold (payload_of request). fold (submit_url this).
  destruct (submit service (submit_url this) (payload_of request))
    as [e | [[] st txt [tx js]]]; cbn.
  - eauto.
  - destruct js as [sr | e]; cbn; [| eauto].
    destruct (first_truthy (sr_data_id sr) (sr_id sr)) as [taskId |]; cbn; [| eauto].
    destruct (negb (Js.truthy taskId)); cbn; [eauto |].
    destruct (poll_loop service request
                (baseUrl this ++ "/predictions/" ++ taskId ++ "/result")
                taskId maxAttempts 0) as [l [r | e]];
      cbn; eauto.
  - destruct tx; cbn; eauto.
Qed.

End WaveSpeedClientSpec.

(** ** The edit-multi-image route: what the client is given *)

Module EditMultiImageRouteSpec.
Import Eff EditMultiImage EditMultiImageTerms EditMultiImageRouteTerms.

#[local] Arguments WaveSpeed.poll_loop : simpl never.

Lemma all_strings_map (urls : list string) : all_strings (List.map JStr urls) = inr urls.
Proof.
  induction urls as [| u urls IH]; [reflexivity |]. cbn. now rewrite IH.
Qed.

Lemma all_strings_inl (imgs : list json) :
  Exists (fun v => is_string v = false) imgs ->
  exists v, all_strings imgs = inl v /\ In v imgs /\ is_string v = false.
Proof.
  induction 1 as [v imgs Hv | w imgs Hex IH].
  - exists v. destruct v; try discriminate; cbn; auto.
  - destruct IH as (v & Hv & Hin & Hs).
    destruct w; try (eexists; split; [reflexivity |]; split; [now left | reflexivity]).
    exists v. cbn. rewrite Hv. auto.
Qed.

(** The checks of the route on a body whose images are strings. *)
Lemma POST_accepted (env : Env) (body : Body) (urls : list string) (p key : string) :
  images body = Some (JArr (List.map JStr urls)) ->
  (2 <= length urls <= 10)%nat ->
  prompt body = Some (JStr p) -> only_whitespace p = false ->
  WAVESPEED_API_KEY env = Some key -> Js.truthy key = true ->
  POST env (Returned body)
  = try_catch
      (bind (call (EvNewClient (Some key)) (Returned (client_of key))) (fun client =>
       generate env client urls p (default (7 # 2)%Q (guidanceScale body))
         (default "2" (safetyTolerance body))))
      (fun error =>
         mret (error_response 500 "Internal server error"
                 (Some (default "Unknown error occurred" (err_message error))))).
Proof.
  intros Hi Hlen Hp Hw Hk Ht. unfold POST. munfold. cbv beta iota zeta.
  rewrite Hi, Hp.
  destruct urls as [| u urls]; [cbn in Hlen; lia |].
  cbn [List.map]. rewrite EditMultiImageSpec.blank_prompt, Hw.
  change (JStr u :: List.map JStr urls) with (List.map JStr (u :: urls)).
  rewrite length_map.
  assert (H2 : (length (u :: urls) <? 2)%nat = false) by (apply Nat.ltb_ge; lia).
  assert (H10 : (10 <? length (u :: urls))%nat = false) by (apply Nat.ltb_ge; lia).
  rewrite H2, H10, Hk. cbn [Js.truthy_opt]. rewrite Ht. cbn [negb].
  rewrite all_strings_map.
  unfold WaveSpeed.new_client. cbn [Js.or_else].
  repeat (rewrite Ht; cbn [negb]).
  unfold client_of.
  destruct (generate env _ (u :: urls) p _ _) as [l [r | e]]; reflexivity.
Qed.

(** X28. For a request that passes the checks of the route (2 to 10
    images, all strings, a prompt, the key configured) the client is built
    with the key.  When some image does not start with data: or http, the
    answer is 400, Invalid images provided, and the client is not called.
    Otherwise the client is called once with the images and the prompt of
    the request, and its failure is answered 500 with its error text.  On
    success the answer is 200; the model it names is the one the client
    reports, wavespeed-ai/flux-kontext-max/multi, the image count is the
    number of input images, and the guidance scale is the one of the
    request, also when that is 0 and the client has sent 3.5 in its
    place. *)
Theorem multi_edit_hands_the_request_to_the_client (env : Env) (body : Body)
    (urls : list string) (p key : string) :
  images body = Some (JArr (List.map JStr urls)) ->
  (2 <= length urls <= 10)%nat ->
  prompt body = Some (JStr p) -> only_whitespace p = false ->
  WAVESPEED_API_KEY env = Some key -> Js.truthy key = true ->
  let request := request_of body urls p in
  let run := WaveSpeed.generateMultiImageEdit (service env) (client_of key) request in
  (Forall (fun image => WaveSpeedClientTerms.accepted_image image = true) urls ->
   exists result,
     outcome_of run = Returned result
     /\ log_of (POST env (Returned body))
        = EvNewClient (Some key) :: List.map EvClient (log_of run)
     /\ (exists rest,
           log_of run
           = WaveSpeed.EvSubmit (WaveSpeedClientTerms.submit_url (client_of key))
               (WaveSpeedClientTerms.payload_of request) :: rest)
     /\ (guidanceScale body = Some 0%Q ->
         WaveSpeed.guidance_scale (WaveSpeedClientTerms.payload_of request) = (7 # 2)%Q)
     /\ (WaveSpeed.success result = false ->
         outcome_of (POST env (Returned body))
         = Returned (error_response 500 "Multi-image generation failed"
                       (Some (Js.or_else (WaveSpeed.error result)
                                "Unknown error occurred"))))
     /\ (WaveSpeed.success result = true ->
         exists entry md,
           outcome_of (POST env (Returned body))
           = Returned {| resp_status := 200; resp_json := SuccessJson [entry] md |}
           /\ img_url entry = WaveSpeed.imageUrl result
           /\ md_model md = "wavespeed-ai/flux-kontext-max/multi"
           /\ md_imageCount md = length urls
           /\ md_guidanceScale md = default (7 # 2)%Q (guidanceScale body)))
  /\ (~ Forall (fun image => WaveSpeedClientTerms.accepted_image image = true) urls ->
      POST env (Returned body)
      = ([EvNewClient (Some key)],
         Returned (error_response 400 "Invalid images provided"
                     (Some (join (snd (WaveSpeed.validateImages urls))))))).
Proof.
  intros Hi Hlen Hp Hw Hk Ht. cbv zeta.
  rewrite (POST_accepted env body urls p key Hi Hlen Hp Hw Hk Ht).
  pose proof (WaveSpeedClientSpec.validateImages_valid urls) as Hvalid.
  unfold generate. munfold. split.
  - intros Hall.
    assert (Hv : fst (WaveSpeed.validateImages urls) = true)
      by (apply Hvalid; split; [lia | exact Hall]).
    rewrite Hv. cbn [negb]. fold (request_of body urls p).
    destruct (WaveSpeedSpec.generateMultiImageEdit_returns (service env) (client_of key)
                (request_of body urls p)) as (log & result & Hrun & _).
    destruct (WaveSpeedClientSpec.submission_comes_first (service env) (client_of key)
                (request_of body urls p)) as [rest Hfirst].
    rewrite Hrun in *. exists result. cbn [outcome_of log_of fst snd] in *.
    split; [reflexivity |].
    split.
    { destruct (negb (WaveSpeed.success result)); cbn; rewrite ?app_nil_r; reflexivity. }
    split; [eauto |].
    split.
    { intros H0. unfold WaveSpeedClientTerms.payload_of, request_of. cbn.
      rewrite H0. reflexivity. }
    split.
    + intros Hs. rewrite Hs. cbn. reflexivity.
    + intros Hs. rewrite Hs. cbn. do 2 eexists. split; [reflexivity |].
      split; [reflexivity |].
      assert (Hmd : exists md, WaveSpeed.metadata result = Some md
                               /\ WaveSpeed.md_model md = WaveSpeed.model_name).
      { unfold WaveSpeed.generateMultiImageEdit in Hrun. munfold.
        destruct (WaveSpeed.await_fetch _ _) as [l0 [submitResponse | e0]];
          cbn in Hrun.
        - destruct (negb (ok submitResponse)).
          + destruct (WaveSpeed.sb_text (payload submitResponse)); cbn in Hrun;
              injection Hrun as _ <-; discriminate Hs.
          + destruct (WaveSpeed.sb_json (payload submitResponse)) as [sr | e1];
              cbn in Hrun; [| injection Hrun as _ <-; discriminate Hs].
            destruct (WaveSpeed.first_truthy _ _) as [taskId |];
              [| cbn in Hrun; injection Hrun as _ <-; discriminate Hs].
            destruct (negb (Js.truthy taskId));
              [cbn in Hrun; injection Hrun as _ <-; discriminate Hs |].
            destruct (WaveSpeedClientSpec.poll_loop_result (service env)
                        (request_of body urls p)
                        (WaveSpeed.baseUrl (client_of key) ++ "/predictions/"
                         ++ taskId ++ "/result") taskId WaveSpeed.maxAttempts 0%nat)
              as (k & _ & _ & Hout).
            unfold outcome_of in Hout.
            destruct (WaveSpeed.poll_loop _ _ _ _ _ _) as [l1 [r1 | e1]];
              cbn in Hrun; injection Hrun as _ <-; [| discriminate Hs].
            destruct (Hout r1 eq_refl) as [_ [imageUrl ->]].
            eexists. split; reflexivity.
        - injection Hrun as _ <-. discriminate Hs. }
      destruct Hmd as (md & Hmd & Hmodel). rewrite Hmd. cbn.
      split; [exact Hmodel |]. split; reflexivity.
  - intros Hnot.
    assert (Hv : fst (WaveSpeed.validateImages urls) = false).
    { destruct (fst (WaveSpeed.validateImages urls)) eqn:E; [| reflexivity].
      exfalso. apply Hnot. now apply Hvalid. }
    rewrite Hv. reflexivity.
Qed.

Lemma multi_edit_hands_the_request_to_the_client_witness :
  (exists entry md,
     outcome_of (POST with_key (Returned two_urls))
     = Returned {| resp_status := 200; resp_json := SuccessJson [entry] md |}
     /\ md_model md = "wavespeed-ai/flux-kontext-max/multi"
     /\ md_imageCount md = 2%nat
     /\ md_guidanceScale md = 0%Q)
  /\ WaveSpeed.guidance_scale
       (WaveSpeedClientTerms.payload_of
          (request_of two_urls ["https://example.com/a.png"; "https://example.com/b.png"]
             "merge the two pictures")) = (7 # 2)%Q.
Proof.
  destruct (multi_edit_hands_the_request_to_the_client with_key two_urls
              ["https://example.com/a.png"; "https://example.com/b.png"]
              "merge the two pictures" "ws-test" eq_refl ltac:(cbn; lia) eq_refl eq_refl
              eq_refl eq_refl) as [H _].
  destruct H as (result & Hrun & _ & _ & Hg & _ & Hs).
  { repeat (apply List.Forall_cons; [reflexivity |]). apply List.Forall_nil. }
  split; [| apply Hg; reflexivity].
  vm_compute in Hrun. injection Hrun as <-.
  destruct (Hs eq_refl) as (entry & md & Hout & _ & Hm & Hc & Hgs).
  exists entry, md. repeat split; assumption.
Defined.

(** X29. An element of [images] that is not a string is not answered as
    an invalid image: for a request that passes the other checks of the
    route, the first such element makes the handler fail before the client
    is built, and the answer is 500, Internal server error, with the
    message of the type error as details. *)
Theorem image_that_is_not_a_string_is_a_server_error (env : Env) (body : Body)
    (imgs : list json) (p : string) :
  images body = Some (JArr imgs) ->
  (2 <= length imgs <= 10)%nat ->
  prompt body = Some (JStr p) -> only_whitespace p = false ->
  Js.truthy_opt (WAVESPEED_API_KEY env) = true ->
  Exists (fun v => is_string v = false) imgs ->
  exists v,
    In v imgs /\ is_string v = false
    /\ POST env (Returned body)
       = ([], Returned (error_response 500 "Internal server error"
                          (err_message (startsWith_TypeError v)))).
Proof.
  intros Hi Hlen Hp Hw Hk Hex.
  destruct (all_strings_inl imgs Hex) as (v & Hv & Hin & Hs).
  exists v. split; [exact Hin |]. split; [exact Hs |].
  unfold POST. munfold. cbv beta iota zeta. rewrite Hi, Hp.
  destruct imgs as [| i imgs]; [cbn in Hlen; lia |].
  rewrite EditMultiImageSpec.blank_prompt, Hw.
  assert (H2 : (length (i :: imgs) <? 2)%nat = false) by (apply Nat.ltb_ge; lia).
  assert (H10 : (10 <? length (i :: imgs))%nat = false) by (apply Nat.ltb_ge; lia).
  rewrite H2, H10, Hk, Hv. cbn [negb].
  destruct v; reflexivity.
Qed.

Lemma image_that_is_not_a_string_is_a_server_error_witness :
  POST with_key (Returned url_and_number)
  = ([], Returned (error_response 500 "Internal server error"
                     (Some "url.startsWith is not a function"))).
Proof.
  destruct (image_that_is_not_a_string_is_a_server_error with_key url_and_number
              [JStr "https://example.com/a.png"; JNum 7] "merge the two pictures"
              eq_refl ltac:(cbn; lia) eq_refl eq_refl eq_refl
              ltac:(apply Exists_cons_tl, Exists_cons_hd; reflexivity))
    as (v & Hin & Hs & H).
  destruct Hin as [<- | [<- | []]]; [discriminate Hs | exact H].
Defined.

End EditMultiImageRouteSpec.
